(** * Attendance verification and audit workflow (src/App.tsx)

    A shallow embedding of the logic of [App.tsx]: the [DatabaseHelper]
    calls, the form handlers of the pages and the report view.

    - JavaScript strings are [string]s (sequences of 8-bit code units; the
      text handled here is ASCII), arrays are [list]s, a number that need
      not be an integer is a [JS.number].
    - The remote store behind [supabase] is a record of tables, and a flag
      says whether it can be reached.
    - Handlers are computations in a state-and-exception monad over a
      [World]: the store, the source of [Math.random], the log of
      [window.alert] and the React state that the handlers read or set.
      An [await] is the sequencing of the monad: one handler runs at a
      time, and a refresh it starts is over when it returns.
    - [new Date()], [Date.now()], the text of an input and the geolocation
      reading are arguments of the handler that asks for them; the props of
      a component are arguments of its handlers, and the definitions named
      after a component ([DailyReportView_handleAudit], ...) pass what the
      parent passes.
    - What a page has loaded (its list of check-ins, its list of users,
      the current user) is a copy held in the [World] beside the store,
      and can be older than the store: other pages write to the same
      store.
    - The state of the browser tab that the handlers of a session read
      or set ([sessionStorage], the page and the view in sight, the text
      of the token input) is a second record layered over the world.
    - Left out, having no part in what is proved: the [loading] flags,
      [setSelectedRecord], [setSelectedDate], [console.error], the
      camera and the markup. *)

From Stdlib Require Import String Ascii List ZArith QArith Qround Lia Bool Arith.
From Stdlib Require Import DecimalString DecimalZ.
Import ListNotations.

Close Scope Q_scope.
Open Scope string_scope.

(* ================================================================== *)
(** * JavaScript primitives used by the source *)
(* ================================================================== *)

Module JS.

(** [!s] for a string: only the empty string is falsy. *)
Definition falsy (s : string) : bool :=
  match s with EmptyString => true | String _ _ => false end.

Definition truthy (s : string) : bool := negb (falsy s).

(** [a || b] on strings. *)
Definition or_else (a b : string) : string := if truthy a then a else b.

(** [s.charAt(i)]: the one-character string at index [i], or the empty
    string when [i] is out of range. *)
Definition charAt (s : string) (i : Z) : string :=
  if (i <? 0)%Z then EmptyString
  else match String.get (Z.to_nat i) s with
       | Some c => String c EmptyString
       | None => EmptyString
       end.

(** [s.split(sep)] for a one-character separator: never empty, the
    pieces between the separators in order. *)
Fixpoint split (sep : ascii) (s : string) : list string :=
  match s with
  | EmptyString => [EmptyString]
  | String c s' =>
      if Ascii.eqb c sep then EmptyString :: split sep s'
      else match split sep s' with
           | [] => [String c EmptyString]
           | w :: ws => String c w :: ws
           end
  end.

(** [arr.join(sep)]. *)
Definition join (sep : string) (l : list string) : string :=
  String.concat sep l.

(** White space removed by [trim]: tab, line feed, vertical tab, form
    feed, carriage return and space. *)
Definition isWhiteSpace (c : ascii) : bool :=
  let n := nat_of_ascii c in
  (((9 <=? n) && (n <=? 13)) || (n =? 32))%nat.

Fixpoint trimStart (s : string) : string :=
  match s with
  | EmptyString => EmptyString
  | String c s' => if isWhiteSpace c then trimStart s' else s
  end.

(** [trimEnd] keeps a character when it is not white space or when
    something is left after it. *)
Fixpoint trimEnd (s : string) : string :=
  match s with
  | EmptyString => EmptyString
  | String c s' =>
      match trimEnd s' with
      | EmptyString => if isWhiteSpace c then EmptyString
                       else String c EmptyString
      | t => String c t
      end
  end.

Definition trim (s : string) : string := trimEnd (trimStart s).

Definition lowerChar (c : ascii) : ascii :=
  let n := nat_of_ascii c in
  if ((65 <=? n) && (n <=? 90))%nat then ascii_of_nat (n + 32) else c.

Fixpoint toLowerCase (s : string) : string :=
  match s with
  | EmptyString => EmptyString
  | String c s' => String (lowerChar c) (toLowerCase s')
  end.

(** [s.replace(/c/g, d)] for single characters [c] and [d]. *)
Fixpoint replaceAll (c d : ascii) (s : string) : string :=
  match s with
  | EmptyString => EmptyString
  | String x s' => String (if Ascii.eqb x c then d else x) (replaceAll c d s')
  end.

(** [n.toString()] for an integral number: decimal digits, with a
    leading minus sign for a negative one. *)
Definition intToString (n : Z) : string :=
  NilZero.string_of_int (Z.to_int n).

Definition isDigit (c : ascii) : bool :=
  let n := nat_of_ascii c in ((48 <=? n) && (n <=? 57))%nat.

Fixpoint allDigits (s : string) : bool :=
  match s with
  | EmptyString => true
  | String c s' => isDigit c && allDigits s'
  end.

(** JavaScript numbers that are not integers by construction: a finite
    double is represented by its exact rational value. *)
Inductive number : Type :=
| Finite (q : Q)
| NaN
| PosInfinity
| NegInfinity.

Definition isFinite (x : number) : bool :=
  match x with Finite _ => true | _ => false end.

(** [Math.floor] of a finite value. *)
Definition floor (q : Q) : Z := Qfloor q.

(** [encodeURI]: the characters it leaves alone. *)
Definition uriKept (c : ascii) : bool :=
  let n := nat_of_ascii c in
  (((97 <=? n) && (n <=? 122)) || ((65 <=? n) && (n <=? 90))
   || ((48 <=? n) && (n <=? 57)))%nat
  || existsb (Nat.eqb n)
       [59; 44; 47; 63; 58; 64; 38; 61; 43; 36;
        45; 95; 46; 33; 126; 42; 39; 40; 41; 35]%nat.

Definition hexDigit (n : nat) : ascii :=
  if (n <? 10)%nat then ascii_of_nat (48 + n) else ascii_of_nat (55 + n).

Fixpoint encodeURI (s : string) : string :=
  match s with
  | EmptyString => EmptyString
  | String c s' =>
      if uriKept c then String c (encodeURI s')
      else let n := nat_of_ascii c in
           String "%" (String (hexDigit (n / 16))
                         (String (hexDigit (n mod 16)) (encodeURI s')))
  end.

End JS.

(* ================================================================== *)
(** * Types (the interfaces at the top of App.tsx) *)
(* ================================================================== *)

Module Comment.
Record t : Type := Build {
  id : string;
  adminId : string;
  adminName : string;
  text : string;
  timestamp : string
}.
End Comment.

Module EditHistory.
Record t : Type := Build {
  id : string;
  editorId : string;
  editorName : string;
  action : string;
  timestamp : string
}.
End EditHistory.

Module Location.
Record t : Type := Build { lat : JS.number; lng : JS.number }.
End Location.

Module AttendanceRecord.
Record t : Type := Build {
  id : string;
  userId : string;
  userName : string;
  date : string;
  time : string;
  position : string;
  photo : string;
  description : string;
  location : Location.t;
  comments : list Comment.t;
  editHistory : list EditHistory.t
}.
End AttendanceRecord.

Inductive Role : Type := member | admin.

Module UserT.
Record t : Type := Build {
  nip : string;
  name : string;
  password : string;
  role : Role
}.
End UserT.

(** A reading of the clock ([new Date()], [Date.now()]): milliseconds
    since the epoch. *)
Definition Date : Type := Z.

(* ================================================================== *)
(** * The remote store *)
(* ================================================================== *)

(** Rows of the [attendances] table, with the columns [addAttendance]
    writes and [getAttendances] reads. [id] is given by the store;
    [photo_url] is read by [getAttendances] and written by nothing in this
    program; a column that can be null is an [option]. *)
Module AttendanceRow.
Record t : Type := Build {
  id : string;
  user_id : string;
  user_name : string;
  date : string;
  time : string;
  position : string;
  photo : string;
  photo_url : option string;
  description : string;
  location_lat : JS.number;
  location_lng : JS.number;
  comments : option (list Comment.t)
}.

Definition with_comments (cs : list Comment.t) (r : t) : t :=
  Build (id r) (user_id r) (user_name r) (date r) (time r) (position r)
        (photo r) (photo_url r) (description r) (location_lat r)
        (location_lng r) (Some cs).
End AttendanceRow.

(** What [addAttendance] hands to [insert]: a row without its [id]. *)
Module NewAttendance.
Record t : Type := Build {
  user_id : string;
  user_name : string;
  date : string;
  time : string;
  position : string;
  photo : string;
  description : string;
  location_lat : JS.number;
  location_lng : JS.number;
  comments : list Comment.t
}.
End NewAttendance.

Module TokenRow.
Record t : Type := Build { date : string; code : string }.
End TokenRow.

(** Modelled from the spec: the store behind [./supabaseClient] is not part
    of the sources. Its tables are kept in creation order; [users] is keyed
    by [nip] (a second row with the same [nip] is refused); the store gives
    each attendance row the next identifier. A row keeps the values it
    is sent as they are: the encoding of a request is not modelled, so
    the model says nothing of how a number that is not finite would
    reach the store. *)
Module Store.
Record t : Type := Build {
  users : list UserT.t;
  attendances : list AttendanceRow.t;
  daily_token : list TokenRow.t;
  next_id : Z
}.

Definition empty : t := Build [] [] [] 1.

Definition with_users (f : list UserT.t -> list UserT.t) (s : t) : t :=
  Build (f (users s)) (attendances s) (daily_token s) (next_id s).

Definition with_attendances
    (f : list AttendanceRow.t -> list AttendanceRow.t) (s : t) : t :=
  Build (users s) (f (attendances s)) (daily_token s) (next_id s).

Definition with_daily_token
    (f : list TokenRow.t -> list TokenRow.t) (s : t) : t :=
  Build (users s) (attendances s) (f (daily_token s)) (next_id s).

Definition has_nip (n : string) (s : t) : bool :=
  existsb (fun u => String.eqb (UserT.nip u) n) (users s).

Definition new_row (i : Z) (r : NewAttendance.t) : AttendanceRow.t :=
  AttendanceRow.Build (JS.intToString i)
    (NewAttendance.user_id r) (NewAttendance.user_name r)
    (NewAttendance.date r) (NewAttendance.time r)
    (NewAttendance.position r) (NewAttendance.photo r) None
    (NewAttendance.description r) (NewAttendance.location_lat r)
    (NewAttendance.location_lng r) (Some (NewAttendance.comments r)).

Definition insert_attendance (r : NewAttendance.t) (s : t) : t :=
  Build (users s) (attendances s ++ [new_row (next_id s) r])%list
        (daily_token s) (next_id s + 1).
End Store.

(* ================================================================== *)
(** * The world of a handler and its monad *)
(* ================================================================== *)

Record World : Type := mkWorld {
  db : Store.t;                 (* the remote store *)
  net_up : bool;                (* whether calls to the store go through *)
  rand : nat -> Q;              (* the values Math.random() will return *)
  rand_pos : nat;               (* how many of them were taken *)
  alerts : list string;         (* window.alert, oldest first *)
  st_users : list UserT.t;      (* useState of AttendanceSystem *)
  st_attendances : list AttendanceRecord.t;
  st_currentUser : option UserT.t;
  st_error : string             (* useState('') of the page in view *)
}.

Definition set_db (f : Store.t -> Store.t) (w : World) : World :=
  mkWorld (f (db w)) (net_up w) (rand w) (rand_pos w) (alerts w)
          (st_users w) (st_attendances w) (st_currentUser w) (st_error w).

Definition set_rand_pos (n : nat) (w : World) : World :=
  mkWorld (db w) (net_up w) (rand w) n (alerts w)
          (st_users w) (st_attendances w) (st_currentUser w) (st_error w).

Definition add_alert (msg : string) (w : World) : World :=
  mkWorld (db w) (net_up w) (rand w) (rand_pos w) (alerts w ++ [msg])%list
          (st_users w) (st_attendances w) (st_currentUser w) (st_error w).

Definition set_st_users (us : list UserT.t) (w : World) : World :=
  mkWorld (db w) (net_up w) (rand w) (rand_pos w) (alerts w)
          us (st_attendances w) (st_currentUser w) (st_error w).

Definition set_st_attendances (l : list AttendanceRecord.t) (w : World)
  : World :=
  mkWorld (db w) (net_up w) (rand w) (rand_pos w) (alerts w)
          (st_users w) l (st_currentUser w) (st_error w).

Definition set_st_currentUser (u : option UserT.t) (w : World) : World :=
  mkWorld (db w) (net_up w) (rand w) (rand_pos w) (alerts w)
          (st_users w) (st_attendances w) u (st_error w).

Definition set_st_error (e : string) (w : World) : World :=
  mkWorld (db w) (net_up w) (rand w) (rand_pos w) (alerts w)
          (st_users w) (st_attendances w) (st_currentUser w) e.

(** A computation either throws ([inl], the message of the [Error]) or
    returns ([inr]); the world it leaves behind is kept in both cases. *)
Definition M (A : Type) : Type := World -> (string + A) * World.

Definition ret {A} (a : A) : M A := fun w => (inr a, w).

Definition bind {A B} (c : M A) (k : A -> M B) : M B :=
  fun w => match c w with
           | (inl e, w') => (inl e, w')
           | (inr a, w') => k a w'
           end.

Definition throw {A} (msg : string) : M A := fun w => (inl msg, w).

(** [try { c } catch (e) { h e }]. *)
Definition tryCatch {A} (c : M A) (h : string -> M A) : M A :=
  fun w => match c w with
           | (inl e, w') => h e w'
           | (inr a, w') => (inr a, w')
           end.

Definition gets {A} (f : World -> A) : M A := fun w => (inr (f w), w).
Definition modify (f : World -> World) : M unit := fun w => (inr tt, f w).

Declare Scope js_scope.
Delimit Scope js_scope with js.
Notation "x <- c ;; k" := (bind c (fun x => k))
  (at level 61, c at next level, right associativity) : js_scope.
Notation "c ;; k" := (bind c (fun _ => k))
  (at level 61, right associativity) : js_scope.
Open Scope js_scope.

Definition alert (msg : string) : M unit := modify (add_alert msg).
Definition setError (msg : string) : M unit := modify (set_st_error msg).
Definition setUsers (us : list UserT.t) : M unit := modify (set_st_users us).
Definition setAttendances (l : list AttendanceRecord.t) : M unit :=
  modify (set_st_attendances l).
Definition setCurrentUser (u : option UserT.t) : M unit :=
  modify (set_st_currentUser u).

(** [Math.random()]: the next value of the source, a double in [0, 1)
    taken by its exact value; the arithmetic on it is exact. *)
Definition Math_random : M Q :=
  fun w => (inr (rand w (rand_pos w)), set_rand_pos (S (rand_pos w)) w).

(** What a call to the store answers: [{ data, error }]. *)
Module Response.
Record t (A : Type) : Type :=
  Build { data : option A; error : option string }.
Arguments Build {A} _ _.
Arguments data {A} _.
Arguments error {A} _.
Definition ok {A} (a : A) : t A := Build (Some a) None.
Definition done {A} : t A := Build None None.
Definition failed {A} (msg : string) : t A := Build None (Some msg).
End Response.

(** The calls the program makes on the client of the store. The client
    ([./supabaseClient]) is not part of the sources: a call answers with
    the rows or with an error, and changes the tables as its name says. *)
Module supabase.

Definition unreachable : string := "TypeError: Failed to fetch".
Definition duplicate_key : string :=
  "duplicate key value violates unique constraint".
Definition not_single : string :=
  "JSON object requested, multiple (or no) rows returned".

(** Every call fails when the store cannot be reached. *)
Definition call {A} (c : M (Response.t A)) : M (Response.t A) :=
  up <- gets net_up ;;
  if up then c else ret (Response.failed unreachable).

(** [from('users').select('*')] *)
Definition users_select : M (Response.t (list UserT.t)) :=
  call (us <- gets (fun w => Store.users (db w)) ;; ret (Response.ok us)).

(** [from('users').insert([user])] *)
Definition users_insert (user : UserT.t) : M (Response.t unit) :=
  call (dup <- gets (fun w => Store.has_nip (UserT.nip user) (db w)) ;;
        if dup then ret (Response.failed duplicate_key)
        else
          modify (set_db (Store.with_users
                            (fun us => (us ++ [user])%list))) ;;
          ret Response.done).

(** [from('users').delete().eq('nip', nip)] *)
Definition users_delete (nip : string) : M (Response.t unit) :=
  call (modify (set_db (Store.with_users
          (filter (fun u => negb (String.eqb (UserT.nip u) nip))))) ;;
        ret Response.done).

(** [from('users').update({ password }).eq('nip', nip)] *)
Definition users_update_password (nip newPass : string)
  : M (Response.t unit) :=
  call (modify (set_db (Store.with_users
          (map (fun u => if String.eqb (UserT.nip u) nip
                         then UserT.Build (UserT.nip u) (UserT.name u)
                                          newPass (UserT.role u)
                         else u)))) ;;
        ret Response.done).

(** [from('attendances').select('*').order('created_at', { ascending:
    false })]: the rows, last created first. *)
Definition attendances_select_desc : M (Response.t (list AttendanceRow.t)) :=
  call (rows <- gets (fun w => Store.attendances (db w)) ;;
        ret (Response.ok (rev rows))).

(** [from('attendances').insert([row])] *)
Definition attendances_insert (row : NewAttendance.t) : M (Response.t unit) :=
  call (modify (set_db (Store.insert_attendance row)) ;;
        ret Response.done).

(** [from('attendances').update({ comments }).eq('id', recordId)] *)
Definition attendances_update_comments
    (recordId : string) (comments : list Comment.t) : M (Response.t unit) :=
  call (modify (set_db (Store.with_attendances
          (map (fun r => if String.eqb (AttendanceRow.id r) recordId
                         then AttendanceRow.with_comments comments r
                         else r)))) ;;
        ret Response.done).

(** [from('daily_token').select('code').eq('date', today).single()]:
    the one row with that date; an error when there is none or there are
    several. *)
Definition daily_token_select_single (today : string)
  : M (Response.t TokenRow.t) :=
  call (rows <- gets (fun w => Store.daily_token (db w)) ;;
        match filter (fun r => String.eqb (TokenRow.date r) today) rows with
        | [r] => ret (Response.ok r)
        | _ => ret (Response.failed not_single)
        end).

(** [from('daily_token').insert([row])] *)
Definition daily_token_insert (row : TokenRow.t) : M (Response.t unit) :=
  call (modify (set_db (Store.with_daily_token
                          (fun rows => (rows ++ [row])%list))) ;;
        ret Response.done).

End supabase.

(* ================================================================== *)
(** * The program *)
(* ================================================================== *)

Definition LF : ascii := "010"%char.
Definition DQ : string := String "034"%char EmptyString.

(** What [navigator.geolocation] hands to the success callback. The
    interface declares both coordinates as [double], so a reading that
    is delivered has two finite numbers. What the client sends to the
    store for a number that is not finite is not modelled. *)
Module GeolocationCoordinates.
Record t : Type := Build { latitude : JS.number; longitude : JS.number }.
End GeolocationCoordinates.

(** The anchor element [handleDownloadCSV] builds and clicks. *)
Module Link.
Record t : Type := Build { href : string; download : string }.
End Link.

(** A runtime to run the program on: dates in the form of the [id-ID]
    locale at UTC, numbers with their decimal digits. *)
Module Runtime.

Definition pad2 (n : Z) : string :=
  if (n <? 10)%Z then "0" ++ JS.intToString n else JS.intToString n.

(** Year, month and day of a day count since 1 January 1970. *)
Definition civil (days : Z) : Z * Z * Z :=
  let z := (days + 719468)%Z in
  let era := (z / 146097)%Z in
  let doe := (z - era * 146097)%Z in
  let yoe := ((doe - doe / 1460 + doe / 36524 - doe / 146096) / 365)%Z in
  let doy := (doe - (365 * yoe + yoe / 4 - yoe / 100))%Z in
  let mp := ((5 * doy + 2) / 153)%Z in
  let d := (doy - (153 * mp + 2) / 5 + 1)%Z in
  let m := (if (mp <? 10)%Z then mp + 3 else mp - 9)%Z in
  let y := (yoe + era * 400 + (if (m <=? 2)%Z then 1 else 0))%Z in
  (y, m, d).

Definition toLocaleDateString_idID (t : Date) : string :=
  let '(y, m, d) := civil (t / 86400000) in
  JS.intToString d ++ "/" ++ JS.intToString m ++ "/" ++ JS.intToString y.

Definition toLocaleTimeString_idID (t : Date) : string :=
  let s := ((t / 1000) mod 86400)%Z in
  pad2 (s / 3600) ++ "." ++ pad2 ((s / 60) mod 60) ++ "." ++ pad2 (s mod 60).

Definition toLocaleString (t : Date) : string :=
  toLocaleDateString_idID t ++ ", " ++ toLocaleTimeString_idID t.

(** The digits after the point of [num / den], at most [fuel] of them. *)
Fixpoint fraction (fuel : nat) (num den : Z) : string :=
  match fuel with
  | O => EmptyString
  | S fuel' =>
      if (num =? 0)%Z then EmptyString
      else JS.intToString (10 * num / den)
           ++ fraction fuel' ((10 * num) mod den) den
  end.

Definition numberToString (x : JS.number) : string :=
  match x with
  | JS.Finite q =>
      let n := Z.abs (Qnum q) in
      let d := Zpos (Qden q) in
      let frac := fraction 17 (n mod d) d in
      (if (Qnum q <? 0)%Z then "-" else EmptyString)
      ++ JS.intToString (n / d)
      ++ (if JS.falsy frac then EmptyString else "." ++ frac)
  | JS.NaN => "NaN"
  | JS.PosInfinity => "Infinity"
  | JS.NegInfinity => "-Infinity"
  end.

End Runtime.

(** A reader of comma-separated text, written from the quoting rules of
    the format (RFC 4180), not from the source: a field in double quotes
    runs to its closing quote and may hold commas and line breaks, a
    doubled quote inside it stands for one quote; outside quotes a comma
    ends the field and a line feed ends the row. The reader is lenient: a
    quote in the middle of an unquoted field is taken as text. *)
Module Csv.

Inductive mode : Type :=
| Plain           (* in an unquoted field, or at the start of a field *)
| Quoted          (* inside double quotes *)
| QuoteSeen.      (* a quote was read inside double quotes *)

Definition put (field : string) (c : ascii) : string :=
  field ++ String c EmptyString.

Fixpoint read (m : mode) (start : bool) (field : string)
    (row : list string) (s : string) : list (list string) :=
  match s with
  | EmptyString => [rev (field :: row)]
  | String c s' =>
      match m with
      | Quoted =>
          if Ascii.eqb c "034" then read QuoteSeen false field row s'
          else read Quoted false (put field c) row s'
      | QuoteSeen =>
          if Ascii.eqb c "034" then read Quoted false (put field c) row s'
          else if Ascii.eqb c "," then
            read Plain true EmptyString (field :: row) s'
          else if Ascii.eqb c LF then
            rev (field :: row) :: read Plain true EmptyString [] s'
          else read Plain false (put field c) row s'
      | Plain =>
          if start && Ascii.eqb c "034" then read Quoted false field row s'
          else if Ascii.eqb c "," then
            read Plain true EmptyString (field :: row) s'
          else if Ascii.eqb c LF then
            rev (field :: row) :: read Plain true EmptyString [] s'
          else read Plain false (put field c) row s'
      end
  end.

(** The rows of a document, each a list of field values. *)
Definition parse (s : string) : list (list string) :=
  read Plain true EmptyString [] s.

End Csv.

(** Data to run the program on. *)
Module Sample.

Definition jane : UserT.t := UserT.Build "M001" "Jane" "k3x9aq" member.
Definition budi : UserT.t := UserT.Build "A001" "Budi" "s3cr3t" admin.

(** 10 May 2024, 08:00:00 and 16:30:45. *)
Definition morning : Date := 1715328000000%Z.
Definition afternoon : Date := 1715358645000%Z.

Definition here : GeolocationCoordinates.t :=
  GeolocationCoordinates.Build (JS.Finite (-62 # 10)) (JS.Finite (1068 # 10)).

Definition rnd (n : nat) : Q := Z.of_nat ((7 * n + 3) mod 36) # 36.

Definition store : Store.t := Store.Build [jane; budi] [] [] 1.

Definition world : World :=
  mkWorld store true rnd 0 [] [jane; budi] [] (Some budi) EmptyString.

Definition record (description : string) : AttendanceRecord.t :=
  AttendanceRecord.Build "1" "M001" "Jane" "10/5/2024" "08.00.00"
    "Staff" "data:image/jpeg;base64,AAAA" description
    (Location.Build (JS.Finite (-62 # 10)) (JS.Finite (1068 # 10))) [] [].

(** A description with a comma and a line break, and one that also has
    a word in double quotes. *)
Definition plain_note : string :=
  "Patrol, north gate" ++ String LF "all clear".
Definition quoted_note : string :=
  "Patrol " ++ DQ ++ "north gate" ++ DQ ++ String LF "all clear".

(** A store with one check-in of Jane, and the dashboard of Budi with
    the list loaded from it. *)
Definition row : AttendanceRow.t :=
  AttendanceRow.Build "1" "M001" "Jane" "10/5/2024" "08.00.00" "Staff"
    "data:image/jpeg;base64,AAAA" None "Patrol"
    (JS.Finite (-62 # 10)) (JS.Finite (1068 # 10)) (Some []).

Definition dashboard : World :=
  mkWorld (Store.Build [jane; budi] [row] [] 2) true rnd 0 []
          [jane; budi] [record "Patrol"] (Some budi) EmptyString.

Definition csv_file : string :=
  "M009,Rudi,member" ++ String LF
  ("M002, Sari ,member" ++ String LF
  ("no comma here" ++ String LF
  ("A002,Tono,Admin" ++ String LF
   "M001,Jane again,member"))).

End Sample.

(* ================================================================== *)
(** * The state of the tab *)
(* ================================================================== *)

(** [sessionStorage]: the entries of the tab, at most one a key. *)
Module sessionStorage.

Definition t : Type := list (string * string).

(** [getItem(key)]: the value, or [null]. *)
Definition getItem (key : string) (s : t) : option string :=
  option_map snd (find (fun kv => String.eqb (fst kv) key) s).

Definition removeItem (key : string) (s : t) : t :=
  filter (fun kv => negb (String.eqb (fst kv) key)) s.

Definition setItem (key value : string) (s : t) : t :=
  (key, value) :: removeItem key s.

End sessionStorage.

Definition Role_eqb (a b : Role) : bool :=
  match a, b with
  | member, member | admin, admin => true
  | _, _ => false
  end.

(** The [view] of [MemberDashboard]. *)
Inductive MemberView : Type :=
| menu | input_token | attend | history | change_password.

(** What the handlers below read and set besides the [World]: the
    session storage and the React state of the components they belong
    to. *)
Module Browser.

Record t : Type := Build {
  storage : sessionStorage.t;
  currentPage : option Role;    (* AttendanceSystem; 'landing' is None *)
  view : MemberView;            (* MemberDashboard *)
  input : string;               (* TokenEntryPage *)
  dailyToken : string;          (* AdminDashboard, '...' at first *)
  addMode : bool;               (* UserManagementView *)
  genPass : string              (* UserManagementView *)
}.

Definition with_storage (f : sessionStorage.t -> sessionStorage.t) (b : t)
  : t :=
  Build (f (storage b)) (currentPage b) (view b) (input b) (dailyToken b)
        (addMode b) (genPass b).

Definition with_currentPage (p : option Role) (b : t) : t :=
  Build (storage b) p (view b) (input b) (dailyToken b) (addMode b)
        (genPass b).

Definition with_view (v : MemberView) (b : t) : t :=
  Build (storage b) (currentPage b) v (input b) (dailyToken b) (addMode b)
        (genPass b).

Definition with_input (i : string) (b : t) : t :=
  Build (storage b) (currentPage b) (view b) i (dailyToken b) (addMode b)
        (genPass b).

Definition with_dailyToken (c : string) (b : t) : t :=
  Build (storage b) (currentPage b) (view b) (input b) c (addMode b)
        (genPass b).

Definition with_addMode (m : bool) (b : t) : t :=
  Build (storage b) (currentPage b) (view b) (input b) (dailyToken b) m
        (genPass b).

Definition with_genPass (g : string) (b : t) : t :=
  Build (storage b) (currentPage b) (view b) (input b) (dailyToken b)
        (addMode b) g.

End Browser.

(** A tab: the world and the state of the browser. *)
Record Tab : Type := mkTab { world : World; browser : Browser.t }.

(** The monad of the handlers that touch the state of the browser: as
    [M], over a [Tab]. *)
Definition T (A : Type) : Type := Tab -> (string + A) * Tab.

Definition retT {A} (a : A) : T A := fun t => (inr a, t).

Definition bindT {A B} (c : T A) (k : A -> T B) : T B :=
  fun t => match c t with
           | (inl e, t') => (inl e, t')
           | (inr a, t') => k a t'
           end.

Definition tryCatchT {A} (c : T A) (h : string -> T A) : T A :=
  fun t => match c t with
           | (inl e, t') => h e t'
           | (inr a, t') => (inr a, t')
           end.

(** A computation on the world, run in the tab. *)
Definition lift {A} (c : M A) : T A :=
  fun t => match c (world t) with
           | (r, w') => (r, mkTab w' (browser t))
           end.

Definition getsB {A} (f : Browser.t -> A) : T A :=
  fun t => (inr (f (browser t)), t).

Definition modifyB (f : Browser.t -> Browser.t) : T unit :=
  fun t => (inr tt, mkTab (world t) (f (browser t))).

Declare Scope tab_scope.
Delimit Scope tab_scope with tab.
Notation "x <- c ;; k" := (bindT c (fun x => k))
  (at level 61, c at next level, right associativity) : tab_scope.
Notation "c ;; k" := (bindT c (fun _ => k))
  (at level 61, right associativity) : tab_scope.

Definition setCurrentPage (p : option Role) : T unit :=
  modifyB (Browser.with_currentPage p).
Definition setView (v : MemberView) : T unit := modifyB (Browser.with_view v).
Definition setInput (i : string) : T unit := modifyB (Browser.with_input i).
Definition setDailyToken (c : string) : T unit :=
  modifyB (Browser.with_dailyToken c).
Definition setAddMode (m : bool) : T unit := modifyB (Browser.with_addMode m).
Definition setGenPass (g : string) : T unit :=
  modifyB (Browser.with_genPass g).

(** More data to run the program on. *)
Module Scenario.

(** A tab left unlocked by an earlier member. *)
Definition unlocked : Browser.t :=
  Browser.Build [("token_ok", "1")] (Some member) attend EmptyString "..."
                false EmptyString.

(** A tab on the menu of a member, nothing stored. *)
Definition fresh : Browser.t :=
  Browser.Build [] (Some member) menu EmptyString "..." false EmptyString.

(** The sample dashboard whose check-in already holds a comment of
    another administrator that the page has not loaded. *)
Definition other_comment : Comment.t :=
  Comment.Build "1715350000000" "A009" "Sinta" "Seen at the gate"
                "10/5/2024, 14.06.40".

Definition stale_dashboard : World :=
  mkWorld
    (Store.Build [Sample.jane; Sample.budi]
       [AttendanceRow.with_comments [other_comment] Sample.row] [] 2)
    true Sample.rnd 0 [] [Sample.jane; Sample.budi]
    [Sample.record "Patrol"] (Some Sample.budi) EmptyString.

(** The page of Jane, loaded before her check-in of the morning was
    stored: the store holds the check-in, the page shows none. *)
Definition stale_member : World :=
  mkWorld (Store.Build [Sample.jane; Sample.budi] [Sample.row] [] 2) true
          Sample.rnd 0 [] [Sample.jane; Sample.budi] [] (Some Sample.jane)
          EmptyString.

(** A second administrator. *)
Definition sinta : UserT.t := UserT.Build "A009" "Sinta" "w7m2kd" admin.

(** Jane is logged in on this page with the password she logged in
    with; since then her password was changed from another device, so
    the store holds another one. *)
Definition changed_elsewhere : World :=
  mkWorld
    (Store.Build [UserT.Build "M001" "Jane" "0ther-pw" member; Sample.budi]
                 [] [] 1)
    true Sample.rnd 0 [] [Sample.jane; Sample.budi] [] (Some Sample.jane)
    EmptyString.

(** The sample store out of reach, nobody logged in. *)
Definition offline : World :=
  mkWorld Sample.store false Sample.rnd 0 [] [Sample.jane; Sample.budi] []
          None EmptyString.

(** The sample world once the dashboard of the administrator has asked
    for the code of 10 May 2024. *)
Definition after_admin : World :=
  mkWorld
    (Store.Build [Sample.jane; Sample.budi] []
                 [TokenRow.Build "10/5/2024" "1750"] 1)
    true Sample.rnd 1 [] [Sample.jane; Sample.budi] [] (Some Sample.jane)
    EmptyString.

(** A member on the token page who has typed [code]; the dashboard of
    an administrator just mounted. *)
Definition typing (code : string) (w : World) : Tab :=
  mkTab w (Browser.Build [] (Some member) input_token code "..." false
                         EmptyString).

Definition admin_tab (w : World) : Tab :=
  mkTab w (Browser.Build [] (Some admin) menu EmptyString "..." false
                         EmptyString).

End Scenario.


Section App.

Set Default Proof Using "Type".

(** Formatting done by the JavaScript runtime. *)
Variable toLocaleDateString_idID : Date -> string.
Variable toLocaleTimeString_idID : Date -> string.
Variable toLocaleString : Date -> string.
(** A number inside a template literal. *)
Variable numberToString : JS.number -> string.

(** ** Helpers *)

Definition chars : string := "abcdefghijklmnopqrstuvwxyz0123456789".

(** The body of the [for] loop of [generatePassword], [n] rounds left. *)
Fixpoint generatePassword_loop (n : nat) (password : string) : M string :=
  match n with
  | O => ret password
  | S n' =>
      r <- Math_random ;;
      generatePassword_loop n'
        (password ++
         JS.charAt chars
           (JS.floor (r * inject_Z (Z.of_nat (String.length chars)))%Q))
  end.

Definition generatePassword : M string :=
  generatePassword_loop 6 EmptyString.

(** ** DatabaseHelper *)

Definition getUsers : M (list UserT.t) :=
  r <- supabase.users_select ;;
  ret (match Response.data r with Some us => us | None => [] end).

Definition addUser (user : UserT.t) : M unit :=
  r <- supabase.users_insert user ;;
  match Response.error r with
  | Some msg => throw msg
  | None => ret tt
  end.


Definition updateUserPassword (nip newPass : string) : M unit :=
  r <- supabase.users_update_password nip newPass ;;
  match Response.error r with
  | Some msg => throw msg
  | None => ret tt
  end.

(** The object [getAttendances] builds from a row. *)
Definition record_of_row (item : AttendanceRow.t) : AttendanceRecord.t :=
  AttendanceRecord.Build
    (AttendanceRow.id item)
    (AttendanceRow.user_id item)
    (AttendanceRow.user_name item)
    (AttendanceRow.date item)
    (AttendanceRow.time item)
    (AttendanceRow.position item)
    (match AttendanceRow.photo_url item with
     | Some u => JS.or_else u (AttendanceRow.photo item)
     | None => AttendanceRow.photo item
     end)
    (AttendanceRow.description item)
    (Location.Build (AttendanceRow.location_lat item)
                    (AttendanceRow.location_lng item))
    (match AttendanceRow.comments item with Some cs => cs | None => [] end)
    [].

Definition getAttendances : M (list AttendanceRecord.t) :=
  r <- supabase.attendances_select_desc ;;
  match Response.error r with
  | Some _ => ret []
  | None =>
      match Response.data r with
      | Some data => ret (map record_of_row data)
      | None => throw "TypeError: data is null"
      end
  end.

Definition addAttendance (record : AttendanceRecord.t) : M unit :=
  r <- supabase.attendances_insert
         (NewAttendance.Build
            (AttendanceRecord.userId record)
            (AttendanceRecord.userName record)
            (AttendanceRecord.date record)
            (AttendanceRecord.time record)
            (AttendanceRecord.position record)
            (AttendanceRecord.photo record)
            (AttendanceRecord.description record)
            (Location.lat (AttendanceRecord.location record))
            (Location.lng (AttendanceRecord.location record))
            (AttendanceRecord.comments record)) ;;
  match Response.error r with
  | Some msg => throw msg
  | None => ret tt
  end.

Definition addComment (recordId : string) (comments : list Comment.t)
  : M unit :=
  r <- supabase.attendances_update_comments recordId comments ;;
  match Response.error r with
  | Some msg => throw msg
  | None => ret tt
  end.

(** [now] is the [new Date()] of the call. *)
Definition getDailyToken (now : Date) : M string :=
  let today := toLocaleDateString_idID now in
  r <- supabase.daily_token_select_single today ;;
  match Response.data r with
  | Some data => ret (TokenRow.code data)
  | None =>
      x <- Math_random ;;
      let newCode := JS.intToString (JS.floor (1000 + x * 9000)%Q) in
      _ <- supabase.daily_token_insert (TokenRow.Build today newCode) ;;
      ret newCode
  end.

(** ** AttendanceSystem *)

Definition fetchData : M unit :=
  tryCatch
    (usersData <- getUsers ;;
     absenData <- getAttendances ;;
     setUsers usersData ;;
     setAttendances absenData)
    (fun _ => alert "Gagal mengambil data dari server.").

(** ** ChangePasswordPage *)

Definition ChangePassword_handleSubmit (user : UserT.t)
    (onSuccess : string -> M unit)
    (oldPass newPass confirmPass : string) : M unit :=
  setError EmptyString ;;
  if JS.falsy oldPass || JS.falsy newPass || JS.falsy confirmPass then
    setError "Semua field harus diisi."
  else if negb (String.eqb oldPass (UserT.password user)) then
    setError "Password lama salah."
  else if negb (String.eqb newPass confirmPass) then
    setError "Konfirmasi password baru tidak cocok."
  else if (String.length newPass <? 4)%nat then
    setError "Password minimal 4 karakter."
  else
    tryCatch
      (updateUserPassword (UserT.nip user) newPass ;;
       alert "Password berhasil diubah!" ;;
       onSuccess newPass)
      (fun msg => setError ("Gagal mengubah password: " ++ msg)).

(** The [onSuccess] both dashboards pass to [ChangePasswordPage]. *)
Definition ChangePassword_onSuccess (user : UserT.t) (newPass : string)
  : M unit :=
  setCurrentUser (Some (UserT.Build (UserT.nip user) (UserT.name user)
                                    newPass (UserT.role user))) ;;
  fetchData.

(** ** AttendanceForm *)

(** [geo] is what [getCurrentPosition] comes back with: the coordinates
    for the success callback, [None] for the error callback. [d1] and
    [d2] are the two [new Date()] of the record literal. *)
Definition submit (user : UserT.t) (onSuccess : M unit)
    (position desc photo : string)
    (geo : option GeolocationCoordinates.t) (d1 d2 : Date) : M unit :=
  if JS.falsy position || JS.falsy desc || JS.falsy photo then
    alert "Mohon lengkapi data!"
  else
    match geo with
    | Some coords =>
        tryCatch
          (addAttendance
             (AttendanceRecord.Build
                EmptyString
                (UserT.nip user)
                (UserT.name user)
                (toLocaleDateString_idID d1)
                (toLocaleTimeString_idID d2)
                position photo desc
                (Location.Build (GeolocationCoordinates.latitude coords)
                                (GeolocationCoordinates.longitude coords))
                [] []) ;;
           alert "Absensi Berhasil Terkirim!" ;;
           onSuccess)
          (fun _ => alert "Gagal mengirim absensi. Cek koneksi.")
    | None => alert "Gagal mendapatkan lokasi GPS."
    end.

(** ** DailyReportView *)

(** [Array.from(new Set(xs))]: each value once, at its first place. *)
Fixpoint uniq_from (seen : list string) (xs : list string) : list string :=
  match xs with
  | [] => []
  | x :: xs' =>
      if existsb (String.eqb x) seen then uniq_from seen xs'
      else x :: uniq_from (x :: seen) xs'
  end.

Definition uniqueDates (attendances : list AttendanceRecord.t) : list string :=
  uniq_from [] (map AttendanceRecord.date attendances).

Definition dayRecords (attendances : list AttendanceRecord.t)
    (selectedDate : string) : list AttendanceRecord.t :=
  filter (fun a => String.eqb (AttendanceRecord.date a) selectedDate)
         attendances.

(** The [count] shown on the card of [date]. *)
Definition count (attendances : list AttendanceRecord.t) (date : string)
  : nat :=
  List.length (filter (fun a => String.eqb (AttendanceRecord.date a) date)
                      attendances).

(** [nowMs] is [Date.now()], [now] the [new Date()] of the timestamp. *)
Definition handleAudit (attendances : list AttendanceRecord.t)
    (onRefresh : M unit) (adminUser : UserT.t)
    (recordId text : string) (nowMs : Z) (now : Date) : M unit :=
  match find (fun a => String.eqb (AttendanceRecord.id a) recordId)
             attendances with
  | None => ret tt
  | Some record =>
      let newComment :=
        Comment.Build (JS.intToString nowMs) (UserT.nip adminUser)
                      (UserT.name adminUser) text (toLocaleString now) in
      let updatedComments :=
        (AttendanceRecord.comments record ++ [newComment])%list in
      tryCatch
        (addComment recordId updatedComments ;;
         alert "Komentar terkirim." ;;
         onRefresh)
        (fun _ => alert "Gagal mengirim komentar.")
  end.

(** The [onClick] of the button next to [commentInput]; [value] is what
    the input holds. *)
Definition commentButton_onClick (attendances : list AttendanceRecord.t)
    (onRefresh : M unit) (adminUser : UserT.t)
    (selectedRecord : AttendanceRecord.t) (value : string)
    (nowMs : Z) (now : Date) : M unit :=
  if JS.truthy value then
    handleAudit attendances onRefresh adminUser
                (AttendanceRecord.id selectedRecord) value nowMs now
  else ret tt.

Definition headers : list string :=
  ["NIP,Nama,Tanggal,Jam,Jabatan,Keterangan,Lokasi"].

(** The template literal of one row. *)
Definition csvRow (d : AttendanceRecord.t) : string :=
  AttendanceRecord.userId d ++ "," ++
  DQ ++ AttendanceRecord.userName d ++ DQ ++ "," ++
  AttendanceRecord.date d ++ "," ++
  AttendanceRecord.time d ++ "," ++
  DQ ++ AttendanceRecord.position d ++ DQ ++ "," ++
  DQ ++ AttendanceRecord.description d ++ DQ ++ "," ++
  DQ ++ numberToString (Location.lat (AttendanceRecord.location d)) ++ ", "
     ++ numberToString (Location.lng (AttendanceRecord.location d)) ++ DQ.

(** [[headers, ...rows].join("\n")]: the nested array [headers] is
    turned into text by its own [join(",")]. *)
Definition csvText (data : list AttendanceRecord.t) : string :=
  JS.join (String LF EmptyString)
          (JS.join "," headers :: map csvRow data).

Definition csvContent (data : list AttendanceRecord.t) : string :=
  "data:text/csv;charset=utf-8," ++ csvText data.

Definition handleDownloadCSV (date : string)
    (data : list AttendanceRecord.t) : Link.t :=
  Link.Build (JS.encodeURI (csvContent data))
             ("Absensi_" ++ JS.replaceAll "/" "-" date ++ ".csv").

(** ** UserManagementView *)

(** The [for] loop of [handleImport] over the lines from index 1 on. *)
Fixpoint import_loop (lines : list string) (count : Z) : M Z :=
  match lines with
  | [] => ret count
  | line :: rest =>
      let row := JS.split "," line in
      if (2 <=? List.length row)%nat then
        count' <-
          tryCatch
            (password <- generatePassword ;;
             addUser
               (UserT.Build
                  (JS.trim (nth 0 row EmptyString))
                  (JS.trim (nth 1 row EmptyString))
                  password
                  (match nth_error row 2 with
                   | Some r =>
                       if String.eqb (JS.toLowerCase (JS.trim r)) "admin"
                       then admin else member
                   | None => member
                   end)) ;;
             ret (count + 1)%Z)
            (fun _ => ret count) ;;
        import_loop rest count'
      else import_loop rest count
  end.

Definition handleImport (onRefresh : M unit) (text : string) : M unit :=
  let lines := JS.split LF text in
  count <- import_loop (skipn 1 lines) 0%Z ;;
  alert ("Berhasil import " ++ JS.intToString count ++ " user.") ;;
  onRefresh.

(** ** Notions the properties are stated with *)

(** The values [Math.random] returns lie in [0, 1). *)
Definition rand_ok (w : World) : Prop :=
  forall n, (0 <= rand w n)%Q /\ (rand w n < 1)%Q.

(** A four-character numeric string with a value from 1000 to 9999. *)
Definition FourDigitCode (code : string) : Prop :=
  String.length code = 4
  /\ JS.allDigits code = true
  /\ exists n : Z, (1000 <= n <= 9999)%Z /\ code = JS.intToString n.

(** The [daily_token] table as [getDailyToken] leaves it: one row a
    date at most, each with a four-digit code. *)
Definition TokenTable_ok (rows : list TokenRow.t) : Prop :=
  NoDup (map TokenRow.date rows)
  /\ Forall (fun r => FourDigitCode (TokenRow.code r)) rows.

(** The rows of the [daily_token] table. *)
Definition token_rows (w : World) : list TokenRow.t :=
  Store.daily_token (db w).

(** The code stored for a date, when there is a row for it. *)
Definition stored_code (w : World) (today : string) : option string :=
  option_map TokenRow.code
    (find (fun r => String.eqb (TokenRow.date r) today) (token_rows w)).

(** What [getAttendances] returns for the store as it is. *)
Definition listed (w : World) : list AttendanceRecord.t :=
  map record_of_row (rev (Store.attendances (db w))).

(** The list the views hold is the one of the store. *)
Definition in_sync (w : World) : Prop := st_attendances w = listed w.

(** The identifiers of the rows of the [attendances] table. *)
Definition row_ids (w : World) : list string :=
  map AttendanceRow.id (Store.attendances (db w)).

(** The comments the store holds for a record. *)
Definition stored_comments (w : World) (recordId : string)
  : list Comment.t :=
  match find (fun r => String.eqb (AttendanceRow.id r) recordId)
             (Store.attendances (db w)) with
  | Some r => match AttendanceRow.comments r with
              | Some cs => cs
              | None => []
              end
  | None => []
  end.

(** One comment sent by an administrator: the text, and the readings of
    [Date.now()] and [new Date()] at that moment. *)
Record AuditEntry : Type := mkAuditEntry {
  entry_text : string;
  entry_nowMs : Z;
  entry_now : Date
}.

(** [handleAudit] as [AdminDashboard] wires [DailyReportView]: the list
    held by [AttendanceSystem], [fetchData] for [onRefresh]. *)
Definition DailyReportView_handleAudit (adminUser : UserT.t)
    (recordId : string) (e : AuditEntry) : M unit :=
  attendances <- gets st_attendances ;;
  handleAudit attendances fetchData adminUser recordId
              (entry_text e) (entry_nowMs e) (entry_now e).

(** Comments sent one after the other to one record. *)
Fixpoint audit_session (adminUser : UserT.t) (recordId : string)
    (es : list AuditEntry) : M unit :=
  match es with
  | [] => ret tt
  | e :: es' =>
      DailyReportView_handleAudit adminUser recordId e ;;
      audit_session adminUser recordId es'
  end.

(** The comment [handleAudit] builds for an entry. *)
Definition comment_of (adminUser : UserT.t) (e : AuditEntry) : Comment.t :=
  Comment.Build (JS.intToString (entry_nowMs e)) (UserT.nip adminUser)
                (UserT.name adminUser) (entry_text e)
                (toLocaleString (entry_now e)).

(** The copy of a record that the page holds carries the comments the
    store holds for it. *)
Definition page_copy_current (w : World) (recordId : string) : Prop :=
  exists record,
    find (fun a => String.eqb (AttendanceRecord.id a) recordId)
         (st_attendances w) = Some record
    /\ AttendanceRecord.comments record = stored_comments w recordId.

(** One comment sent to a record from some page: the administrator
    logged in there, the list of check-ins that page holds (the
    [attendances] of its [DailyReportView]), and the entry. *)
Record Sending : Type := mkSending {
  sending_admin : UserT.t;
  sending_page : list AttendanceRecord.t;
  sending_entry : AuditEntry
}.

(** Comments sent one after the other to one record, each with
    [handleAudit] on the page it is sent from. *)
Fixpoint sent_in_turn (recordId : string) (ss : list Sending) : M unit :=
  match ss with
  | [] => ret tt
  | s :: ss' =>
      handleAudit (sending_page s) fetchData (sending_admin s) recordId
                  (entry_text (sending_entry s))
                  (entry_nowMs (sending_entry s))
                  (entry_now (sending_entry s)) ;;
      sent_in_turn recordId ss'
  end.

(** The append-only rule the way section 7 of the specification words
    it: [N] comments appended to a record that had none leave [N]
    comments stored, the ones sent, in the order they were sent. *)
Definition appendComment_append_only_of_spec
    (recordId : string) (ss : list Sending) (w : World) : Prop :=
  stored_comments w recordId = [] ->
  stored_comments (snd (sent_in_turn recordId ss w)) recordId
  = map (fun s => comment_of (sending_admin s) (sending_entry s)) ss.

(** [submit] as [MemberDashboard] wires [AttendanceForm]: [onSuccess]
    refreshes the lists. *)
Definition AttendanceForm_submit (user : UserT.t)
    (position desc photo : string)
    (geo : option GeolocationCoordinates.t) (d1 d2 : Date) : M unit :=
  submit user fetchData position desc photo geo d1 d2.

(** The submission was turned down as incomplete: the message of the
    first line of [submit], and nothing written. *)
Definition rejected_incomplete (w w' : World) : Prop :=
  alerts w' = (alerts w ++ ["Mohon lengkapi data!"])%list /\ db w' = db w.

(** Two finite coordinates. *)
Definition finite_location (geo : option GeolocationCoordinates.t) : bool :=
  match geo with
  | Some c => JS.isFinite (GeolocationCoordinates.latitude c)
              && JS.isFinite (GeolocationCoordinates.longitude c)
  | None => false
  end.

(** The validation rule of [submit] the way section 4.3 of the
    specification words it. *)
Definition submit_rule_of_spec (user : UserT.t)
    (position desc photo : string)
    (geo : option GeolocationCoordinates.t) (d1 d2 : Date) (w : World)
  : Prop :=
  rejected_incomplete w
    (snd (AttendanceForm_submit user position desc photo geo d1 d2 w))
  <-> (position = EmptyString \/ desc = EmptyString \/ photo = EmptyString
       \/ finite_location geo = false).

(** The password the store holds for a user. *)
Definition stored_password (w : World) (nip : string) : option string :=
  option_map UserT.password
    (find (fun u => String.eqb (UserT.nip u) nip) (Store.users (db w))).

(** The rejections of [changePassword] the way section 7 of the
    specification words them: a new password shorter than four
    characters, and an old password that is not the stored one, are
    turned down, and the stored password stays. [user] is the copy of
    the user the page holds. *)
Definition changePassword_rule_of_spec (user : UserT.t)
    (oldPass newPass confirmPass : string) (w : World) : Prop :=
  String.length newPass < 4
  \/ stored_password w (UserT.nip user) <> Some oldPass ->
  let w' :=
    snd (ChangePassword_handleSubmit user (ChangePassword_onSuccess user)
           oldPass newPass confirmPass w) in
  st_error w' <> EmptyString
  /\ stored_password w' (UserT.nip user)
     = stored_password w (UserT.nip user).

(** A handler lets a failure be seen: it throws, shows an alert or sets
    the error of the page. *)
Definition reports_failure (c : M unit) (w : World) : Prop :=
  match c w with
  | (inl _, _) => True
  | (inr _, w') => alerts w' <> alerts w \/ st_error w' <> st_error w
  end.

(** The failures of [appendComment] the way section 4.4 of the
    specification words them: an identifier that does not resolve is
    reported and nothing is written; a blank text is reported. *)
Definition appendComment_rule_of_spec
    (attendances : list AttendanceRecord.t) (onRefresh : M unit)
    (adminUser : UserT.t) (selectedRecord : AttendanceRecord.t)
    (recordId text : string) (nowMs : Z) (now : Date) (w : World) : Prop :=
  (find (fun a => String.eqb (AttendanceRecord.id a) recordId) attendances
   = None ->
   reports_failure
     (handleAudit attendances onRefresh adminUser recordId text nowMs now) w
   /\ db (snd (handleAudit attendances onRefresh adminUser recordId text
                           nowMs now w)) = db w)
  /\ (JS.trim text = EmptyString ->
      reports_failure
        (commentButton_onClick attendances onRefresh adminUser
                               selectedRecord text nowMs now) w).

(** [handleImport] as [AdminDashboard] wires [UserManagementView]. *)
Definition UserManagementView_handleImport (text : string) : M unit :=
  handleImport fetchData text.

(** The character [c] occurs in [s]. *)
Fixpoint has_char (c : ascii) (s : string) : bool :=
  match s with
  | EmptyString => false
  | String x s' => Ascii.eqb x c || has_char c s'
  end.

(** A line that splits into two fields or more. *)
Definition wide (line : string) : bool :=
  (2 <=? List.length (JS.split "," line))%nat.

(** The user [handleImport] asks the store to add for a line. *)
Definition user_of_line (line password : string) : UserT.t :=
  let row := JS.split "," line in
  UserT.Build (JS.trim (nth 0 row EmptyString))
              (JS.trim (nth 1 row EmptyString))
              password
              (match nth_error row 2 with
               | Some r => if String.eqb (JS.toLowerCase (JS.trim r)) "admin"
                           then admin else member
               | None => member
               end).

(** A lowercase letter or a digit. *)
Definition lowerOrDigit (c : ascii) : bool :=
  let n := nat_of_ascii c in
  (((97 <=? n) && (n <=? 122)) || ((48 <=? n) && (n <=? 57)))%nat.

Fixpoint allLowerOrDigit (s : string) : bool :=
  match s with
  | EmptyString => true
  | String c s' => lowerOrDigit c && allLowerOrDigit s'
  end.

(** Six characters, each a lowercase letter or a digit. *)
Definition PasswordOk (p : string) : Prop :=
  String.length p = 6 /\ allLowerOrDigit p = true.

(** The text [generatePassword] builds in [n] rounds from the values of
    [Math.random] from the [pos]-th on. *)
Fixpoint password_from (rnd : nat -> Q) (pos n : nat) (acc : string)
  : string :=
  match n with
  | O => acc
  | S n' =>
      password_from rnd (S pos) n'
        (acc ++
         JS.charAt chars
           (JS.floor (rnd pos * inject_Z (Z.of_nat (String.length chars)))%Q))
  end.

Definition password_at (rnd : nat -> Q) (pos : nat) : string :=
  password_from rnd pos 6 EmptyString.

(** A user added by an import started at the [pos]-th value of
    [Math.random]: the user of the [k]-th wide line, with the password
    built from the six values that the [k]-th call of [generatePassword]
    draws. *)
Definition provisioned_from (rnd : nat -> Q) (pos : nat)
    (lines : list string) (u : UserT.t) : Prop :=
  exists (k : nat) (line : string),
    nth_error (filter wide lines) k = Some line
    /\ u = user_of_line line (password_at rnd (pos + 6 * k)).

(** ** The export, in the words of the specification *)

(** A text between double quotes. *)
Definition quoted (s : string) : string := DQ ++ s ++ DQ.

(** The columns of a record in the order of section 4.5: identifier,
    name, date, time, position, description, location; the free text and
    the location in double quotes. *)
Definition columns (d : AttendanceRecord.t) : list string :=
  [ AttendanceRecord.userId d;
    quoted (AttendanceRecord.userName d);
    AttendanceRecord.date d;
    AttendanceRecord.time d;
    quoted (AttendanceRecord.position d);
    quoted (AttendanceRecord.description d);
    quoted (numberToString (Location.lat (AttendanceRecord.location d))
            ++ ", "
            ++ numberToString (Location.lng (AttendanceRecord.location d))) ].

(** A header row and one row a record, fields joined by commas and rows
    by line feeds. *)
Definition document (header : string) (data : list AttendanceRecord.t)
  : string :=
  JS.join (String LF EmptyString)
          (header :: map (fun d => JS.join "," (columns d)) data).

(** The header and the file name section 6 gives. *)
Definition header_of_spec : string :=
  "ID,Name,Date,Time,Position,Description,Location".
Definition filename_of_spec (date : string) : string :=
  "Attendance_" ++ JS.replaceAll "/" "-" date ++ ".csv".

(** The export has the header and the file name of section 6. *)
Definition export_format_of_spec (date : string)
    (data : list AttendanceRecord.t) : Prop :=
  csvText data = document header_of_spec data
  /\ Link.download (handleDownloadCSV date data) = filename_of_spec date.

(** The values a reader of the export is to find in the row of a
    record. *)
Definition fields (d : AttendanceRecord.t) : list string :=
  [ AttendanceRecord.userId d;
    AttendanceRecord.userName d;
    AttendanceRecord.date d;
    AttendanceRecord.time d;
    AttendanceRecord.position d;
    AttendanceRecord.description d;
    numberToString (Location.lat (AttendanceRecord.location d))
    ++ ", "
    ++ numberToString (Location.lng (AttendanceRecord.location d)) ].

(** The export reads back as the header row and one row a record with
    the values of the record. *)
Definition export_reads_back (data : list AttendanceRecord.t) : Prop :=
  Csv.parse (csvText data)
  = ["NIP"; "Nama"; "Tanggal"; "Jam"; "Jabatan"; "Keterangan"; "Lokasi"]
    :: map fields data.

(** Text that can stand in a row without quotes: no comma, no line feed
    and no double quote. *)
Definition bare (t : string) : bool :=
  negb (has_char "," t) && negb (has_char LF t) && negb (has_char "034" t).

(** Text that can stand between double quotes as it is. *)
Definition quotable (t : string) : bool := negb (has_char "034" t).

(** A record the template of [handleDownloadCSV] writes as a row a reader
    takes apart again: no double quote in the text it puts in quotes,
    nothing that ends a field in the text it does not. *)
Definition exportable (d : AttendanceRecord.t) : bool :=
  bare (AttendanceRecord.userId d)
  && quotable (AttendanceRecord.userName d)
  && bare (AttendanceRecord.date d)
  && bare (AttendanceRecord.time d)
  && quotable (AttendanceRecord.position d)
  && quotable (AttendanceRecord.description d)
  && quotable (numberToString (Location.lat (AttendanceRecord.location d)))
  && quotable (numberToString (Location.lng (AttendanceRecord.location d))).

(** The rows after the header, each after its line feed. *)
Fixpoint rows_text (data : list AttendanceRecord.t) : string :=
  match data with
  | [] => EmptyString
  | d :: data' => String LF (csvRow d ++ rows_text data')
  end.

(** ** The handlers of the session *)

(** [handleLogout] of [AttendanceSystem]. *)
Definition handleLogout : T unit :=
  (modifyB (Browser.with_storage (sessionStorage.removeItem "token_ok")) ;;
   lift (setCurrentUser None) ;;
   setCurrentPage None)%tab.

(** [handleLogin] of [LoginPage]. *)
Definition handleLogin (role : Role) (users : list UserT.t)
    (onLogin : UserT.t -> T unit) (nip password : string) : T unit :=
  match find (fun u => String.eqb (UserT.nip u) nip
                       && String.eqb (UserT.password u) password
                       && Role_eqb (UserT.role u) role) users with
  | Some user =>
      ((if Role_eqb role member
        then modifyB (Browser.with_storage
                        (sessionStorage.removeItem "token_ok"))
        else retT tt) ;;
       onLogin user)%tab
  | None =>
      lift (setError "NIP atau Password salah (atau data belum termuat).")
  end.

(** [handleLogin] as [AttendanceSystem] wires [LoginPage]: the list it
    holds, [setCurrentUser] for [onLogin]. *)
Definition LoginPage_handleLogin (role : Role) (nip password : string)
  : T unit :=
  (users <- lift (gets st_users) ;;
   handleLogin role users (fun user => lift (setCurrentUser (Some user)))
               nip password)%tab.

(** [handleTokenSuccess] of [MemberDashboard]. *)
Definition handleTokenSuccess : T unit :=
  (modifyB (Browser.with_storage (sessionStorage.setItem "token_ok" "1")) ;;
   setView attend)%tab.

(** [handleSubmit] of [TokenEntryPage]; [now] is the [new Date()] of
    [getDailyToken]. *)
Definition TokenEntryPage_handleSubmit (onSuccess : T unit) (now : Date)
  : T unit :=
  (lift (setError EmptyString) ;;
   tryCatchT
     (validToken <- lift (getDailyToken now) ;;
      input <- getsB Browser.input ;;
      if String.eqb input validToken then onSuccess
      else
        lift (setError "Token salah! Minta token hari ini ke Admin.") ;;
        setInput EmptyString)
     (fun _ => lift (setError "Gagal validasi token. Cek koneksi internet.")))%tab.

(** The [onChange] of the input of [TokenEntryPage]. *)
Definition TokenEntryPage_onChange (value : string) : T unit :=
  ((if (String.length value <=? 4)%nat then setInput value else retT tt) ;;
   lift (setError EmptyString))%tab.

(** The effect [AttendanceForm] runs when it is mounted. *)
Definition AttendanceForm_useEffect (onBack : T unit) : T unit :=
  (tok <- getsB (fun b => sessionStorage.getItem "token_ok"
                            (Browser.storage b)) ;;
   match tok with
   | Some v => if String.eqb v "1" then retT tt else onBack
   | None => onBack
   end)%tab.

(** [TokenEntryPage] and [AttendanceForm] as [MemberDashboard] wires
    them. *)
Definition MemberDashboard_token (now : Date) : T unit :=
  TokenEntryPage_handleSubmit handleTokenSuccess now.

Definition MemberDashboard_attend : T unit :=
  AttendanceForm_useEffect (setView menu).

(** The effect [AdminDashboard] runs when it is mounted. *)
Definition AdminDashboard_useEffect (now : Date) : T unit :=
  (code <- lift (getDailyToken now) ;; setDailyToken code)%tab.

(** [myData] of [AttendanceHistory]. *)
Definition myData (attendances : list AttendanceRecord.t) (userId : string)
  : list AttendanceRecord.t :=
  filter (fun a => String.eqb (AttendanceRecord.userId a) userId) attendances.

(** [handleAdd] of [UserManagementView]; [nip], [name] and [role] are the
    fields of [newUser]. *)
Definition handleAdd (onRefresh : T unit) (nip name : string) (role : Role)
  : T unit :=
  if JS.falsy nip || JS.falsy name then lift (alert "Isi NIP dan Nama!")
  else
    tryCatchT
      (password <- lift generatePassword ;;
       lift (addUser (UserT.Build nip name password role)) ;;
       lift (alert "User berhasil ditambah!") ;;
       setGenPass password ;;
       setAddMode false ;;
       onRefresh)%tab
      (fun _ => lift (alert "Gagal tambah user (mungkin NIP duplikat).")).


(** The two as [AdminDashboard] wires [UserManagementView]. *)
Definition UserManagementView_handleAdd (nip name : string) (role : Role)
  : T unit :=
  handleAdd (lift fetchData) nip name role.


(** [handleSubmit] of [ChangePasswordPage] as the dashboards wire it. *)
Definition Dashboard_changePassword (user : UserT.t)
    (oldPass newPass confirmPass : string) : M unit :=
  ChangePassword_handleSubmit user (ChangePassword_onSuccess user)
                              oldPass newPass confirmPass.

(** ** Notions the further properties are stated with *)

(** The test of [handleLogin]. *)
Definition credentials_match (role : Role) (nip password : string)
    (u : UserT.t) : bool :=
  String.eqb (UserT.nip u) nip
  && String.eqb (UserT.password u) password
  && Role_eqb (UserT.role u) role.

(** The session flag that keeps [AttendanceForm] open. *)
Definition unlocked (b : Browser.t) : bool :=
  match sessionStorage.getItem "token_ok" (Browser.storage b) with
  | Some v => String.eqb v "1"
  | None => false
  end.

(** The code [getDailyToken] answers with at a date, in a store that can
    be reached: the stored one, or the one it draws. *)
Definition code_of_day (w : World) (today : string) : string :=
  match stored_code w today with
  | Some code => code
  | None => JS.intToString (JS.floor (1000 + rand w (rand_pos w) * 9000)%Q)
  end.

(** The users of the store without their passwords changed for [nip]. *)
Definition set_password (nip newPass : string) (us : list UserT.t)
  : list UserT.t :=
  map (fun u => if String.eqb (UserT.nip u) nip
                then UserT.Build (UserT.nip u) (UserT.name u) newPass
                                 (UserT.role u)
                else u) us.


(** Unfolds the monad of the tab. *)
Ltac runT :=
  cbv beta iota zeta delta
    [bindT retT tryCatchT lift getsB modifyB setCurrentPage setView setInput
     setDailyToken setAddMode setGenPass bind ret gets modify throw
     tryCatch alert setError setUsers setAttendances setCurrentUser].


(** ** Proof tools *)

(** Unfolds the monad and the calls to the store. *)
Ltac run :=
  cbv beta iota zeta delta
    [bind ret gets modify throw tryCatch alert setError setUsers
     setAttendances setCurrentUser Math_random supabase.call
     supabase.users_select supabase.users_insert supabase.users_delete
     supabase.users_update_password supabase.attendances_select_desc
     supabase.attendances_insert supabase.attendances_update_comments
     supabase.daily_token_select_single supabase.daily_token_insert
     Response.ok Response.done Response.failed Response.data
     Response.error].

(** [tauto] without the formatting functions the goal does not speak
    of. *)
Ltac taut :=
  try clear numberToString; try clear toLocaleString;
  try clear toLocaleTimeString_idID; try clear toLocaleDateString_idID;
  tauto.

(** The test [four_digits] runs over the codes from 1000 to 9999. *)
Definition four_digit_check (n : Z) : bool :=
  let s := JS.intToString n in
  (String.length s =? 4)%nat && JS.allDigits s.

(* ================================================================ *)
(** * Properties *)
(* ================================================================ *)

(** ** Grouping by date *)

Lemma existsb_eqb_In (x : string) (l : list string) :
  existsb (String.eqb x) l = true <-> In x l.
Proof.
  rewrite existsb_exists. split.
  - intros [y [Hy E]]. apply String.eqb_eq in E. now subst.
  - intros H. exists x. split; [assumption | apply String.eqb_refl].
Qed.

Lemma uniq_from_In (xs seen : list string) (d : string) :
  In d (uniq_from seen xs) <-> In d xs /\ ~ In d seen.
Proof.
  revert seen. induction xs as [| x xs IH]; intros seen; simpl.
  - taut.
  - destruct (existsb (String.eqb x) seen) eqn:E.
    + apply existsb_eqb_In in E. rewrite IH.
      split; [taut |]. intros [[-> | H] Hn]; taut.
    + assert (Hx : ~ In x seen).
      { intros H. apply existsb_eqb_In in H. congruence. }
      simpl. rewrite IH. simpl.
      destruct (string_dec x d) as [-> | Hne]; [taut |].
      split.
      * intros [H | [H Hn]]; [contradiction |]. taut.
      * intros [[H | H] Hn]; [contradiction |]. right. taut.
Qed.

Lemma uniq_from_NoDup (xs seen : list string) : NoDup (uniq_from seen xs).
Proof.
  revert seen. induction xs as [| x xs IH]; intros seen; simpl.
  - constructor.
  - destruct (existsb (String.eqb x) seen); [apply IH |].
    constructor; [| apply IH].
    rewrite uniq_from_In. simpl. taut.
Qed.

Lemma dayRecords_In (attendances : list AttendanceRecord.t)
    (d : string) (r : AttendanceRecord.t) :
  In r (dayRecords attendances d) <->
  In r attendances /\ AttendanceRecord.date r = d.
Proof.
  unfold dayRecords. rewrite filter_In, String.eqb_eq. taut.
Qed.

(** The cards of a list of dates hold as many records as there are
    records whose date is in the list, when no date is listed twice. *)
Lemma count_sum (attendances : list AttendanceRecord.t) (ds : list string) :
  NoDup ds ->
  (forall r, In r attendances -> In (AttendanceRecord.date r) ds) ->
  list_sum (map (count attendances) ds) = List.length attendances.
Proof.
  intros Hnd. induction attendances as [| a l IH]; intros Hall.
  - unfold count. simpl. clear. induction ds; simpl; auto.
  - assert (Hstep : forall ds', NoDup ds' ->
              list_sum (map (count (a :: l)) ds') =
              list_sum (map (count l) ds') +
              (if in_dec string_dec (AttendanceRecord.date a) ds'
               then 1 else 0)).
    { clear. induction ds' as [| d ds' IHd]; intros Hnd; simpl; [lia |].
      inversion Hnd as [| ? ? Hnotin Hnd']; subst.
      rewrite (IHd Hnd'). unfold count at 1. simpl.
      destruct (String.eqb_spec (AttendanceRecord.date a) d) as [E | E].
      - subst d. simpl. fold (count l (AttendanceRecord.date a)).
        destruct (string_dec (AttendanceRecord.date a)
                             (AttendanceRecord.date a)); [| congruence].
        destruct (in_dec string_dec (AttendanceRecord.date a) ds');
          [contradiction | lia].
      - fold (count l d).
        destruct (string_dec d (AttendanceRecord.date a));
          [congruence |].
        destruct (in_dec string_dec (AttendanceRecord.date a) ds'); lia. }
    rewrite (Hstep ds Hnd).
    rewrite IH by (intros r Hr; apply Hall; now right).
    destruct (in_dec string_dec (AttendanceRecord.date a) ds) as [_ | Hn].
    + simpl. lia.
    + exfalso. apply Hn, Hall. now left.
Qed.

(** C7. [uniqueDates] with [dayRecords] is a partition of the records by
    date: no date has two buckets; every record is in the bucket of its
    own date and in no other; a bucket holds the records of its date in
    their order; the count of a date is the number of records that carry
    it, and the counts of all buckets add up to the number of records. *)
Theorem groupByDate_partition (attendances : list AttendanceRecord.t) :
  NoDup (uniqueDates attendances)
  /\ (forall r, In r attendances ->
        In (AttendanceRecord.date r) (uniqueDates attendances)
        /\ In r (dayRecords attendances (AttendanceRecord.date r))
        /\ forall d, In r (dayRecords attendances d) ->
                     d = AttendanceRecord.date r)
  /\ (forall d, In d (uniqueDates attendances) ->
        exists r, In r attendances /\ AttendanceRecord.date r = d)
  /\ (forall d r, In r (dayRecords attendances d) ->
        In r attendances /\ AttendanceRecord.date r = d)
  /\ (forall d, count attendances d
                = count_occ string_dec
                    (map AttendanceRecord.date attendances) d
                /\ count attendances d
                   = List.length (dayRecords attendances d))
  /\ list_sum (map (count attendances) (uniqueDates attendances))
     = List.length attendances.
Proof.
  assert (Hin : forall r, In r attendances ->
                 In (AttendanceRecord.date r) (uniqueDates attendances)).
  { intros r Hr. unfold uniqueDates. rewrite uniq_from_In.
    split; [now apply in_map | simpl; taut]. }
  split; [apply uniq_from_NoDup |].
  split.
  { intros r Hr. split; [now apply Hin |]. split.
    - apply dayRecords_In. taut.
    - intros d Hd. apply dayRecords_In in Hd. symmetry. taut. }
  split.
  { intros d Hd. unfold uniqueDates in Hd. apply uniq_from_In in Hd.
    destruct Hd as [Hd _]. apply in_map_iff in Hd.
    destruct Hd as [r [E Hr]]. now exists r. }
  split; [intros d r; apply dayRecords_In |].
  split.
  { intros d. split; [| reflexivity].
    unfold count. induction attendances as [| a l IH]; simpl; [reflexivity |].
    destruct (String.eqb_spec (AttendanceRecord.date a) d) as [E | E];
      destruct (string_dec (AttendanceRecord.date a) d); try congruence;
      simpl; rewrite IH; auto.
    all: intros r Hr; unfold uniqueDates; rewrite uniq_from_In;
      split; [now apply in_map | simpl; taut]. }
  apply count_sum; [apply uniq_from_NoDup | assumption].
Qed.

(** ** The daily token *)

Lemma floor_code_range (x : Q) :
  (0 <= x)%Q -> (x < 1)%Q ->
  (1000 <= JS.floor (1000 + x * 9000)%Q <= 9999)%Z.
Proof.
  intros H0 H1. unfold JS.floor. split.
  - rewrite <- (Qfloor_Z 1000). apply Qfloor_resp_le.
    change (inject_Z 1000) with (1000 + 0 * 9000)%Q.
    apply Qplus_le_r. apply Qmult_le_compat_r; [assumption | discriminate].
  - assert (H : (inject_Z (Qfloor (1000 + x * 9000)) < inject_Z 10000)%Q).
    { eapply Qle_lt_trans; [apply Qfloor_le |].
      change (inject_Z 10000) with (1000 + 1 * 9000)%Q.
      apply Qplus_lt_r. apply Qmult_lt_compat_r; [reflexivity | assumption]. }
    rewrite <- Zlt_Qlt in H. lia.
Qed.

Lemma four_digit_table :
  forallb four_digit_check
          (map Z.of_nat (seq (Z.to_nat 1000) (Z.to_nat 9000))) = true.
Proof. vm_compute. reflexivity. Qed.

Lemma four_digits (n : Z) :
  (1000 <= n <= 9999)%Z -> FourDigitCode (JS.intToString n).
Proof.
  intros Hn.
  assert (Hc : four_digit_check n = true).
  { apply (proj1 (forallb_forall _ _) four_digit_table).
    apply in_map_iff. exists (Z.to_nat n). split; [lia |].
    apply in_seq. lia. }
  unfold four_digit_check in Hc. apply andb_prop in Hc.
  destruct Hc as [Hl Hd]. apply Nat.eqb_eq in Hl.
  repeat split; try assumption. now exists n.
Qed.

(** In a table without two rows of one date, the rows of a date are the
    one [find] reaches, or none. *)
Lemma filter_date_NoDup (rows : list TokenRow.t) (today : string) :
  NoDup (map TokenRow.date rows) ->
  match find (fun r => String.eqb (TokenRow.date r) today) rows with
  | Some r => filter (fun r => String.eqb (TokenRow.date r) today) rows = [r]
              /\ In r rows /\ TokenRow.date r = today
  | None => filter (fun r => String.eqb (TokenRow.date r) today) rows = []
  end.
Proof.
  induction rows as [| a rows IH]; intros Hnd; simpl; [reflexivity |].
  inversion Hnd as [| ? ? Hnotin Hnd']; subst.
  specialize (IH Hnd').
  destruct (String.eqb_spec (TokenRow.date a) today) as [E | E].
  - split; [| split; [now left | assumption]].
    f_equal.
    destruct (find _ rows) as [r |] eqn:F; [| assumption].
    destruct IH as [_ [Hin Hd]]. exfalso. apply Hnotin.
    rewrite E, <- Hd. now apply in_map.
  - destruct (find _ rows) as [r |]; [| assumption].
    destruct IH as [Hf [Hin Hd]]. repeat split; auto.
Qed.

Lemma find_app_new (rows : list TokenRow.t) (today code : string) :
  find (fun r => String.eqb (TokenRow.date r) today) rows = None ->
  find (fun r => String.eqb (TokenRow.date r) today)
       (rows ++ [TokenRow.Build today code])
  = Some (TokenRow.Build today code).
Proof.
  induction rows as [| a rows IH]; simpl.
  - now rewrite String.eqb_refl.
  - destruct (String.eqb (TokenRow.date a) today); [discriminate | exact IH].
Qed.

(** What one call does, in a store that can be reached. *)
Lemma getDailyToken_run (now : Date) (w : World) :
  net_up w = true ->
  NoDup (map TokenRow.date (token_rows w)) ->
  let today := toLocaleDateString_idID now in
  match stored_code w today with
  | Some code => getDailyToken now w = (inr code, w)
  | None =>
      let code := JS.intToString
                    (JS.floor (1000 + rand w (rand_pos w) * 9000)%Q) in
      getDailyToken now w
      = (inr code,
         set_db (Store.with_daily_token
                   (fun rows => rows ++ [TokenRow.Build today code])%list)
                (set_rand_pos (S (rand_pos w)) w))
  end.
Proof.
  intros Hup Hnd today. unfold stored_code.
  pose proof (filter_date_NoDup (Store.daily_token (db w)) today Hnd) as Hf.
  fold today in Hf.
  unfold getDailyToken. run.
  fold today. unfold token_rows in *. rewrite Hup.
  destruct (find _ (Store.daily_token (db w))) as [r |] eqn:F; simpl.
  - destruct Hf as [Hf _]. rewrite Hf. reflexivity.
  - rewrite Hf. simpl. rewrite Hup. reflexivity.
Qed.

Lemma TokenTable_ok_empty : TokenTable_ok (Store.daily_token Store.empty).
Proof. split; simpl; constructor. Qed.

(** [getDailyToken] keeps the table in order. *)
Lemma getDailyToken_keeps_table (now : Date) (w : World) :
  net_up w = true -> rand_ok w -> TokenTable_ok (token_rows w) ->
  TokenTable_ok (token_rows (snd (getDailyToken now w))).
Proof.
  intros Hup Hr [Hnd Hall].
  pose proof (getDailyToken_run now w Hup Hnd) as Hrun. simpl in Hrun.
  unfold stored_code in Hrun.
  destruct (find _ (token_rows w)) as [r |] eqn:F; simpl in Hrun;
    rewrite Hrun; simpl; [now split |].
  unfold token_rows. simpl. fold (token_rows w). split.
  - rewrite map_app. simpl.
    apply NoDup_app; [assumption | repeat constructor; simpl; taut |].
    intros d Hd [<- | []]. apply in_map_iff in Hd.
    destruct Hd as [r [Hd Hin]].
    apply (find_none _ _ F) in Hin. rewrite Hd, String.eqb_refl in Hin.
    discriminate.
  - apply Forall_app. split; [assumption |]. constructor; [| constructor].
    simpl. apply four_digits. destruct (Hr (rand_pos w)).
    now apply floor_code_range.
Qed.

(** C1. On a day [D], in a store that can be reached and whose token
    table is in order, two calls of [getDailyToken] return the same code,
    a four-character numeric string with a value from 1000 to 9999. The
    first call leaves the store as it is and returns the stored code when
    there is a row for [D], and adds the row of the code it returns when
    there is none; the second call returns the stored code and leaves the
    store as it is. *)
Theorem getDailyToken_twice (D : string) (now1 now2 : Date) (w : World) :
  net_up w = true ->
  rand_ok w ->
  TokenTable_ok (token_rows w) ->
  toLocaleDateString_idID now1 = D ->
  toLocaleDateString_idID now2 = D ->
  exists (code : string) (w1 : World),
    getDailyToken now1 w = (inr code, w1)
    /\ getDailyToken now2 w1 = (inr code, w1)
    /\ FourDigitCode code
    /\ stored_code w1 D = Some code
    /\ match stored_code w D with
       | Some c => c = code /\ db w1 = db w
       | None => token_rows w1
                 = (token_rows w ++ [TokenRow.Build D code])%list
       end.
Proof.
  intros Hup Hr Hok E1 E2.
  pose proof (getDailyToken_keeps_table now1 w Hup Hr Hok) as Hok1.
  destruct Hok as [Hnd Hall].
  pose proof (getDailyToken_run now1 w Hup Hnd) as Hrun. simpl in Hrun.
  rewrite E1 in Hrun.
  destruct (stored_code w D) as [c |] eqn:S1.
  - exists c, w. split; [assumption |].
    pose proof (getDailyToken_run now2 w Hup Hnd) as Hrun2. simpl in Hrun2.
    rewrite E2, S1 in Hrun2. split; [assumption |].
    split; [| auto].
    unfold stored_code in S1.
    destruct (find _ (token_rows w)) as [r |] eqn:F; [| discriminate].
    injection S1 as <-. apply find_some in F. destruct F as [Hin _].
    now apply (proj1 (Forall_forall _ _) Hall).
  - rewrite Hrun in Hok1. simpl in Hok1. destruct Hok1 as [Hnd1 Hall1].
    eexists. eexists. split; [exact Hrun |].
    match goal with |- getDailyToken now2 ?w1 = _ /\ _ =>
      assert (S2 : stored_code w1 D = Some
                (JS.intToString
                   (JS.floor (1000 + rand w (rand_pos w) * 9000)%Q)))
    end.
    { unfold stored_code, token_rows. simpl. fold (token_rows w).
      unfold stored_code in S1.
      destruct (find _ (token_rows w)) as [r |] eqn:F; [discriminate |].
      rewrite (find_app_new _ _ _ F). reflexivity. }
    split.
    { match goal with |- getDailyToken now2 ?w1 = _ =>
        pose proof (getDailyToken_run now2 w1 Hup Hnd1) as Hrun2
      end.
      simpl in Hrun2. rewrite E2, S2 in Hrun2. exact Hrun2. }
    split.
    { apply four_digits. destruct (Hr (rand_pos w)).
      now apply floor_code_range. }
    split; [exact S2 | reflexivity].
Qed.

(** ** The audit trail *)

Lemma find_map_rows {A B : Type} (g : A -> B) (p : B -> bool) (l : list A) :
  find p (map g l) = option_map g (find (fun x => p (g x)) l).
Proof.
  induction l as [| a l IH]; simpl; [reflexivity |].
  destruct (p (g a)); [reflexivity | exact IH].
Qed.

Lemma find_row_unique (rows : list AttendanceRow.t) (r : AttendanceRow.t) :
  NoDup (map AttendanceRow.id rows) -> In r rows ->
  find (fun x => String.eqb (AttendanceRow.id x) (AttendanceRow.id r)) rows
  = Some r.
Proof.
  induction rows as [| a rows IH]; intros Hnd Hin; simpl; [contradiction |].
  inversion Hnd as [| ? ? Hnotin Hnd']; subst.
  destruct (String.eqb_spec (AttendanceRow.id a) (AttendanceRow.id r))
    as [E | E].
  - destruct Hin as [-> | Hin]; [reflexivity |].
    exfalso. apply Hnotin. rewrite E. now apply in_map.
  - destruct Hin as [-> | Hin]; [congruence | now apply IH].
Qed.

Lemma row_ids_rev (rows : list AttendanceRow.t) :
  NoDup (map AttendanceRow.id rows) ->
  NoDup (map AttendanceRow.id (rev rows)).
Proof. intros H. rewrite map_rev. now apply NoDup_rev. Qed.

Lemma update_comments_ids (recordId : string) (cs : list Comment.t)
    (rows : list AttendanceRow.t) :
  map AttendanceRow.id
      (map (fun r => if String.eqb (AttendanceRow.id r) recordId
                     then AttendanceRow.with_comments cs r else r) rows)
  = map AttendanceRow.id rows.
Proof.
  rewrite map_map. apply map_ext. intros r.
  now destruct (String.eqb (AttendanceRow.id r) recordId).
Qed.

Lemma update_comments_find (recordId : string) (cs : list Comment.t)
    (rows : list AttendanceRow.t) :
  find (fun r => String.eqb (AttendanceRow.id r) recordId)
       (map (fun r => if String.eqb (AttendanceRow.id r) recordId
                      then AttendanceRow.with_comments cs r else r) rows)
  = option_map (AttendanceRow.with_comments cs)
      (find (fun r => String.eqb (AttendanceRow.id r) recordId) rows).
Proof.
  induction rows as [| a rows IH]; simpl; [reflexivity |].
  destruct (String.eqb (AttendanceRow.id a) recordId) eqn:E; simpl;
    rewrite E; [reflexivity | exact IH].
Qed.

(** The record the view finds for an identifier the store knows carries
    the comments the store holds. *)
Lemma find_listed (w : World) (recordId : string) :
  NoDup (row_ids w) -> In recordId (row_ids w) ->
  exists record,
    find (fun a => String.eqb (AttendanceRecord.id a) recordId) (listed w)
    = Some record
    /\ AttendanceRecord.comments record = stored_comments w recordId.
Proof.
  unfold row_ids, listed, stored_comments. intros Hnd Hin.
  apply in_map_iff in Hin. destruct Hin as [r [<- Hin]].
  exists (record_of_row r). rewrite find_map_rows. simpl.
  rewrite (find_row_unique _ r (row_ids_rev _ Hnd)
             (proj1 (in_rev _ _) Hin)).
  rewrite (find_row_unique _ r Hnd Hin). split; reflexivity.
Qed.

(** One comment sent from the report view. *)
Lemma handleAudit_step (adminUser : UserT.t) (recordId : string)
    (e : AuditEntry) (w : World) :
  net_up w = true -> in_sync w ->
  NoDup (row_ids w) -> In recordId (row_ids w) ->
  exists w1,
    DailyReportView_handleAudit adminUser recordId e w = (inr tt, w1)
    /\ net_up w1 = true /\ in_sync w1 /\ row_ids w1 = row_ids w
    /\ stored_comments w1 recordId
       = (stored_comments w recordId ++ [comment_of adminUser e])%list
    /\ alerts w1 = (alerts w ++ ["Komentar terkirim."])%list.
Proof.
  intros Hup Hsync Hnd Hin.
  destruct (find_listed w recordId Hnd Hin) as [record [Hfind Hcs]].
  unfold DailyReportView_handleAudit, handleAudit, addComment, fetchData,
    getUsers, getAttendances. run.
  rewrite Hsync, Hfind. simpl. repeat (rewrite Hup; simpl).
  eexists. split; [reflexivity |]. simpl.
  split; [assumption |]. split; [reflexivity |].
  split; [apply update_comments_ids |].
  split; [| reflexivity].
  unfold stored_comments at 1. simpl. rewrite update_comments_find.
  rewrite Hcs. unfold comment_of.
  unfold row_ids in Hin. apply in_map_iff in Hin.
  destruct Hin as [r [<- Hin]].
  rewrite (find_row_unique _ r Hnd Hin). reflexivity.
Qed.

(** One comment sent from a page whose copy of the record is current;
    the refresh that follows brings the whole list of the page up to
    date. *)
Lemma handleAudit_current_step (adminUser : UserT.t) (recordId : string)
    (e : AuditEntry) (w : World) :
  net_up w = true -> page_copy_current w recordId ->
  NoDup (row_ids w) -> In recordId (row_ids w) ->
  exists w1,
    DailyReportView_handleAudit adminUser recordId e w = (inr tt, w1)
    /\ net_up w1 = true /\ in_sync w1 /\ row_ids w1 = row_ids w
    /\ stored_comments w1 recordId
       = (stored_comments w recordId ++ [comment_of adminUser e])%list.
Proof.
  intros Hup [record [Hfind Hcs]] Hnd Hin.
  unfold DailyReportView_handleAudit, handleAudit, addComment, fetchData,
    getUsers, getAttendances. run.
  rewrite Hfind. simpl. repeat (rewrite Hup; simpl).
  eexists. split; [reflexivity |]. simpl.
  split; [assumption |]. split; [reflexivity |].
  split; [apply update_comments_ids |].
  unfold stored_comments at 1. simpl. rewrite update_comments_find.
  rewrite Hcs. unfold comment_of.
  unfold row_ids in Hin. apply in_map_iff in Hin.
  destruct Hin as [r [<- Hin]].
  rewrite (find_row_unique _ r Hnd Hin). reflexivity.
Qed.

(** A comment sent from the report view is a sending from the list the
    page of the world holds. *)
Lemma sent_from_own_page (adminUser : UserT.t) (recordId : string)
    (e : AuditEntry) (w : World) :
  sent_in_turn recordId [mkSending adminUser (st_attendances w) e] w
  = audit_session adminUser recordId [e] w.
Proof. reflexivity. Qed.

(** Comments sent one after the other from a page whose list is the one
    of the store. *)
Lemma audit_session_in_sync (adminUser : UserT.t) (recordId : string)
    (es : list AuditEntry) (w : World) :
  net_up w = true -> in_sync w ->
  NoDup (row_ids w) -> In recordId (row_ids w) ->
  exists w',
    audit_session adminUser recordId es w = (inr tt, w')
    /\ stored_comments w' recordId
       = (stored_comments w recordId ++ map (comment_of adminUser) es)%list.
Proof.
  revert w.
  induction es as [| e es IH]; intros w Hup Hsync Hnd Hin; simpl.
  - exists w. split; [reflexivity |]. now rewrite app_nil_r.
  - destruct (handleAudit_step adminUser recordId e w Hup Hsync Hnd Hin)
      as [w1 [Hrun [Hup1 [Hsync1 [Hids [Hcs _]]]]]].
    rewrite <- Hids in Hnd, Hin.
    destruct (IH w1 Hup1 Hsync1 Hnd Hin) as [w' [Hrun' Hcs']].
    exists w'. unfold bind at 1. rewrite Hrun. split; [exact Hrun' |].
    rewrite Hcs', Hcs, <- app_assoc. reflexivity.
Qed.

(** C2, as the program has it. [handleAudit] builds the new sequence
    from the copy of the record that the page holds. From a page whose
    copy carries the comments the store holds, comments are only ever
    appended: for a record the store knows, after [N] comments sent one
    after the other from that page the store holds for it the comments
    it held before, unchanged and in their order, followed by the [N]
    new comments in the order they were sent, each as [handleAudit]
    built it; for a record that had no comment, that is a sequence of
    length [N]. *)
Theorem appendComment_append_only (adminUser : UserT.t) (recordId : string)
    (es : list AuditEntry) (w : World) :
  net_up w = true -> page_copy_current w recordId ->
  NoDup (row_ids w) -> In recordId (row_ids w) ->
  exists w',
    audit_session adminUser recordId es w = (inr tt, w')
    /\ stored_comments w' recordId
       = (stored_comments w recordId ++ map (comment_of adminUser) es)%list
    /\ (stored_comments w recordId = [] ->
        stored_comments w' recordId = map (comment_of adminUser) es
        /\ List.length (stored_comments w' recordId) = List.length es)
    /\ (forall k c, nth_error (stored_comments w recordId) k = Some c ->
                    nth_error (stored_comments w' recordId) k = Some c)
    /\ (forall k e, nth_error es k = Some e ->
          nth_error (stored_comments w' recordId)
                    (List.length (stored_comments w recordId) + k)
          = Some (comment_of adminUser e)).
Proof.
  intros Hup Hcur Hnd Hin.
  assert (Hmain : exists w',
    audit_session adminUser recordId es w = (inr tt, w')
    /\ stored_comments w' recordId
       = (stored_comments w recordId ++ map (comment_of adminUser) es)%list).
  { destruct es as [| e es]; simpl.
    - exists w. split; [reflexivity |]. now rewrite app_nil_r.
    - destruct (handleAudit_current_step adminUser recordId e w
                  Hup Hcur Hnd Hin)
        as [w1 [Hrun [Hup1 [Hsync1 [Hids Hcs]]]]].
      rewrite <- Hids in Hnd, Hin.
      destruct (audit_session_in_sync adminUser recordId es w1
                  Hup1 Hsync1 Hnd Hin) as [w' [Hrun' Hcs']].
      exists w'. unfold bind at 1. rewrite Hrun. split; [exact Hrun' |].
      rewrite Hcs', Hcs, <- app_assoc. reflexivity. }
  destruct Hmain as [w' [Hrun Hcs]]. exists w'.
  split; [exact Hrun |]. split; [exact Hcs |].
  split; [| split].
  - intros Hempty. rewrite Hcs, Hempty. simpl.
    split; [reflexivity | apply length_map].
  - intros k c Hk. rewrite Hcs. rewrite nth_error_app1; [assumption |].
    apply nth_error_Some. congruence.
  - intros k e Hk. rewrite Hcs. rewrite nth_error_app2 by lia.
    replace (_ + k - _) with k by lia.
    now apply map_nth_error.
Qed.

(** ** Submitting a check-in *)

Lemma falsy_empty (s : string) : JS.falsy s = true <-> s = EmptyString.
Proof. destruct s; simpl; split; congruence. Qed.

Lemma falsy_nonempty (s : string) : s <> EmptyString -> JS.falsy s = false.
Proof. destruct s; simpl; congruence. Qed.

Lemma last_alert_differs (l : list string) (a b : string) :
  a <> b -> (l ++ [a])%list <> (l ++ [b])%list.
Proof. intros Hab H. apply app_inv_head in H. congruence. Qed.

(** What [submit] does with its three text fields filled in. *)
Lemma submit_complete_run (user : UserT.t) (position desc photo : string)
    (geo : option GeolocationCoordinates.t) (d1 d2 : Date) (w : World) :
  position <> EmptyString -> desc <> EmptyString -> photo <> EmptyString ->
  let c := AttendanceForm_submit user position desc photo geo d1 d2 in
  match geo with
  | None => c w = (inr tt, add_alert "Gagal mendapatkan lokasi GPS." w)
  | Some coords =>
      if net_up w then
        let row :=
          NewAttendance.Build (UserT.nip user) (UserT.name user)
            (toLocaleDateString_idID d1) (toLocaleTimeString_idID d2)
            position photo desc
            (GeolocationCoordinates.latitude coords)
            (GeolocationCoordinates.longitude coords) [] in
        let w1 := add_alert "Absensi Berhasil Terkirim!"
                    (set_db (Store.insert_attendance row) w) in
        c w = (inr tt,
               set_st_attendances (listed w1)
                 (set_st_users (Store.users (db w)) w1))
      else c w = (inr tt, add_alert "Gagal mengirim absensi. Cek koneksi." w)
  end.
Proof.
  intros Hp Hd Hph c. subst c.
  unfold AttendanceForm_submit, submit.
  rewrite (falsy_nonempty _ Hp), (falsy_nonempty _ Hd),
    (falsy_nonempty _ Hph). simpl.
  destruct geo as [coords |]; [| reflexivity].
  unfold addAttendance, fetchData, getUsers, getAttendances. run.
  destruct (net_up w) eqn:Hup; simpl; [| reflexivity].
  repeat (rewrite Hup; simpl). reflexivity.
Qed.

(** C4. A submission with its three text fields filled in and a position
    reading, sent to a store that can be reached, is the first record of
    the list read afterwards: it carries the submitter, the submitted
    position, description, photo and coordinates, the local date and time
    of the submission, and no comment. *)
Theorem submit_then_list (user : UserT.t) (position desc photo : string)
    (coords : GeolocationCoordinates.t) (d1 d2 : Date) (w : World) :
  position <> EmptyString -> desc <> EmptyString -> photo <> EmptyString ->
  net_up w = true ->
  exists (w1 : World) (record : AttendanceRecord.t),
    AttendanceForm_submit user position desc photo (Some coords) d1 d2 w
    = (inr tt, w1)
    /\ getAttendances w1 = (inr (record :: listed w), w1)
    /\ In record (st_attendances w1)
    /\ AttendanceRecord.userId record = UserT.nip user
    /\ AttendanceRecord.userName record = UserT.name user
    /\ AttendanceRecord.position record = position
    /\ AttendanceRecord.description record = desc
    /\ AttendanceRecord.photo record = photo
    /\ AttendanceRecord.location record
       = Location.Build (GeolocationCoordinates.latitude coords)
                        (GeolocationCoordinates.longitude coords)
    /\ AttendanceRecord.date record = toLocaleDateString_idID d1
    /\ AttendanceRecord.time record = toLocaleTimeString_idID d2
    /\ AttendanceRecord.comments record = [].
Proof.
  intros Hp Hd Hph Hup.
  pose proof (submit_complete_run user position desc photo (Some coords)
                d1 d2 w Hp Hd Hph) as Hrun.
  simpl in Hrun. rewrite Hup in Hrun.
  eexists. eexists. split; [exact Hrun |].
  unfold getAttendances. run. simpl. rewrite Hup. simpl.
  unfold listed. simpl. rewrite rev_app_distr. simpl.
  split; [reflexivity |]. split; [now left |].
  repeat split; reflexivity.
Qed.

(** C3, as the program has it. [submit] turns a submission down as
    incomplete exactly when the position, the description or the photo is
    empty, whatever the location. With the three filled in, a position
    reading that fails is reported as a GPS failure, not as an incomplete
    submission, and nothing is written; a reading that is delivered, two
    finite coordinates, is stored with these coordinates when the store
    can be reached. So the rule of the specification holds wherever a
    reading is delivered, and fails only in the kind of the failure
    when none is. *)
Theorem submit_incomplete_iff (user : UserT.t)
    (position desc photo : string)
    (geo : option GeolocationCoordinates.t) (d1 d2 : Date) (w : World) :
  let w' :=
    snd (AttendanceForm_submit user position desc photo geo d1 d2 w) in
  (rejected_incomplete w w' <->
   position = EmptyString \/ desc = EmptyString \/ photo = EmptyString)
  /\ (position <> EmptyString -> desc <> EmptyString ->
      photo <> EmptyString -> geo = None ->
      alerts w' = (alerts w ++ ["Gagal mendapatkan lokasi GPS."])%list
      /\ db w' = db w
      /\ ~ rejected_incomplete w w')
  /\ (position <> EmptyString -> desc <> EmptyString ->
      photo <> EmptyString -> net_up w = true ->
      forall coords, geo = Some coords -> finite_location geo = true ->
      alerts w' = (alerts w ++ ["Absensi Berhasil Terkirim!"])%list
      /\ exists row,
           Store.attendances (db w')
           = (Store.attendances (db w) ++ [row])%list
           /\ AttendanceRow.location_lat row
              = GeolocationCoordinates.latitude coords
           /\ AttendanceRow.location_lng row
              = GeolocationCoordinates.longitude coords)
  /\ (finite_location geo = true ->
      submit_rule_of_spec user position desc photo geo d1 d2 w).
Proof.
  intros w'.
  pose proof (submit_complete_run user position desc photo geo d1 d2 w)
    as Hrun. simpl in Hrun. fold w' in Hrun.
  assert (Hiff : rejected_incomplete w w' <->
                 position = EmptyString \/ desc = EmptyString
                 \/ photo = EmptyString).
  { split.
    + intros [Ha Hdb].
      destruct position as [| p0 ps]; [now left |].
      destruct desc as [| e0 es]; [right; now left |].
      destruct photo as [| f0 fs]; [right; right; reflexivity |].
      exfalso.
      assert (Hrun' := Hrun ltac:(discriminate) ltac:(discriminate)
                            ltac:(discriminate)).
      clear Hrun. subst w'.
      destruct geo as [coords |]; [destruct (net_up w) |];
        rewrite Hrun' in Ha; simpl in Ha;
        revert Ha; apply last_alert_differs; discriminate.
    + intros H. subst w'. unfold AttendanceForm_submit, submit.
      assert (E : JS.falsy position || JS.falsy desc || JS.falsy photo
                  = true).
      { destruct H as [-> | [-> | ->]]; simpl;
          rewrite ?orb_true_r; reflexivity. }
      rewrite E. split; reflexivity. }
  split; [exact Hiff |]. split; [| split].
  - intros Hp Hd Hph Hgeo. split; [| split].
    + subst geo. specialize (Hrun Hp Hd Hph). subst w'.
      rewrite Hrun. reflexivity.
    + subst geo. specialize (Hrun Hp Hd Hph). subst w'.
      rewrite Hrun. reflexivity.
    + intros Hrej. apply Hiff in Hrej. clear Hrun Hiff. subst w'.
      destruct Hrej as [E | [E | E]]; congruence.
  - intros Hp Hd Hph Hup coords -> _. specialize (Hrun Hp Hd Hph).
    rewrite Hup in Hrun. subst w'. rewrite Hrun. simpl.
    split; [reflexivity |]. eexists. split; [reflexivity |].
    split; reflexivity.
  - intros Hfin. unfold submit_rule_of_spec. fold w'. rewrite Hfin.
    clear Hrun. split.
    + intros Hrej. apply Hiff in Hrej.
      destruct Hrej as [E | [E | E]]; auto.
    + intros [E | [E | [E | E]]]; [| | | discriminate];
        apply Hiff; auto.
Qed.

(** ** Changing a password *)

(** C5, as the program has it. [handleSubmit] of the password page
    compares the old password with the one of [user], the copy of the
    user that the page holds; the store is not asked. It turns down a new
    password shorter than four characters and an old password that is
    not the one of that copy: it ends with an error message on the page
    and the world otherwise as it was, so no update reaches the store and
    the stored password stays, whatever the store holds. The message is
    the one for the wrong old password when the three fields are filled
    in and the old password is wrong, and the one for the short password
    when the other checks pass. *)
Theorem changePassword_rejections (user : UserT.t)
    (onSuccess : string -> M unit)
    (oldPass newPass confirmPass : string) (w : World) :
  String.length newPass < 4 \/ oldPass <> UserT.password user ->
  exists msg,
    ChangePassword_handleSubmit user onSuccess oldPass newPass confirmPass w
    = (inr tt, set_st_error msg w)
    /\ msg <> EmptyString
    /\ db (set_st_error msg w) = db w
    /\ stored_password (set_st_error msg w) (UserT.nip user)
       = stored_password w (UserT.nip user)
    /\ (oldPass <> EmptyString -> newPass <> EmptyString ->
        confirmPass <> EmptyString ->
        oldPass <> UserT.password user -> msg = "Password lama salah.")
    /\ (oldPass = UserT.password user -> newPass = confirmPass ->
        newPass <> EmptyString -> oldPass <> EmptyString ->
        msg = "Password minimal 4 karakter.").
Proof.
  intros Hbad.
  unfold ChangePassword_handleSubmit. run.
  destruct (JS.falsy oldPass) eqn:Fo; simpl.
  { apply falsy_empty in Fo. subst oldPass. eexists.
    split; [reflexivity |]. split; [discriminate |].
    split; [reflexivity |]. split; [reflexivity |].
    split; intros; congruence. }
  destruct (JS.falsy newPass) eqn:Fn; simpl.
  { apply falsy_empty in Fn. subst newPass. eexists.
    split; [reflexivity |]. split; [discriminate |].
    split; [reflexivity |]. split; [reflexivity |].
    split; intros; congruence. }
  destruct (JS.falsy confirmPass) eqn:Fc; simpl.
  { apply falsy_empty in Fc. subst confirmPass. eexists.
    split; [reflexivity |]. split; [discriminate |].
    split; [reflexivity |]. split; [reflexivity |].
    split; intros; congruence. }
  destruct (String.eqb_spec oldPass (UserT.password user)) as [Eo | Eo];
    simpl.
  2:{ eexists. split; [reflexivity |]. split; [discriminate |].
      split; [reflexivity |]. split; [reflexivity |].
      split; intros; congruence. }
  destruct (String.eqb_spec newPass confirmPass) as [Ec | Ec]; simpl.
  2:{ eexists. split; [reflexivity |]. split; [discriminate |].
      split; [reflexivity |]. split; [reflexivity |].
      split; intros; congruence. }
  destruct (Nat.ltb_spec (String.length newPass) 4) as [Hl | Hl]; simpl.
  - eexists. split; [reflexivity |]. split; [discriminate |].
    split; [reflexivity |]. split; [reflexivity |].
    split; intros; congruence.
  - exfalso. destruct Hbad as [Hs | Hs]; [lia | contradiction].
Qed.

(** ** Failures of the audit trail *)

(** C6, as the program has it. For an identifier that is not in the
    list, [handleAudit] returns and leaves the whole world as it was:
    nothing is written and nothing is reported. For an empty text the
    button does the same, without calling [handleAudit]; any other text
    is handed to [handleAudit] as it is. *)
Theorem appendComment_silent (attendances : list AttendanceRecord.t)
    (onRefresh : M unit) (adminUser : UserT.t)
    (selectedRecord : AttendanceRecord.t)
    (recordId text : string) (nowMs : Z) (now : Date) (w : World) :
  (find (fun a => String.eqb (AttendanceRecord.id a) recordId) attendances
   = None ->
   handleAudit attendances onRefresh adminUser recordId text nowMs now w
   = (inr tt, w))
  /\ commentButton_onClick attendances onRefresh adminUser selectedRecord
                           EmptyString nowMs now w
     = (inr tt, w)
  /\ (text <> EmptyString ->
      commentButton_onClick attendances onRefresh adminUser selectedRecord
                            text nowMs now
      = handleAudit attendances onRefresh adminUser
                    (AttendanceRecord.id selectedRecord) text nowMs now).
Proof.
  split; [| split].
  - intros Hnone. unfold handleAudit. rewrite Hnone. reflexivity.
  - reflexivity.
  - intros Ht. unfold commentButton_onClick, JS.truthy.
    now rewrite (falsy_nonempty _ Ht).
Qed.

(** ** Bulk provisioning *)

Lemma split_first_line (first rest : string) :
  has_char LF first = false ->
  JS.split LF (first ++ String LF rest) = first :: JS.split LF rest.
Proof.
  induction first as [| c first IH]; simpl; intros H.
  - reflexivity.
  - apply orb_false_elim in H. destruct H as [Hc Hrest].
    rewrite Hc, (IH Hrest). reflexivity.
Qed.

Lemma split_one_line (text : string) :
  has_char LF text = false -> JS.split LF text = [text].
Proof.
  induction text as [| c text IH]; simpl; intros H.
  - reflexivity.
  - apply orb_false_elim in H. destruct H as [Hc Hrest].
    rewrite Hc, (IH Hrest). reflexivity.
Qed.

Lemma generatePassword_loop_run (n : nat) (acc : string) (w : World) :
  generatePassword_loop n acc w
  = (inr (password_from (rand w) (rand_pos w) n acc),
     set_rand_pos (rand_pos w + n) w).
Proof.
  revert acc w. induction n as [| n IH]; intros acc w.
  - destruct w. unfold set_rand_pos. simpl. rewrite Nat.add_0_r.
    reflexivity.
  - simpl. unfold bind, Math_random. rewrite IH. destruct w.
    unfold set_rand_pos. simpl. rewrite <- plus_n_Sm. reflexivity.
Qed.

Lemma generatePassword_run (w : World) :
  generatePassword w
  = (inr (password_at (rand w) (rand_pos w)),
     set_rand_pos (rand_pos w + 6) w).
Proof. apply generatePassword_loop_run. Qed.

Lemma floor_index_range (x : Q) :
  (0 <= x)%Q -> (x < 1)%Q -> (0 <= JS.floor (x * 36)%Q < 36)%Z.
Proof.
  intros H0 H1. unfold JS.floor. split.
  - rewrite <- (Qfloor_Z 0). apply Qfloor_resp_le.
    change (inject_Z 0) with (0 * 36)%Q.
    apply Qmult_le_compat_r; [assumption | discriminate].
  - assert (H : (inject_Z (Qfloor (x * 36)) < inject_Z 36)%Q).
    { eapply Qle_lt_trans; [apply Qfloor_le |].
      change (inject_Z 36) with (1 * 36)%Q.
      apply Qmult_lt_compat_r; [reflexivity | assumption]. }
    rewrite <- Zlt_Qlt in H. exact H.
Qed.

(** One round of [generatePassword] picks one character of [chars]. *)
Lemma pick_char (x : Q) :
  (0 <= x)%Q -> (x < 1)%Q ->
  exists c,
    JS.charAt chars
      (JS.floor (x * inject_Z (Z.of_nat (String.length chars)))%Q)
    = String c EmptyString
    /\ lowerOrDigit c = true.
Proof.
  intros H0 H1.
  change (inject_Z (Z.of_nat (String.length chars))) with 36%Q.
  pose proof (floor_index_range x H0 H1) as Hi.
  set (i := JS.floor (x * 36)%Q) in *.
  unfold JS.charAt. destruct (Z.ltb_spec i 0) as [Hneg | _]; [lia |].
  assert (Hn : Z.to_nat i < 36) by lia.
  set (n := Z.to_nat i) in *. clearbody n. clear Hi.
  do 36 (destruct n as [| n];
         [simpl; eexists; split; reflexivity |]).
  lia.
Qed.

Lemma allLowerOrDigit_app (a b : string) :
  allLowerOrDigit (a ++ b) = allLowerOrDigit a && allLowerOrDigit b.
Proof.
  induction a as [| c a IH]; simpl; [reflexivity |].
  now rewrite IH, andb_assoc.
Qed.

Lemma length_append (a b : string) :
  String.length (a ++ b) = String.length a + String.length b.
Proof. induction a as [| c a IH]; simpl; [reflexivity | now rewrite IH]. Qed.

Lemma password_from_ok (rnd : nat -> Q) (n pos : nat) (acc : string) :
  (forall k, (0 <= rnd k)%Q /\ (rnd k < 1)%Q) ->
  String.length (password_from rnd pos n acc) = String.length acc + n
  /\ allLowerOrDigit (password_from rnd pos n acc) = allLowerOrDigit acc.
Proof.
  intros Hr. revert pos acc.
  induction n as [| n IH]; intros pos acc; cbn [password_from].
  - split; [lia | reflexivity].
  - destruct (Hr pos) as [H0 H1].
    destruct (pick_char (rnd pos) H0 H1) as [c [Hc Hld]].
    rewrite Hc. destruct (IH (S pos) (acc ++ String c EmptyString))
      as [Hlen Hall].
    rewrite Hlen, Hall, length_append, allLowerOrDigit_app. simpl.
    rewrite Hld. split; [lia | now rewrite !andb_true_r].
Qed.

Lemma password_at_ok (rnd : nat -> Q) (pos : nat) :
  (forall k, (0 <= rnd k)%Q /\ (rnd k < 1)%Q) ->
  PasswordOk (password_at rnd pos).
Proof.
  intros Hr. destruct (password_from_ok rnd 6 pos EmptyString Hr).
  split; assumption.
Qed.

Lemma fetchData_run (w : World) :
  fetchData w
  = (inr tt,
     if net_up w
     then set_st_attendances (listed w)
            (set_st_users (Store.users (db w)) w)
     else set_st_attendances [] (set_st_users [] w)).
Proof.
  unfold fetchData, getUsers, getAttendances. run.
  destruct (net_up w) eqn:Hup; simpl; repeat (rewrite Hup; simpl);
    reflexivity.
Qed.

(** A line without a comma is passed over. *)
Lemma import_loop_narrow (line : string) (rest : list string) (count : Z) :
  List.length (JS.split "," line) < 2 ->
  import_loop (line :: rest) count = import_loop rest count.
Proof.
  intros H. cbn [import_loop].
  destruct (Nat.leb_spec 2 (List.length (JS.split "," line))); [lia |].
  reflexivity.
Qed.

Lemma addUser_run (u : UserT.t) (w : World) :
  addUser u w
  = if net_up w then
      if Store.has_nip (UserT.nip u) (db w)
      then (inl supabase.duplicate_key, w)
      else (inr tt,
            set_db (Store.with_users (fun us => (us ++ [u])%list)) w)
    else (inl supabase.unreachable, w).
Proof.
  unfold addUser. run.
  destruct (net_up w); [| reflexivity].
  destruct (Store.has_nip (UserT.nip u) (db w)); reflexivity.
Qed.

(** The body of the loop for a wide line: six values of [Math.random]
    are drawn, and the user is counted when the store takes it. *)
Lemma import_attempt_run (line : string) (count : Z) (w : World) :
  let u := user_of_line line (password_at (rand w) (rand_pos w)) in
  let w1 := set_rand_pos (rand_pos w + 6) w in
  tryCatch
    (password <- generatePassword ;;
     addUser (user_of_line line password) ;;
     ret (count + 1)%Z)
    (fun _ => ret count) w
  = if net_up w && negb (Store.has_nip (UserT.nip u) (db w))
    then (inr (count + 1)%Z,
          set_db (Store.with_users (fun us => (us ++ [u])%list)) w1)
    else (inr count, w1).
Proof.
  intros u w1. unfold tryCatch, bind. rewrite generatePassword_run.
  fold u. fold w1. rewrite addUser_run.
  replace (net_up w1) with (net_up w) by reflexivity.
  replace (db w1) with (db w) by reflexivity.
  destruct (net_up w); [| reflexivity].
  destruct (Store.has_nip (UserT.nip u) (db w)); reflexivity.
Qed.

Lemma provisioned_shift (rnd : nat -> Q) (pos : nat) (line : string)
    (rest : list string) (u : UserT.t) :
  wide line = true ->
  provisioned_from rnd (pos + 6) rest u ->
  provisioned_from rnd pos (line :: rest) u.
Proof.
  intros Hw [k [l [Hk Hu]]]. exists (S k), l. split.
  - simpl. rewrite Hw. exact Hk.
  - replace (pos + 6 * S k) with (pos + 6 + 6 * k) by lia. exact Hu.
Qed.

Lemma provisioned_skip (rnd : nat -> Q) (pos : nat) (line : string)
    (rest : list string) (u : UserT.t) :
  wide line = false ->
  provisioned_from rnd pos rest u ->
  provisioned_from rnd pos (line :: rest) u.
Proof.
  intros Hw [k [l [Hk Hu]]]. exists k, l. simpl. rewrite Hw.
  split; assumption.
Qed.

(** What the loop of [handleImport] does to the store and to its
    counter. *)
Lemma import_loop_run (lines : list string) (count : Z) (w : World) :
  exists (added : list UserT.t) (w' : World),
    import_loop lines count w
    = (inr (count + Z.of_nat (List.length added))%Z, w')
    /\ Store.users (db w') = (Store.users (db w) ++ added)%list
    /\ Forall (provisioned_from (rand w) (rand_pos w) lines) added
    /\ List.length added <= List.length (filter wide lines)
    /\ rand_pos w' = rand_pos w + 6 * List.length (filter wide lines)
    /\ rand w' = rand w /\ alerts w' = alerts w /\ net_up w' = net_up w
    /\ Store.attendances (db w') = Store.attendances (db w)
    /\ Store.daily_token (db w') = Store.daily_token (db w).
Proof.
  revert count w. induction lines as [| line rest IH]; intros count w.
  - exists [], w. simpl. unfold ret. rewrite Z.add_0_r, app_nil_r.
    repeat split; auto; lia.
  - cbn [import_loop filter]. fold (wide line).
    destruct (wide line) eqn:Hw.
    + fold (user_of_line line). unfold bind at 1.
      change (tryCatch _ _ w) with
        (tryCatch
           (password <- generatePassword ;;
            addUser (user_of_line line password) ;;
            ret (count + 1)%Z)
           (fun _ => ret count) w).
      rewrite import_attempt_run.
      set (u := user_of_line line (password_at (rand w) (rand_pos w))).
      destruct (net_up w && negb (Store.has_nip (UserT.nip u) (db w))).
      * match goal with |- context [import_loop rest ?c ?w1] =>
          destruct (IH c w1)
            as [added [w' [Hrun [Hus [Hall [Hlen [Hpos Hrest]]]]]]]
        end.
        simpl in Hus, Hall, Hpos, Hrest.
        exists (u :: added), w'.
        split.
        { rewrite Hrun. f_equal. f_equal. simpl List.length. lia. }
        split; [rewrite Hus; now rewrite <- app_assoc |].
        split; [| split; [simpl; lia | split; [simpl; lia | exact Hrest]]].
        constructor.
        -- exists 0, line. split; [simpl; now rewrite Hw |].
           now rewrite Nat.mul_0_r, Nat.add_0_r.
        -- eapply Forall_impl; [| exact Hall].
           intros x Hx. now apply provisioned_shift.
      * destruct (IH count (set_rand_pos (rand_pos w + 6) w))
          as [added [w' [Hrun [Hus [Hall [Hlen [Hpos Hrest]]]]]]].
        simpl in Hus, Hall, Hpos, Hrest.
        exists added, w'. split; [exact Hrun |]. split; [exact Hus |].
        split; [| split; [simpl; lia | split; [simpl; lia | exact Hrest]]].
        eapply Forall_impl; [| exact Hall].
        intros x Hx. now apply provisioned_shift.
    + destruct (IH count w)
        as [added [w' [Hrun [Hus [Hall [Hlen [Hpos Hrest]]]]]]].
      exists added, w'. split; [exact Hrun |]. split; [exact Hus |].
      split; [| split; [exact Hlen | split; [exact Hpos | exact Hrest]]].
      eapply Forall_impl; [| exact Hall].
      intros x Hx. now apply provisioned_skip.
Qed.

(** C10. An import never reads a user from the first line of the file
    and passes over a line without a comma: the users it adds are users
    of wide lines from the second line on, the number it reports is the
    number of users added, and each of them has the six-character
    password of lowercase letters and digits built by a call of
    [generatePassword] of its own, from six values of [Math.random] that
    no other call uses. *)
Theorem handleImport_skips_header (text : string) (w : World) :
  rand_ok w ->
  let lines := JS.split LF text in
  exists (added : list UserT.t) (w' : World),
    UserManagementView_handleImport text w = (inr tt, w')
    /\ Store.users (db w') = (Store.users (db w) ++ added)%list
    /\ alerts w'
       = (alerts w ++
          [("Berhasil import "
            ++ JS.intToString (Z.of_nat (List.length added))
            ++ " user.")%string])%list
    /\ Forall (fun u =>
                 provisioned_from (rand w) (rand_pos w) (skipn 1 lines) u
                 /\ PasswordOk (UserT.password u)) added
    /\ List.length added <= List.length (filter wide (skipn 1 lines))
    /\ rand_pos w'
       = rand_pos w + 6 * List.length (filter wide (skipn 1 lines))
    /\ (forall first rest,
          text = first ++ String LF rest -> has_char LF first = false ->
          skipn 1 lines = JS.split LF rest)
    /\ (has_char LF text = false -> added = [])
    /\ (forall line rest count,
          wide line = false ->
          import_loop (line :: rest) count = import_loop rest count).
Proof.
  intros Hr lines.
  destruct (import_loop_run (skipn 1 lines) 0 w)
    as [added [w1 [Hrun [Hus [Hall [Hlen [Hpos [Hrand [Hal [Hup _]]]]]]]]]].
  exists added.
  unfold UserManagementView_handleImport, handleImport. fold lines.
  unfold bind at 1. rewrite Hrun. unfold bind, alert, modify.
  rewrite fetchData_run. simpl Z.add.
  eexists. split; [reflexivity |].
  split; [destruct (net_up (add_alert _ w1)); simpl; exact Hus |].
  split; [destruct (net_up (add_alert _ w1)); simpl; now rewrite Hal |].
  split.
  { rewrite Forall_forall in Hall |- *. intros u Hu.
    split; [now apply Hall |].
    destruct (Hall u Hu) as [k [line [_ ->]]]. simpl.
    now apply password_at_ok. }
  split; [exact Hlen |].
  split; [destruct (net_up (add_alert _ w1)); simpl; exact Hpos |].
  split.
  { intros first rest -> Hf. subst lines.
    now rewrite (split_first_line first rest Hf). }
  split.
  { intros Hno. subst lines. rewrite (split_one_line text Hno) in Hlen.
    simpl in Hlen. destruct added; [reflexivity | simpl in Hlen; lia]. }
  intros line rest count Hw. apply import_loop_narrow.
  unfold wide in Hw. apply Nat.leb_gt in Hw. exact Hw.
Qed.

(** ** The export *)

Lemma append_assoc (a b c : string) : (a ++ b) ++ c = a ++ b ++ c.
Proof. induction a as [| x a IH]; simpl; [reflexivity | now rewrite IH]. Qed.

Lemma csvRow_columns (d : AttendanceRecord.t) :
  csvRow d = JS.join "," (columns d).
Proof.
  unfold csvRow, columns, quoted, JS.join. simpl String.concat.
  rewrite !append_assoc. reflexivity.
Qed.

Lemma replaceAll_gone (c d : ascii) (s : string) :
  c <> d -> has_char c (JS.replaceAll c d s) = false.
Proof.
  intros Hcd. induction s as [| x s IH]; simpl; [reflexivity |].
  rewrite IH, orb_false_r.
  destruct (Ascii.eqb_spec x c) as [-> | Hx].
  - apply Ascii.eqb_neq. congruence.
  - now apply Ascii.eqb_neq.
Qed.

(** C9, as the program has it. The export is comma-separated text: the
    header row [NIP,Nama,Tanggal,Jam,Jabatan,Keterangan,Lokasi], then one
    row a record in the order of the records, with the columns
    identifier, name, date, time, position, description, location, the
    free text in double quotes and the location as the two coordinates
    with a comma and a space between them in double quotes. The link
    carries it as a [data:] address, and the file is named [Absensi_],
    the date with every slash turned into a dash, [.csv]. *)
Theorem export_format (date : string) (data : list AttendanceRecord.t) :
  csvText data
  = document "NIP,Nama,Tanggal,Jam,Jabatan,Keterangan,Lokasi" data
  /\ Link.href (handleDownloadCSV date data)
     = JS.encodeURI
         ("data:text/csv;charset=utf-8,"
          ++ document "NIP,Nama,Tanggal,Jam,Jabatan,Keterangan,Lokasi" data)
  /\ Link.download (handleDownloadCSV date data)
     = "Absensi_" ++ JS.replaceAll "/" "-" date ++ ".csv"
  /\ has_char "/" (JS.replaceAll "/" "-" date) = false
  /\ List.length (JS.join "," headers :: map csvRow data)
     = 1 + List.length data.
Proof.
  assert (E : csvText data
              = document "NIP,Nama,Tanggal,Jam,Jabatan,Keterangan,Lokasi"
                         data).
  { unfold csvText, document. f_equal. f_equal.
    apply map_ext. intros d. apply csvRow_columns. }
  split; [exact E |].
  split; [unfold handleDownloadCSV, csvContent; simpl; now rewrite E |].
  split; [reflexivity |].
  split; [apply replaceAll_gone; discriminate |].
  simpl. now rewrite length_map.
Qed.

(** ** Reading the export back *)

Lemma append_nil_r (a : string) : a ++ EmptyString = a.
Proof. induction a as [| x a IH]; simpl; [reflexivity | now rewrite IH]. Qed.

Lemma has_char_app (c : ascii) (a b : string) :
  has_char c (a ++ b) = has_char c a || has_char c b.
Proof.
  induction a as [| x a IH]; simpl; [reflexivity |].
  now rewrite IH, orb_assoc.
Qed.

Lemma put_app (f : string) (c : ascii) (t : string) :
  Csv.put f c ++ t = f ++ String c t.
Proof. unfold Csv.put. now rewrite append_assoc. Qed.

(** An unquoted field and the comma after it. *)
Lemma read_bare_comma (t : string) :
  bare t = true ->
  forall (start : bool) (f : string) (row : list string) (s : string),
    Csv.read Csv.Plain start f row (t ++ String "," s)
    = Csv.read Csv.Plain true EmptyString ((f ++ t) :: row) s.
Proof.
  unfold bare. induction t as [| c t IH]; intros Hb start f row s.
  - simpl. rewrite andb_false_r, append_nil_r. reflexivity.
  - simpl in Hb. rewrite !negb_orb in Hb.
    apply andb_prop in Hb. destruct Hb as [Hb Hq].
    apply andb_prop in Hb. destruct Hb as [Hc Hl].
    apply andb_prop in Hc. destruct Hc as [Hc Hc'].
    apply andb_prop in Hl. destruct Hl as [Hl Hl'].
    apply andb_prop in Hq. destruct Hq as [Hq Hq'].
    apply negb_true_iff in Hc, Hl, Hq.
    simpl. rewrite Hc, Hl, Hq, andb_false_r.
    rewrite IH by now rewrite Hc', Hl', Hq'.
    now rewrite put_app.
Qed.

(** The inside of a quoted field and its closing quote. *)
Lemma read_quoted_text (t : string) :
  quotable t = true ->
  forall (f : string) (row : list string) (s : string),
    Csv.read Csv.Quoted false f row (t ++ String "034" s)
    = Csv.read Csv.QuoteSeen false (f ++ t) row s.
Proof.
  unfold quotable. induction t as [| c t IH]; intros Hq f row s.
  - simpl. now rewrite append_nil_r.
  - simpl in Hq. rewrite negb_orb in Hq. apply andb_prop in Hq.
    destruct Hq as [Hc Hq]. apply negb_true_iff in Hc.
    simpl. rewrite Hc, (IH Hq). now rewrite put_app.
Qed.

(** A quoted field at the start of a field. *)
Lemma read_quoted_field (t : string) :
  quotable t = true ->
  forall (row : list string) (s : string),
    Csv.read Csv.Plain true EmptyString row
             (String "034" (t ++ String "034" s))
    = Csv.read Csv.QuoteSeen false t row s.
Proof.
  intros Hq row s. simpl. now rewrite (read_quoted_text t Hq).
Qed.

(** The comma after a closing quote. *)
Lemma read_quote_comma (f : string) (row : list string) (s : string) :
  Csv.read Csv.QuoteSeen false f row (String "," s)
  = Csv.read Csv.Plain true EmptyString (f :: row) s.
Proof. reflexivity. Qed.

(** A row of an exportable record, whatever follows it. *)
Lemma read_row (d : AttendanceRecord.t) (s : string) :
  exportable d = true ->
  Csv.read Csv.Plain true EmptyString [] (csvRow d ++ s)
  = Csv.read Csv.QuoteSeen false
      (numberToString (Location.lat (AttendanceRecord.location d)) ++ ", "
       ++ numberToString (Location.lng (AttendanceRecord.location d)))
      [ AttendanceRecord.description d; AttendanceRecord.position d;
        AttendanceRecord.time d; AttendanceRecord.date d;
        AttendanceRecord.userName d; AttendanceRecord.userId d ] s.
Proof.
  unfold exportable. intros H.
  do 7 (apply andb_prop in H; destruct H as [H ?]).
  set (lat := numberToString (Location.lat (AttendanceRecord.location d)))
    in *.
  set (lng := numberToString (Location.lng (AttendanceRecord.location d)))
    in *.
  assert (Hloc : quotable (lat ++ ", " ++ lng) = true).
  { unfold quotable in *. rewrite !has_char_app, !negb_orb.
    repeat (apply andb_true_intro; split); auto. }
  assert (E : lat ++ String "," (String " " (lng ++ String "034" s))
              = (lat ++ ", " ++ lng) ++ String "034" s).
  { rewrite !append_assoc. reflexivity. }
  unfold csvRow, DQ. fold lat lng. rewrite !append_assoc. simpl. rewrite E.
  rewrite (read_bare_comma _ H). simpl (EmptyString ++ _).
  rewrite read_quoted_field, read_quote_comma by assumption.
  rewrite read_bare_comma by assumption. simpl (EmptyString ++ _).
  rewrite read_bare_comma by assumption. simpl (EmptyString ++ _).
  rewrite read_quoted_field, read_quote_comma by assumption.
  rewrite read_quoted_field, read_quote_comma by assumption.
  rewrite read_quoted_field by assumption. reflexivity.
Qed.

Lemma concat_rows (h : string) (data : list AttendanceRecord.t) :
  String.concat (String LF EmptyString) (h :: map csvRow data)
  = h ++ rows_text data.
Proof.
  revert h. induction data as [| d data IH]; intros h.
  - simpl. now rewrite append_nil_r.
  - cbn [map rows_text].
    change (String.concat (String LF EmptyString)
              (h :: csvRow d :: map csvRow data))
      with (h ++ String LF EmptyString
              ++ String.concat (String LF EmptyString)
                   (csvRow d :: map csvRow data)).
    rewrite IH. reflexivity.
Qed.

Lemma csvText_rows (data : list AttendanceRecord.t) :
  csvText data = JS.join "," headers ++ rows_text data.
Proof. apply concat_rows. Qed.

(** The rows after a field that ended with its closing quote. *)
Lemma read_rows (data : list AttendanceRecord.t) :
  forallb exportable data = true ->
  forall (f : string) (row : list string),
    Csv.read Csv.QuoteSeen false f row (rows_text data)
    = rev (f :: row) :: map fields data.
Proof.
  induction data as [| d data IH]; intros H f row.
  - reflexivity.
  - cbn [forallb] in H. apply andb_prop in H. destruct H as [Hd H].
    cbn [rows_text map]. cbn [Csv.read]. rewrite Ascii.eqb_refl.
    change (Ascii.eqb LF "034") with false.
    change (Ascii.eqb LF ",") with false. cbv iota.
    rewrite (read_row d _ Hd), (IH H). reflexivity.
Qed.

(** X18. The export of exportable records reads back as the header row and
    one row a record, with the values of the record: the quoting protects
    commas and line breaks in the free text, and fails only on a double
    quote. *)
Lemma export_reads_back_exportable (data : list AttendanceRecord.t) :
  forallb exportable data = true -> export_reads_back data.
Proof.
  intros H. unfold export_reads_back, Csv.parse. rewrite csvText_rows.
  destruct data as [| d data]; [reflexivity |].
  cbn [forallb] in H. apply andb_prop in H. destruct H as [Hd H].
  cbn [rows_text map]. simpl JS.join. simpl.
  rewrite (read_row d _ Hd), (read_rows data H). reflexivity.
Qed.

(* ================================================================== *)
(** * Further properties *)
(* ================================================================== *)

(** ** Logging in and out *)

Lemma getItem_removeItem (key : string) (s : sessionStorage.t) :
  sessionStorage.getItem key (sessionStorage.removeItem key s) = None.
Proof.
  unfold sessionStorage.getItem, sessionStorage.removeItem.
  induction s as [| [k v] s IH]; simpl; [reflexivity |].
  destruct (String.eqb k key) eqn:E; simpl; [exact IH |].
  now rewrite E.
Qed.

Lemma getItem_setItem (key value : string) (s : sessionStorage.t) :
  sessionStorage.getItem key (sessionStorage.setItem key value s)
  = Some value.
Proof.
  unfold sessionStorage.getItem, sessionStorage.setItem. simpl.
  now rewrite String.eqb_refl.
Qed.

Lemma Role_eqb_eq (a b : Role) : Role_eqb a b = true <-> a = b.
Proof. destruct a, b; simpl; split; congruence. Qed.

Lemma credentials_match_spec (role : Role) (nip password : string)
    (u : UserT.t) :
  credentials_match role nip password u = true
  <-> UserT.nip u = nip /\ UserT.password u = password /\ UserT.role u = role.
Proof.
  unfold credentials_match.
  rewrite !andb_true_iff, !String.eqb_eq, Role_eqb_eq. taut.
Qed.

(** What [handleLogin] does, by what [find] reaches in the list. *)
Lemma LoginPage_handleLogin_run (role : Role) (nip password : string)
    (t : Tab) :
  LoginPage_handleLogin role nip password t
  = match find (credentials_match role nip password)
               (st_users (world t)) with
    | Some u =>
        (inr tt,
         mkTab (set_st_currentUser (Some u) (world t))
               (if Role_eqb role member
                then Browser.with_storage
                       (sessionStorage.removeItem "token_ok") (browser t)
                else browser t))
    | None =>
        (inr tt,
         mkTab (set_st_error
                  "NIP atau Password salah (atau data belum termuat)."
                  (world t))
               (browser t))
    end.
Proof.
  unfold LoginPage_handleLogin, handleLogin. runT.
  fold (credentials_match role nip password).
  destruct (find _ (st_users (world t))) as [u |]; [| reflexivity].
  destruct (Role_eqb role member); reflexivity.
Qed.

(** X1. A login succeeds exactly when the list the page holds has a user
    with the identifier, the password and the role of the page that were
    entered. It then makes such a user the current user and shows no
    error; on the member page it also removes the unlock flag of the tab,
    on the admin page it leaves the browser state alone. Otherwise the
    current user stays, the browser state stays, and the error is the one
    message, whether the identifier, the password or the role is what did
    not match. Nothing is written to the store either way. *)
Theorem handleLogin_outcome (role : Role) (nip password : string) (t : Tab) :
  let t' := snd (LoginPage_handleLogin role nip password t) in
  fst (LoginPage_handleLogin role nip password t) = inr tt
  /\ db (world t') = db (world t)
  /\ ((exists u, In u (st_users (world t))
                 /\ UserT.nip u = nip /\ UserT.password u = password
                 /\ UserT.role u = role)
      -> exists u, In u (st_users (world t))
                   /\ UserT.nip u = nip /\ UserT.password u = password
                   /\ UserT.role u = role
                   /\ st_currentUser (world t') = Some u
                   /\ st_error (world t') = st_error (world t)
                   /\ (role = member -> unlocked (browser t') = false)
                   /\ (role = admin -> browser t' = browser t))
  /\ ((forall u, In u (st_users (world t)) ->
                 ~ (UserT.nip u = nip /\ UserT.password u = password
                    /\ UserT.role u = role))
      -> st_currentUser (world t') = st_currentUser (world t)
         /\ browser t' = browser t
         /\ st_error (world t')
            = "NIP atau Password salah (atau data belum termuat).").
Proof.
  intros t'. subst t'. rewrite LoginPage_handleLogin_run.
  destruct (find _ (st_users (world t))) as [u |] eqn:F.
  - apply find_some in F. destruct F as [Hin Hm].
    apply credentials_match_spec in Hm. destruct Hm as [Hn [Hp Hr]].
    split; [reflexivity |]. split; [reflexivity |]. split.
    + intros _. exists u. simpl. repeat split; auto.
      * intros ->. simpl. unfold unlocked. simpl.
        now rewrite getItem_removeItem.
      * intros ->. reflexivity.
    + intros Hno. exfalso. apply (Hno u Hin). auto.
  - split; [reflexivity |]. split; [reflexivity |]. split.
    + intros [u [Hin Hm]]. exfalso.
      apply (find_none _ _ F) in Hin.
      apply credentials_match_spec in Hm. congruence.
    + intros _. simpl. auto.
Qed.

Lemma MemberDashboard_attend_run (t : Tab) :
  MemberDashboard_attend t
  = (inr tt,
     if unlocked (browser t) then t
     else mkTab (world t) (Browser.with_view menu (browser t))).
Proof.
  unfold MemberDashboard_attend, AttendanceForm_useEffect, unlocked. runT.
  destruct (sessionStorage.getItem "token_ok" (Browser.storage (browser t)))
    as [v |]; [| reflexivity].
  destruct (String.eqb v "1"); reflexivity.
Qed.

(** X2. A member who has just logged in is not let into the attendance
    form by a flag an earlier session left in the tab: when the form is
    mounted after the login it goes back to the menu. *)
Theorem member_login_locks_form (nip password : string) (t : Tab) :
  (exists u, In u (st_users (world t))
             /\ UserT.nip u = nip /\ UserT.password u = password
             /\ UserT.role u = member) ->
  exists t1 t2,
    LoginPage_handleLogin member nip password t = (inr tt, t1)
    /\ MemberDashboard_attend t1 = (inr tt, t2)
    /\ Browser.view (browser t2) = menu
    /\ unlocked (browser t2) = false.
Proof.
  intros [u [Hin Hm]]. rewrite LoginPage_handleLogin_run.
  destruct (find _ (st_users (world t))) as [u' |] eqn:F.
  - eexists. eexists. split; [reflexivity |].
    rewrite MemberDashboard_attend_run. simpl.
    unfold unlocked at 1. simpl. rewrite getItem_removeItem.
    split; [reflexivity |]. split; [reflexivity |].
    unfold unlocked. simpl. now rewrite getItem_removeItem.
  - exfalso. apply (find_none _ _ F) in Hin.
    assert (credentials_match member nip password u = true)
      by now apply credentials_match_spec.
    congruence.
Qed.

(** X3. A logout clears the current user, shows the landing page, removes
    the unlock flag and writes nothing to the store; an attendance form
    mounted afterwards goes back to the menu. *)
Theorem logout_locks_form (t : Tab) :
  exists t1 t2,
    handleLogout t = (inr tt, t1)
    /\ st_currentUser (world t1) = None
    /\ Browser.currentPage (browser t1) = None
    /\ db (world t1) = db (world t)
    /\ alerts (world t1) = alerts (world t)
    /\ MemberDashboard_attend t1 = (inr tt, t2)
    /\ Browser.view (browser t2) = menu
    /\ unlocked (browser t2) = false.
Proof.
  eexists. eexists. split; [reflexivity |]. simpl.
  repeat (split; [reflexivity |]).
  rewrite MemberDashboard_attend_run.
  unfold unlocked. simpl. rewrite getItem_removeItem.
  split; [reflexivity |]. simpl. split; [reflexivity |].
  now rewrite getItem_removeItem.
Qed.

(** ** The token of the day at the member's door *)

(** [getDailyToken] leaves no date with two rows. *)
Lemma getDailyToken_keeps_dates (now : Date) (w : World) :
  net_up w = true ->
  NoDup (map TokenRow.date (token_rows w)) ->
  NoDup (map TokenRow.date (token_rows (snd (getDailyToken now w)))).
Proof.
  intros Hup Hnd.
  pose proof (getDailyToken_run now w Hup Hnd) as Hrun. simpl in Hrun.
  unfold stored_code in Hrun.
  destruct (find _ (token_rows w)) as [r |] eqn:F; simpl in Hrun;
    rewrite Hrun; simpl; [assumption |].
  unfold token_rows. simpl. fold (token_rows w).
  rewrite map_app. simpl.
  apply NoDup_app; [assumption | repeat constructor; simpl; taut |].
  intros d Hd [<- | []]. apply in_map_iff in Hd.
  destruct Hd as [r [Hd Hin]].
  apply (find_none _ _ F) in Hin. rewrite Hd, String.eqb_refl in Hin.
  discriminate.
Qed.

(** What [getDailyToken] answers and stores, in a store that can be
    reached. *)
Lemma getDailyToken_code (now : Date) (w : World) :
  net_up w = true ->
  NoDup (map TokenRow.date (token_rows w)) ->
  let today := toLocaleDateString_idID now in
  fst (getDailyToken now w) = inr (code_of_day w today)
  /\ stored_code (snd (getDailyToken now w)) today
     = Some (code_of_day w today)
  /\ net_up (snd (getDailyToken now w)) = true
  /\ alerts (snd (getDailyToken now w)) = alerts w
  /\ st_error (snd (getDailyToken now w)) = st_error w.
Proof.
  intros Hup Hnd today.
  pose proof (getDailyToken_run now w Hup Hnd) as Hrun. simpl in Hrun.
  fold today in Hrun. unfold code_of_day.
  destruct (stored_code w today) as [c |] eqn:S; rewrite Hrun; simpl.
  - repeat split; auto.
  - repeat split; auto.
    unfold stored_code, token_rows in *. simpl.
    destruct (find _ (Store.daily_token (db w))) as [r |] eqn:F;
      [discriminate |].
    now rewrite (find_app_new _ _ _ F).
Qed.

(** What the token page does with the code [getDailyToken] answers. *)
Lemma MemberDashboard_token_run (now : Date) (t : Tab) (code : string)
    (w1 : World) :
  getDailyToken now (set_st_error EmptyString (world t)) = (inr code, w1) ->
  MemberDashboard_token now t
  = (inr tt,
     if String.eqb (Browser.input (browser t)) code
     then mkTab w1
            (Browser.with_view attend
               (Browser.with_storage (sessionStorage.setItem "token_ok" "1")
                  (browser t)))
     else mkTab (set_st_error "Token salah! Minta token hari ini ke Admin."
                              w1)
                (Browser.with_input EmptyString (browser t))).
Proof.
  intros Hrun.
  unfold MemberDashboard_token, TokenEntryPage_handleSubmit,
    handleTokenSuccess. runT. simpl. rewrite Hrun. simpl.
  destruct (String.eqb (Browser.input (browser t)) code); reflexivity.
Qed.

(** X4. In a store that can be reached, the token page lets a member in
    exactly when the text entered is the code of the day: it then sets
    the unlock flag and shows the attendance form, which stays open when
    it is mounted. Any other text leaves the flag and the view as they
    were, empties the input and shows the wrong-token message. Either
    way the store holds the code of the day afterwards: the check itself
    creates it when the day had none. *)
Theorem token_unlocks_iff (now : Date) (t : Tab) :
  net_up (world t) = true ->
  NoDup (map TokenRow.date (token_rows (world t))) ->
  let today := toLocaleDateString_idID now in
  let code := code_of_day (world t) today in
  exists t',
    MemberDashboard_token now t = (inr tt, t')
    /\ stored_code (world t') today = Some code
    /\ (Browser.input (browser t) = code ->
        unlocked (browser t') = true
        /\ Browser.view (browser t') = attend
        /\ st_error (world t') = EmptyString
        /\ MemberDashboard_attend t' = (inr tt, t'))
    /\ (Browser.input (browser t) <> code ->
        browser t' = Browser.with_input EmptyString (browser t)
        /\ st_error (world t')
           = "Token salah! Minta token hari ini ke Admin.").
Proof.
  intros Hup Hnd today code.
  destruct (getDailyToken_code now (set_st_error EmptyString (world t))
              Hup Hnd) as [Hc [Hs [_ [_ He]]]].
  fold today in Hc, Hs.
  change (code_of_day (set_st_error EmptyString (world t)) today)
    with code in Hc, Hs.
  destruct (getDailyToken now (set_st_error EmptyString (world t)))
    as [r w1] eqn:Hrun.
  simpl in Hc, Hs, He. subst r.
  rewrite (MemberDashboard_token_run now t code w1 Hrun).
  destruct (String.eqb_spec (Browser.input (browser t)) code) as [E | E].
  - eexists. split; [reflexivity |]. split; [exact Hs |]. split.
    + intros _. simpl.
      assert (Hu : unlocked
                     (Browser.with_view attend
                        (Browser.with_storage
                           (sessionStorage.setItem "token_ok" "1")
                           (browser t))) = true) by reflexivity.
      split; [exact Hu |]. split; [reflexivity |]. split; [exact He |].
      rewrite MemberDashboard_attend_run. simpl browser. now rewrite Hu.
    + intros Hne. contradiction.
  - eexists. split; [reflexivity |]. split; [exact Hs |]. split.
    + intros He'. contradiction.
    + intros _. split; reflexivity.
Qed.

(** X5. The code the admin dashboard shows when it is mounted lets in a
    member who enters it the same day, on any tab that reads the same
    store. *)
Theorem admin_code_unlocks_member (D : string) (now1 now2 : Date)
    (ta tm : Tab) :
  net_up (world ta) = true ->
  NoDup (map TokenRow.date (token_rows (world ta))) ->
  toLocaleDateString_idID now1 = D ->
  toLocaleDateString_idID now2 = D ->
  exists ta',
    AdminDashboard_useEffect now1 ta = (inr tt, ta')
    /\ stored_code (world ta') D = Some (Browser.dailyToken (browser ta'))
    /\ (net_up (world tm) = true ->
        db (world tm) = db (world ta') ->
        Browser.input (browser tm) = Browser.dailyToken (browser ta') ->
        exists tm',
          MemberDashboard_token now2 tm = (inr tt, tm')
          /\ unlocked (browser tm') = true
          /\ Browser.view (browser tm') = attend).
Proof.
  intros Hup Hnd E1 E2.
  destruct (getDailyToken_code now1 (world ta) Hup Hnd) as [Hc [Hs _]].
  rewrite E1 in Hc, Hs.
  pose proof (getDailyToken_keeps_dates now1 (world ta) Hup Hnd) as Hnd1.
  unfold AdminDashboard_useEffect. runT.
  destruct (getDailyToken now1 (world ta)) as [r w1] eqn:Hrun.
  simpl in Hc, Hs, Hnd1. subst r.
  eexists. split; [reflexivity |]. simpl. split; [exact Hs |].
  intros Hupm Hdb Hin.
  assert (Hndm : NoDup (map TokenRow.date
                          (token_rows
                             (set_st_error EmptyString (world tm))))).
  { unfold token_rows in *. simpl. now rewrite Hdb. }
  destruct (getDailyToken_code now2 (set_st_error EmptyString (world tm))
              Hupm Hndm) as [Hcm _].
  rewrite E2 in Hcm.
  assert (Hcode : code_of_day (set_st_error EmptyString (world tm)) D
                  = code_of_day (world ta) D).
  { unfold code_of_day at 1, stored_code, token_rows. simpl. rewrite Hdb.
    unfold stored_code, token_rows in Hs. now rewrite Hs. }
  rewrite Hcode in Hcm.
  destruct (getDailyToken now2 (set_st_error EmptyString (world tm)))
    as [r2 w2] eqn:Hrun2.
  simpl in Hcm. subst r2.
  rewrite (MemberDashboard_token_run now2 tm _ w2 Hrun2).
  rewrite Hin. simpl. rewrite String.eqb_refl.
  eexists. split; [reflexivity |]. split; reflexivity.
Qed.

(** ** The store out of reach *)

Lemma getDailyToken_offline_run (now : Date) (w : World) :
  net_up w = false ->
  getDailyToken now w
  = (inr (JS.intToString (JS.floor (1000 + rand w (rand_pos w) * 9000)%Q)),
     set_rand_pos (S (rand_pos w)) w).
Proof.
  intros Hup. unfold getDailyToken. run. rewrite Hup. simpl.
  rewrite Hup. reflexivity.
Qed.

(** X6. When the store cannot be reached [getDailyToken] does not fail:
    it answers with a four-digit code drawn from [Math.random] and stores
    nothing, so the next call draws another. The token page then lets a
    member in exactly when the text entered is the code just drawn, and
    shows the wrong-token message otherwise, never the message about the
    connection. *)
Theorem getDailyToken_offline (now : Date) (t : Tab) :
  net_up (world t) = false ->
  rand_ok (world t) ->
  let w := world t in
  let code :=
    JS.intToString (JS.floor (1000 + rand w (rand_pos w) * 9000)%Q) in
  getDailyToken now w = (inr code, set_rand_pos (S (rand_pos w)) w)
  /\ FourDigitCode code
  /\ fst (getDailyToken now (snd (getDailyToken now w)))
     = inr (JS.intToString
              (JS.floor (1000 + rand w (S (rand_pos w)) * 9000)%Q))
  /\ exists t',
       MemberDashboard_token now t = (inr tt, t')
       /\ db (world t') = db w
       /\ (Browser.input (browser t) = code ->
           unlocked (browser t') = true
           /\ Browser.view (browser t') = attend)
       /\ (Browser.input (browser t) <> code ->
           browser t' = Browser.with_input EmptyString (browser t)
           /\ st_error (world t')
              = "Token salah! Minta token hari ini ke Admin.").
Proof.
  intros Hup Hr w code.
  pose proof (getDailyToken_offline_run now w Hup) as Hrun. fold code in Hrun.
  split; [exact Hrun |].
  split.
  { apply four_digits. destruct (Hr (rand_pos w)).
    now apply floor_code_range. }
  split.
  { rewrite Hrun. simpl snd.
    rewrite getDailyToken_offline_run by exact Hup. reflexivity. }
  assert (Hrun' : getDailyToken now (set_st_error EmptyString w)
                  = (inr code,
                     set_rand_pos (S (rand_pos w))
                       (set_st_error EmptyString w))).
  { now rewrite getDailyToken_offline_run by exact Hup. }
  rewrite (MemberDashboard_token_run now t code _ Hrun').
  destruct (String.eqb_spec (Browser.input (browser t)) code) as [E | E].
  - eexists. split; [reflexivity |]. split; [reflexivity |]. split.
    + intros _. split; reflexivity.
    + intros Hne. contradiction.
  - eexists. split; [reflexivity |]. split; [reflexivity |]. split.
    + intros He. contradiction.
    + intros _. split; reflexivity.
Qed.

(** X7. A refresh that cannot reach the store shows no alert and leaves
    the page with empty lists; a login attempted then fails whatever is
    entered, with the message of a wrong identifier or password. *)
Theorem offline_refresh_blocks_login (role : Role) (nip password : string)
    (t : Tab) :
  net_up (world t) = false ->
  exists t1 t2,
    lift fetchData t = (inr tt, t1)
    /\ st_users (world t1) = []
    /\ st_attendances (world t1) = []
    /\ alerts (world t1) = alerts (world t)
    /\ db (world t1) = db (world t)
    /\ LoginPage_handleLogin role nip password t1 = (inr tt, t2)
    /\ st_currentUser (world t2) = st_currentUser (world t)
    /\ st_error (world t2)
       = "NIP atau Password salah (atau data belum termuat).".
Proof.
  intros Hup. unfold lift. rewrite fetchData_run, Hup.
  set (t1 := mkTab (set_st_attendances [] (set_st_users [] (world t)))
                   (browser t)).
  exists t1. rewrite (LoginPage_handleLogin_run role nip password t1).
  eexists. repeat (split; [reflexivity |]). reflexivity.
Qed.

(** ** Changing a password, and logging in with it *)

Lemma stored_password_set (nip newPass : string) (us : list UserT.t) :
  option_map UserT.password
    (find (fun u => String.eqb (UserT.nip u) nip) (set_password nip newPass us))
  = option_map (fun _ => newPass)
      (find (fun u => String.eqb (UserT.nip u) nip) us).
Proof.
  unfold set_password. induction us as [| a us IH]; simpl; [reflexivity |].
  destruct (String.eqb (UserT.nip a) nip) eqn:E; simpl; rewrite E;
    [reflexivity | exact IH].
Qed.

Lemma set_password_others (nip newPass : string) (us : list UserT.t)
    (u : UserT.t) :
  In u us -> UserT.nip u <> nip -> In u (set_password nip newPass us).
Proof.
  intros Hin Hne. unfold set_password. apply in_map_iff. exists u.
  split; [| exact Hin].
  destruct (String.eqb_spec (UserT.nip u) nip); [contradiction | reflexivity].
Qed.

(** What the password page does once its four checks have passed. *)
Lemma Dashboard_changePassword_run (user : UserT.t) (newPass : string)
    (w : World) :
  UserT.password user <> EmptyString -> newPass <> EmptyString ->
  4 <= String.length newPass ->
  Dashboard_changePassword user (UserT.password user) newPass newPass w
  = if net_up w then
      let w1 :=
        set_st_currentUser
          (Some (UserT.Build (UserT.nip user) (UserT.name user) newPass
                             (UserT.role user)))
          (add_alert "Password berhasil diubah!"
             (set_db (Store.with_users (set_password (UserT.nip user) newPass))
                     (set_st_error EmptyString w))) in
      (inr tt,
       set_st_attendances (listed w1)
         (set_st_users (Store.users (db w1)) w1))
    else
      (inr tt,
       set_st_error ("Gagal mengubah password: " ++ supabase.unreachable) w).
Proof.
  intros Ho Hn Hl.
  unfold Dashboard_changePassword, ChangePassword_handleSubmit,
    ChangePassword_onSuccess, updateUserPassword.
  rewrite (falsy_nonempty _ Ho), (falsy_nonempty _ Hn), !String.eqb_refl.
  destruct (Nat.ltb_spec (String.length newPass) 4) as [Hlt | _]; [lia |].
  simpl orb. simpl negb. cbv iota.
  unfold bind at 1. unfold setError at 1, modify at 1.
  unfold tryCatch, bind at 1. unfold bind at 1.
  unfold supabase.users_update_password, supabase.call. run.
  change (net_up (set_st_error EmptyString w)) with (net_up w).
  destruct (net_up w) eqn:Hup; [| reflexivity].
  cbv beta iota. rewrite fetchData_run. simpl. rewrite Hup. reflexivity.
Qed.

(** X8. A password change whose checks pass, in a store that can be
    reached, sets the password of the rows of that identifier and leaves
    every other user, the check-ins and the tokens as they were; it
    shows the success alert, clears the error, gives the current user the
    new password and reloads the lists. It does not look whether the
    account still exists: for an identifier the store no longer has,
    nothing is written and success is reported all the same. *)
Theorem changePassword_success (user : UserT.t) (newPass : string)
    (w : World) :
  UserT.password user <> EmptyString -> newPass <> EmptyString ->
  4 <= String.length newPass ->
  net_up w = true ->
  exists w',
    Dashboard_changePassword user (UserT.password user) newPass newPass w
    = (inr tt, w')
    /\ Store.users (db w')
       = set_password (UserT.nip user) newPass (Store.users (db w))
    /\ stored_password w' (UserT.nip user)
       = option_map (fun _ => newPass) (stored_password w (UserT.nip user))
    /\ (forall u, In u (Store.users (db w)) ->
                  UserT.nip u <> UserT.nip user ->
                  In u (Store.users (db w')))
    /\ map UserT.nip (Store.users (db w'))
       = map UserT.nip (Store.users (db w))
    /\ Store.attendances (db w') = Store.attendances (db w)
    /\ Store.daily_token (db w') = Store.daily_token (db w)
    /\ alerts w' = (alerts w ++ ["Password berhasil diubah!"])%list
    /\ st_error w' = EmptyString
    /\ st_currentUser w'
       = Some (UserT.Build (UserT.nip user) (UserT.name user) newPass
                           (UserT.role user))
    /\ st_users w' = Store.users (db w')
    /\ (stored_password w (UserT.nip user) = None -> db w' = db w).
Proof.
  intros Ho Hn Hl Hup.
  rewrite (Dashboard_changePassword_run user newPass w Ho Hn Hl), Hup.
  eexists. split; [reflexivity |]. simpl.
  split; [reflexivity |].
  split.
  { unfold stored_password. simpl. rewrite stored_password_set.
    now destruct (find _ (Store.users (db w))). }
  split; [intros u Hin Hne; now apply set_password_others |].
  split.
  { unfold set_password. rewrite map_map. apply map_ext. intros u.
    now destruct (String.eqb (UserT.nip u) (UserT.nip user)). }
  do 6 (split; [reflexivity |]).
  intros Hnone. unfold stored_password in Hnone.
  assert (E : set_password (UserT.nip user) newPass (Store.users (db w))
              = Store.users (db w)).
  { unfold set_password. rewrite <- (map_id (Store.users (db w))) at 2.
    apply map_ext_in. intros u Hin.
    destruct (String.eqb (UserT.nip u) (UserT.nip user)) eqn:E;
      [| reflexivity].
    destruct (find _ (Store.users (db w))) as [x |] eqn:F;
      [discriminate |].
    apply (find_none _ _ F) in Hin. congruence. }
  unfold Store.with_users. simpl. rewrite E. now destruct (db w).
Qed.

(** X10. The same change when the store cannot be reached: the page
    shows that the change failed, with the message of the store, and
    nothing else moves: no alert, the current user and the lists as they
    were. *)
Theorem changePassword_offline (user : UserT.t) (newPass : string)
    (w : World) :
  UserT.password user <> EmptyString -> newPass <> EmptyString ->
  4 <= String.length newPass ->
  net_up w = false ->
  exists msg,
    Dashboard_changePassword user (UserT.password user) newPass newPass w
    = (inr tt, set_st_error ("Gagal mengubah password: " ++ msg) w)
    /\ msg <> EmptyString.
Proof.
  intros Ho Hn Hl Hup.
  rewrite (Dashboard_changePassword_run user newPass w Ho Hn Hl), Hup.
  exists supabase.unreachable. split; [reflexivity | discriminate].
Qed.




(** ** Adding and deleting users *)

Lemma UserManagementView_handleAdd_run (nip name : string) (role : Role)
    (t : Tab) :
  nip <> EmptyString -> name <> EmptyString ->
  let w := world t in
  let password := password_at (rand w) (rand_pos w) in
  let w1 := set_rand_pos (rand_pos w + 6) w in
  UserManagementView_handleAdd nip name role t
  = if net_up w && negb (Store.has_nip nip (db w)) then
      let w2 :=
        add_alert "User berhasil ditambah!"
          (set_db (Store.with_users
                     (fun us =>
                        (us ++ [UserT.Build nip name password role])%list))
                  w1) in
      (inr tt,
       mkTab (set_st_attendances (listed w2)
                (set_st_users (Store.users (db w2)) w2))
             (Browser.with_addMode false
                (Browser.with_genPass password (browser t))))
    else
      (inr tt,
       mkTab (add_alert "Gagal tambah user (mungkin NIP duplikat)." w1)
             (browser t)).
Proof.
  intros Hn Hm. cbv zeta.
  unfold UserManagementView_handleAdd, handleAdd.
  rewrite (falsy_nonempty _ Hn), (falsy_nonempty _ Hm). cbn [orb].
  unfold tryCatchT, bindT at 1, lift at 1. rewrite generatePassword_run.
  unfold bindT at 1, lift at 1. rewrite addUser_run. cbn [world browser].
  change (net_up (set_rand_pos (rand_pos (world t) + 6) (world t)))
    with (net_up (world t)).
  change (db (set_rand_pos (rand_pos (world t) + 6) (world t)))
    with (db (world t)).
  cbn [UserT.nip].
  destruct (net_up (world t)) eqn:Hup; [| reflexivity].
  destruct (Store.has_nip nip (db (world t))); [reflexivity |].
  simpl andb. cbv iota. runT. cbn [world browser].
  rewrite fetchData_run. simpl. rewrite Hup. reflexivity.
Qed.

(** X11. Adding a user. With an empty identifier or name the page only
    shows an alert: no random number is drawn and nothing is stored.
    Otherwise six random numbers are drawn for the password (six
    characters, lower-case letters and digits, when the random numbers lie
    in [0, 1)), and then: when the store can be reached and has no user of
    that identifier, the user is appended with this password, the page
    shows this very password, leaves the adding mode, shows the success
    alert and reloads the lists; when the store cannot be reached or has a
    user of that identifier, nothing is stored, the page keeps its state
    and the failure alert is shown. *)
Theorem handleAdd_outcome (nip name : string) (role : Role) (t : Tab) :
  let w := world t in
  let password := password_at (rand w) (rand_pos w) in
  (nip = EmptyString \/ name = EmptyString ->
   UserManagementView_handleAdd nip name role t
   = (inr tt, mkTab (add_alert "Isi NIP dan Nama!" w) (browser t)))
  /\ (nip <> EmptyString -> name <> EmptyString ->
      exists t',
        UserManagementView_handleAdd nip name role t = (inr tt, t')
        /\ rand_pos (world t') = rand_pos w + 6
        /\ (rand_ok w -> PasswordOk password)
        /\ Store.attendances (db (world t')) = Store.attendances (db w)
        /\ (net_up w = true -> Store.has_nip nip (db w) = false ->
            Store.users (db (world t'))
            = (Store.users (db w)
               ++ [UserT.Build nip name password role])%list
            /\ stored_password (world t') nip = Some password
            /\ Browser.genPass (browser t') = password
            /\ Browser.addMode (browser t') = false
            /\ st_users (world t') = Store.users (db (world t'))
            /\ alerts (world t')
               = (alerts w ++ ["User berhasil ditambah!"])%list)
        /\ (net_up w = false \/ Store.has_nip nip (db w) = true ->
            db (world t') = db w
            /\ browser t' = browser t
            /\ st_users (world t') = st_users w
            /\ alerts (world t')
               = (alerts w
                  ++ ["Gagal tambah user (mungkin NIP duplikat)."])%list)).
Proof.
  cbv zeta. split.
  - intros H. unfold UserManagementView_handleAdd, handleAdd.
    assert (E : JS.falsy nip || JS.falsy name = true).
    { destruct H as [-> | ->]; [reflexivity |].
      change (JS.falsy EmptyString) with true. apply orb_true_r. }
    rewrite E. reflexivity.
  - intros Hn Hm.
    pose proof (UserManagementView_handleAdd_run nip name role t Hn Hm) as R.
    cbv zeta in R. rewrite R. clear R.
    destruct (net_up (world t)) eqn:Hup;
      [destruct (Store.has_nip nip (db (world t))) eqn:Hdup |];
      simpl andb; cbv iota; eexists; (split; [reflexivity |]);
      (split; [reflexivity |]);
      (split; [intros Hr; apply password_at_ok; exact Hr |]);
      (split; [reflexivity |]); split.
    + intros _ Hf. discriminate.
    + intros _. repeat split; reflexivity.
    + intros _ _. split; [reflexivity |]. split.
      * unfold stored_password. cbn [world db set_st_attendances set_st_users
          add_alert set_db Store.with_users Store.users set_rand_pos].
        unfold Store.has_nip in Hdup.
        induction (Store.users (db (world t))) as [| a us IH].
        -- simpl. rewrite String.eqb_refl. reflexivity.
        -- simpl in Hdup |- *. apply orb_false_elim in Hdup.
           destruct Hdup as [Ha Hus]. rewrite Ha. now apply IH.
      * repeat split; reflexivity.
    + intros [Hf | Hf]; discriminate.
    + intros Hf. discriminate.
    + intros _. repeat split; reflexivity.
Qed.

Lemma find_added (role : Role) (nip name password : string)
    (us : list UserT.t) :
  existsb (fun u => String.eqb (UserT.nip u) nip) us = false ->
  find (credentials_match role nip password)
       (us ++ [UserT.Build nip name password role])
  = Some (UserT.Build nip name password role).
Proof.
  induction us as [| a us IH]; simpl; intros H.
  - unfold credentials_match. simpl. rewrite !String.eqb_refl.
    now rewrite (proj2 (Role_eqb_eq role role) eq_refl).
  - apply orb_false_elim in H. destruct H as [Ha Hus].
    unfold credentials_match at 1. rewrite Ha. simpl. now apply IH.
Qed.

(** X12. A user added by the page can log in right away, in the role
    given, with the password the page shows. *)
Theorem added_user_logs_in (nip name : string) (role : Role) (t : Tab) :
  nip <> EmptyString -> name <> EmptyString ->
  net_up (world t) = true -> Store.has_nip nip (db (world t)) = false ->
  exists t' t'',
    UserManagementView_handleAdd nip name role t = (inr tt, t')
    /\ LoginPage_handleLogin role nip (Browser.genPass (browser t')) t'
       = (inr tt, t'')
    /\ st_currentUser (world t'')
       = Some (UserT.Build nip name (Browser.genPass (browser t')) role)
    /\ st_error (world t'') = st_error (world t).
Proof.
  intros Hn Hm Hup Hdup.
  pose proof (UserManagementView_handleAdd_run nip name role t Hn Hm) as R.
  cbv zeta in R. rewrite R, Hup, Hdup. clear R. simpl andb. cbv iota.
  eexists. eexists. split; [reflexivity |].
  rewrite LoginPage_handleLogin_run.
  cbn [world browser st_users set_st_attendances set_st_users add_alert
       set_db db Store.with_users Store.users set_rand_pos Browser.genPass
       Browser.with_addMode Browser.with_genPass].
  rewrite (find_added role nip name _ _ Hdup).
  split; [reflexivity |]. split; reflexivity.
Qed.



(** ** The lists of the pages after a check-in *)

Lemma filter_filter_comm {A : Type} (p q : A -> bool) (l : list A) :
  filter p (filter q l) = filter q (filter p l).
Proof.
  induction l as [| a l IH]; [reflexivity |]. simpl.
  destruct (q a) eqn:Q, (p a) eqn:P; simpl; rewrite ?Q, ?P, IH; reflexivity.
Qed.

Lemma filter_idem {A : Type} (p : A -> bool) (l : list A) :
  filter p (filter p l) = filter p l.
Proof.
  induction l as [| a l IH]; [reflexivity |]. simpl.
  destruct (p a) eqn:P; simpl; rewrite ?P, IH; reflexivity.
Qed.

(** A date already seen is a date filtered out of the result. *)
Lemma uniq_from_seen (d : string) (xs seen : list string) :
  uniq_from (d :: seen) xs
  = filter (fun x => negb (String.eqb x d)) (uniq_from seen xs).
Proof.
  revert d seen.
  induction xs as [| x xs IH]; intros d seen; [reflexivity |].
  cbn [uniq_from existsb].
  destruct (String.eqb x d) eqn:E; cbn [orb].
  - destruct (existsb (String.eqb x) seen); [apply IH |].
    cbn [filter]. rewrite E. cbn [negb].
    apply String.eqb_eq in E. subst x.
    rewrite (IH d seen). now rewrite filter_idem.
  - destruct (existsb (String.eqb x) seen); [apply IH |].
    cbn [filter]. rewrite E. cbn [negb]. f_equal.
    rewrite (IH x (d :: seen)), (IH d seen), (IH x seen).
    apply filter_filter_comm.
Qed.

Lemma uniqueDates_cons (a : AttendanceRecord.t)
    (l : list AttendanceRecord.t) :
  uniqueDates (a :: l)
  = AttendanceRecord.date a
    :: filter (fun d => negb (String.eqb d (AttendanceRecord.date a)))
              (uniqueDates l).
Proof.
  unfold uniqueDates. cbn [map uniq_from existsb]. f_equal.
  apply uniq_from_seen.
Qed.

(** X16. The dates of the daily report are listed in the order in
    which they first occur in the list of check-ins: the dates
    of a first part of the list, as that part alone would give them,
    followed by the dates of the rest that the first part does not
    have. *)
Theorem uniqueDates_first_seen (l1 l2 : list AttendanceRecord.t) :
  uniqueDates (l1 ++ l2)
  = (uniqueDates l1
     ++ filter (fun d => negb (existsb (String.eqb d)
                                       (map AttendanceRecord.date l1)))
               (uniqueDates l2))%list.
Proof.
  induction l1 as [| a l1 IH].
  - simpl. induction (uniqueDates l2) as [| d ds IHd]; [reflexivity |].
    simpl. now rewrite <- IHd.
  - change ((a :: l1) ++ l2)%list with (a :: (l1 ++ l2)%list).
    rewrite !uniqueDates_cons, IH. cbn [app]. f_equal.
    rewrite filter_app. f_equal. clear IH.
    generalize (uniqueDates l2). intros ds.
    induction ds as [| d ds IHd]; [reflexivity |].
    cbn [filter map existsb].
    destruct (String.eqb d (AttendanceRecord.date a)) eqn:E; cbn [orb negb].
    + destruct (negb (existsb (String.eqb d)
                              (map AttendanceRecord.date l1)));
        cbn [filter]; rewrite ?E; cbn [negb]; exact IHd.
    + destruct (negb (existsb (String.eqb d)
                              (map AttendanceRecord.date l1)));
        cbn [filter]; rewrite ?E; cbn [negb]; [f_equal |]; exact IHd.
Qed.

(** A complete check-in sent to a store that can be reached: the list
    of the page afterwards is the new record in front of the list of the
    store. *)
Lemma submit_reloads (user : UserT.t) (position desc photo : string)
    (coords : GeolocationCoordinates.t) (d1 d2 : Date) (w : World) :
  position <> EmptyString -> desc <> EmptyString -> photo <> EmptyString ->
  net_up w = true ->
  exists w',
    AttendanceForm_submit user position desc photo (Some coords) d1 d2 w
    = (inr tt, w')
    /\ st_attendances w'
       = record_of_row
           (Store.new_row (Store.next_id (db w))
              (NewAttendance.Build (UserT.nip user) (UserT.name user)
                 (toLocaleDateString_idID d1) (toLocaleTimeString_idID d2)
                 position photo desc
                 (GeolocationCoordinates.latitude coords)
                 (GeolocationCoordinates.longitude coords) []))
         :: listed w.
Proof.
  intros Hp Hd Hph Hup.
  pose proof (submit_complete_run user position desc photo (Some coords)
                d1 d2 w Hp Hd Hph) as R.
  cbv zeta iota beta in R. rewrite Hup in R. rewrite R. clear R.
  eexists. split; [reflexivity |].
  cbn [st_attendances set_st_attendances]. unfold listed at 1.
  cbn [db add_alert set_db Store.insert_attendance Store.attendances].
  rewrite rev_app_distr. reflexivity.
Qed.

(** X15. A complete check-in sent to a store that can be reached reloads
    the list of the page from the store, whatever the page showed
    before. The history page of the member then shows the new check-in
    first, followed by the check-ins of the member that the store
    already held, newest first; the history of every other member is
    what the store holds for that member; and the daily report starts
    with the date of the new check-in, followed by the dates of the
    stored check-ins without it. On a page whose list was the one of the
    store, this is the new check-in put in front of what the history
    showed before, the histories of the other members as they were, and
    the new date put in front of the dates shown before without it. *)
Theorem history_after_submit (user : UserT.t) (position desc photo : string)
    (coords : GeolocationCoordinates.t) (d1 d2 : Date) (w : World) :
  position <> EmptyString -> desc <> EmptyString -> photo <> EmptyString ->
  net_up w = true ->
  exists (w' : World) (record : AttendanceRecord.t),
    AttendanceForm_submit user position desc photo (Some coords) d1 d2 w
    = (inr tt, w')
    /\ AttendanceRecord.description record = desc
    /\ AttendanceRecord.id record = JS.intToString (Store.next_id (db w))
    /\ st_attendances w' = record :: listed w
    /\ myData (st_attendances w') (UserT.nip user)
       = record :: myData (listed w) (UserT.nip user)
    /\ (forall other, other <> UserT.nip user ->
          myData (st_attendances w') other = myData (listed w) other)
    /\ uniqueDates (st_attendances w')
       = toLocaleDateString_idID d1
         :: filter (fun d => negb (String.eqb d (toLocaleDateString_idID d1)))
                   (uniqueDates (listed w))
    /\ (in_sync w ->
        myData (st_attendances w') (UserT.nip user)
        = record :: myData (st_attendances w) (UserT.nip user)
        /\ (forall other, other <> UserT.nip user ->
              myData (st_attendances w') other
              = myData (st_attendances w) other)
        /\ uniqueDates (st_attendances w')
           = toLocaleDateString_idID d1
             :: filter (fun d => negb (String.eqb d
                                         (toLocaleDateString_idID d1)))
                       (uniqueDates (st_attendances w))).
Proof.
  intros Hp Hd Hph Hup.
  destruct (submit_reloads user position desc photo coords d1 d2 w
              Hp Hd Hph Hup) as [w' [Hrun Hlist]].
  exists w'.
  match type of Hlist with _ = (?r :: _)%list => exists r end.
  split; [exact Hrun |]. rewrite Hlist.
  split; [reflexivity |]. split; [reflexivity |]. split; [reflexivity |].
  assert (Hmine : forall l,
            myData (record_of_row
                      (Store.new_row (Store.next_id (db w))
                         (NewAttendance.Build (UserT.nip user)
                            (UserT.name user)
                            (toLocaleDateString_idID d1)
                            (toLocaleTimeString_idID d2)
                            position photo desc
                            (GeolocationCoordinates.latitude coords)
                            (GeolocationCoordinates.longitude coords) []))
                    :: l) (UserT.nip user)
            = record_of_row
                (Store.new_row (Store.next_id (db w))
                   (NewAttendance.Build (UserT.nip user) (UserT.name user)
                      (toLocaleDateString_idID d1)
                      (toLocaleTimeString_idID d2)
                      position photo desc
                      (GeolocationCoordinates.latitude coords)
                      (GeolocationCoordinates.longitude coords) []))
              :: myData l (UserT.nip user)).
  { intros l. unfold myData. cbn [filter].
    cbn [record_of_row Store.new_row AttendanceRecord.userId
         AttendanceRow.user_id NewAttendance.user_id].
    rewrite String.eqb_refl. reflexivity. }
  assert (Hother : forall l other, other <> UserT.nip user ->
            myData (record_of_row
                      (Store.new_row (Store.next_id (db w))
                         (NewAttendance.Build (UserT.nip user)
                            (UserT.name user)
                            (toLocaleDateString_idID d1)
                            (toLocaleTimeString_idID d2)
                            position photo desc
                            (GeolocationCoordinates.latitude coords)
                            (GeolocationCoordinates.longitude coords) []))
                    :: l) other
            = myData l other).
  { intros l other Hne. unfold myData. cbn [filter].
    cbn [record_of_row Store.new_row AttendanceRecord.userId
         AttendanceRow.user_id NewAttendance.user_id].
    destruct (String.eqb_spec (UserT.nip user) other); [congruence |].
    reflexivity. }
  split; [apply Hmine |]. split; [intros other Hne; now apply Hother |].
  split; [rewrite uniqueDates_cons; reflexivity |].
  intros Hsync. unfold in_sync in Hsync. rewrite Hsync.
  split; [apply Hmine |]. split; [intros other Hne; now apply Hother |].
  rewrite uniqueDates_cons. reflexivity.
Qed.

(** X14. What the check-in form does with the handler [onSuccess] it is
    given. The handler plays no part when a field is empty, when there
    is no position or when the store cannot be reached. Otherwise the
    check-in is stored and the success alert shown first, and the handler
    runs after that, once, inside the same [try]: a handler that throws
    makes the form show that sending failed although the check-in is
    stored. *)
Theorem submit_onSuccess (user : UserT.t) (position desc photo : string)
    (geo : option GeolocationCoordinates.t) (d1 d2 : Date) (w : World) :
  (position = EmptyString \/ desc = EmptyString \/ photo = EmptyString
   \/ geo = None \/ net_up w = false ->
   forall f g : M unit,
     submit user f position desc photo geo d1 d2 w
     = submit user g position desc photo geo d1 d2 w)
  /\ (position <> EmptyString -> desc <> EmptyString ->
      photo <> EmptyString -> geo <> None -> net_up w = true ->
      exists w1,
        submit user (ret tt) position desc photo geo d1 d2 w = (inr tt, w1)
        /\ Store.attendances (db w1) <> Store.attendances (db w)
        /\ alerts w1 = (alerts w ++ ["Absensi Berhasil Terkirim!"])%list
        /\ (forall f : M unit,
              submit user f position desc photo geo d1 d2 w
              = tryCatch f
                  (fun _ => alert "Gagal mengirim absensi. Cek koneksi.") w1)
        /\ (forall msg,
              exists w2,
                submit user (throw msg) position desc photo geo d1 d2 w
                = (inr tt, w2)
                /\ db w2 = db w1
                /\ alerts w2
                   = (alerts w1
                      ++ ["Gagal mengirim absensi. Cek koneksi."])%list)).
Proof.
  split.
  - intros H f g. unfold submit.
    destruct (JS.falsy position || JS.falsy desc || JS.falsy photo) eqn:E;
      [reflexivity |].
    apply orb_false_elim in E. destruct E as [E E3].
    apply orb_false_elim in E. destruct E as [E1 E2].
    destruct H as [-> | [-> | [-> | [-> | Hup]]]]; try discriminate;
      [reflexivity |].
    destruct geo as [coords |]; [| reflexivity].
    unfold addAttendance. run. rewrite Hup. reflexivity.
  - intros Hp Hd Hph Hgeo Hup. unfold submit.
    rewrite (falsy_nonempty _ Hp), (falsy_nonempty _ Hd),
      (falsy_nonempty _ Hph). cbn [orb].
    destruct geo as [coords |]; [| congruence].
    unfold addAttendance. run. rewrite Hup.
    eexists. split; [reflexivity |].
    split.
    { cbn [db add_alert set_db Store.insert_attendance Store.attendances].
      intros E. apply (f_equal (@List.length _)) in E.
      rewrite length_app in E. simpl in E. lia. }
    split; [reflexivity |].
    split; [reflexivity |].
    intros msg. eexists. split; [reflexivity |]. split; reflexivity.
Qed.

(** ** Comments sent from a page that is out of date *)

Lemma DailyReportView_handleAudit_run (adminUser : UserT.t)
    (recordId : string) (e : AuditEntry) (record : AttendanceRecord.t)
    (w : World) :
  find (fun a => String.eqb (AttendanceRecord.id a) recordId)
       (st_attendances w) = Some record ->
  DailyReportView_handleAudit adminUser recordId e w
  = if net_up w then
      let w1 :=
        add_alert "Komentar terkirim."
          (set_db
             (Store.with_attendances
                (map (fun r =>
                        if String.eqb (AttendanceRow.id r) recordId
                        then AttendanceRow.with_comments
                               (AttendanceRecord.comments record
                                ++ [comment_of adminUser e])%list r
                        else r)))
             w) in
      (inr tt,
       set_st_attendances (listed w1)
         (set_st_users (Store.users (db w1)) w1))
    else (inr tt, add_alert "Gagal mengirim komentar." w).
Proof.
  intros Hfind.
  unfold DailyReportView_handleAudit, handleAudit. unfold bind at 1, gets at 1.
  rewrite Hfind. cbv zeta. unfold addComment. run.
  destruct (net_up w) eqn:Hup; [| reflexivity].
  rewrite fetchData_run. simpl. rewrite Hup. reflexivity.
Qed.

(** X17. A comment is written from the copy of the check-in the page
    holds, not from the store. When the store can be reached, the
    comments stored for the check-in become the comments of that copy
    followed by the new one, so comments stored since the page was
    loaded are lost; for a check-in the store no longer has nothing is
    written, and the success alert is shown all the same. When the store
    cannot be reached, the failure alert is all that happens. *)
Theorem handleAudit_overwrites (adminUser : UserT.t) (recordId : string)
    (e : AuditEntry) (record : AttendanceRecord.t) (w : World) :
  find (fun a => String.eqb (AttendanceRecord.id a) recordId)
       (st_attendances w) = Some record ->
  (net_up w = false ->
   DailyReportView_handleAudit adminUser recordId e w
   = (inr tt, add_alert "Gagal mengirim komentar." w))
  /\ (net_up w = true ->
      exists w',
        DailyReportView_handleAudit adminUser recordId e w = (inr tt, w')
        /\ alerts w' = (alerts w ++ ["Komentar terkirim."])%list
        /\ in_sync w'
        /\ row_ids w' = row_ids w
        /\ (In recordId (row_ids w) ->
            stored_comments w' recordId
            = (AttendanceRecord.comments record
               ++ [comment_of adminUser e])%list)
        /\ (~ In recordId (row_ids w) -> db w' = db w)).
Proof.
  intros Hfind. split; intros Hup;
    rewrite (DailyReportView_handleAudit_run adminUser recordId e record w
               Hfind), Hup; [reflexivity |].
  eexists. split; [reflexivity |]. cbv zeta.
  split; [reflexivity |]. split; [reflexivity |].
  split; [apply update_comments_ids |]. split.
  - intros Hin. unfold stored_comments at 1.
    cbn [db set_st_attendances set_st_users add_alert set_db
         Store.with_attendances Store.attendances].
    rewrite update_comments_find.
    unfold row_ids in Hin. apply in_map_iff in Hin.
    destruct Hin as [r [Hid Hin]].
    destruct (find _ (Store.attendances (db w))) as [r' |] eqn:F.
    + reflexivity.
    + apply (find_none _ _ F) in Hin. rewrite Hid, String.eqb_refl in Hin.
      discriminate.
  - intros Hnot.
    cbn [db set_st_attendances set_st_users add_alert set_db].
    unfold Store.with_attendances.
    assert (E : map (fun r =>
                       if String.eqb (AttendanceRow.id r) recordId
                       then AttendanceRow.with_comments
                              (AttendanceRecord.comments record
                               ++ [comment_of adminUser e])%list r
                       else r) (Store.attendances (db w))
                = Store.attendances (db w)).
    { rewrite <- (map_id (Store.attendances (db w))) at 2.
      apply map_ext_in. intros r Hin.
      destruct (String.eqb_spec (AttendanceRow.id r) recordId) as [E |];
        [| reflexivity].
      exfalso. apply Hnot. unfold row_ids. rewrite <- E. now apply in_map. }
    rewrite E. now destruct (db w).
Qed.

End App.

(* ================================================================== *)
(** * The program run on the sample data *)
(* ================================================================== *)

Lemma sample_rnd_ok (w : World) : rand w = Sample.rnd -> rand_ok w.
Proof.
  intros E n. rewrite E. unfold Sample.rnd, Qle, Qlt. cbn [Qnum Qden].
  pose proof (Nat.mod_upper_bound (7 * n + 3) 36). lia.
Qed.

(** C1 on 10 May 2024: the first call, in the morning, finds no token and
    stores one; the call of the afternoon returns it. *)
Lemma getDailyToken_twice_witness :
  Runtime.toLocaleDateString_idID Sample.morning = "10/5/2024"
  /\ Runtime.toLocaleDateString_idID Sample.afternoon = "10/5/2024"
  /\ exists (code : string) (w1 : World),
       getDailyToken Runtime.toLocaleDateString_idID Sample.morning
                     Sample.world = (inr code, w1)
       /\ getDailyToken Runtime.toLocaleDateString_idID Sample.afternoon w1
          = (inr code, w1)
       /\ FourDigitCode code
       /\ stored_code w1 "10/5/2024" = Some code
       /\ match stored_code Sample.world "10/5/2024" with
          | Some c => c = code /\ db w1 = db Sample.world
          | None => token_rows w1
                    = (token_rows Sample.world
                       ++ [TokenRow.Build "10/5/2024" code])%list
          end.
Proof.
  split; [reflexivity |]. split; [reflexivity |].
  apply (getDailyToken_twice Runtime.toLocaleDateString_idID "10/5/2024"
           Sample.morning Sample.afternoon Sample.world).
  - reflexivity.
  - apply sample_rnd_ok. reflexivity.
  - split; simpl; constructor.
  - reflexivity.
  - reflexivity.
Defined.

(** C2 for two comments on the check-in of the sample dashboard. *)
Lemma appendComment_append_only_witness :
  exists w',
    audit_session Runtime.toLocaleString Sample.budi "1"
      [mkAuditEntry "Confirmed on-site" 1715358645000 Sample.afternoon;
       mkAuditEntry "Photo is blurred" 1715358646000 Sample.afternoon]
      Sample.dashboard = (inr tt, w')
    /\ List.length (stored_comments w' "1") = 2
    /\ map Comment.text (stored_comments w' "1")
       = ["Confirmed on-site"; "Photo is blurred"].
Proof.
  destruct (appendComment_append_only Runtime.toLocaleString Sample.budi "1"
              [mkAuditEntry "Confirmed on-site" 1715358645000 Sample.afternoon;
               mkAuditEntry "Photo is blurred" 1715358646000 Sample.afternoon]
              Sample.dashboard)
    as [w' [Hrun [Hcs [Hnew _]]]].
  - reflexivity.
  - exists (Sample.record "Patrol"). split; reflexivity.
  - simpl. repeat constructor; simpl; tauto.
  - simpl. now left.
  - exists w'. split; [exact Hrun |].
    destruct (Hnew eq_refl) as [E Hlen].
    split; [exact Hlen |]. rewrite E. reflexivity.
Defined.

(** C4 for the check-in of the scenario of the specification. *)
Lemma submit_then_list_witness :
  exists (w1 : World) (record : AttendanceRecord.t),
    AttendanceForm_submit Runtime.toLocaleDateString_idID
      Runtime.toLocaleTimeString_idID Sample.jane "Staff" "Patrol"
      "data:image/jpeg;base64,AAAA" (Some Sample.here)
      Sample.morning Sample.morning Sample.world = (inr tt, w1)
    /\ getAttendances w1 = (inr (record :: listed Sample.world), w1)
    /\ record = AttendanceRecord.Build "1" "M001" "Jane" "10/5/2024" "08.00.00"
                  "Staff" "data:image/jpeg;base64,AAAA" "Patrol"
                  (Location.Build (JS.Finite (-62 # 10))
                                  (JS.Finite (1068 # 10))) [] [].
Proof.
  destruct (submit_then_list Runtime.toLocaleDateString_idID
              Runtime.toLocaleTimeString_idID Sample.jane "Staff" "Patrol"
              "data:image/jpeg;base64,AAAA" Sample.here
              Sample.morning Sample.morning Sample.world)
    as [w1 [record [Hrun [Hlist _]]]].
  - discriminate.
  - discriminate.
  - discriminate.
  - reflexivity.
  - exists w1, record. split; [exact Hrun |]. split; [exact Hlist |].
    vm_compute in Hrun. injection Hrun as <-.
    vm_compute in Hlist. injection Hlist as <-. reflexivity.
Defined.

(** C5 for a wrong old password, and for a new password of three
    characters. *)
Lemma changePassword_rejections_witness :
  (exists msg,
     ChangePassword_handleSubmit Sample.jane
       (ChangePassword_onSuccess Sample.jane) "guess" "n3wpass" "n3wpass"
       Sample.world = (inr tt, set_st_error msg Sample.world)
     /\ msg = "Password lama salah.")
  /\ (exists msg,
        ChangePassword_handleSubmit Sample.jane
          (ChangePassword_onSuccess Sample.jane) "k3x9aq" "abc" "abc"
          Sample.world = (inr tt, set_st_error msg Sample.world)
        /\ msg = "Password minimal 4 karakter.").
Proof.
  split.
  - destruct (changePassword_rejections Sample.jane
                (ChangePassword_onSuccess Sample.jane)
                "guess" "n3wpass" "n3wpass" Sample.world)
      as [msg [Hrun [_ [_ [_ [Hold _]]]]]].
    + right. discriminate.
    + exists msg. split; [exact Hrun |].
      apply Hold; discriminate.
  - destruct (changePassword_rejections Sample.jane
                (ChangePassword_onSuccess Sample.jane)
                "k3x9aq" "abc" "abc" Sample.world)
      as [msg [Hrun [_ [_ [_ [_ Hshort]]]]]].
    + left. simpl. lia.
    + exists msg. split; [exact Hrun |].
      apply Hshort; [reflexivity | reflexivity | discriminate | discriminate].
Defined.

(** C10 for a file of five lines: the first holds a user like the others
    and is passed over, the third has no comma, the fifth repeats an
    identifier the store has. *)
Lemma handleImport_skips_header_witness :
  exists (added : list UserT.t) (w' : World),
    UserManagementView_handleImport Sample.csv_file Sample.world = (inr tt, w')
    /\ map UserT.nip added = ["M002"; "A002"]
    /\ alerts w' = ["Berhasil import 2 user."]
    /\ Forall (fun u => PasswordOk (UserT.password u)) added.
Proof.
  destruct (handleImport_skips_header Sample.csv_file Sample.world)
    as [added [w' [Hrun [Hus [Hal [Hall _]]]]]].
  - apply sample_rnd_ok. reflexivity.
  - exists added, w'. split; [exact Hrun |].
    vm_compute in Hrun. injection Hrun as <-.
    vm_compute in Hus. injection Hus as <-.
    split; [reflexivity |]. split; [reflexivity |].
    eapply Forall_impl; [| exact Hall]. intros u [_ Hp]. exact Hp.
Defined.

(** C3: with the three fields filled in and no position reading, the
    check-in is turned down with the message of the GPS failure and not
    as an incomplete submission, against the rule of the specification. *)
Lemma submit_no_reading_not_incomplete :
  ~ submit_rule_of_spec Runtime.toLocaleDateString_idID
      Runtime.toLocaleTimeString_idID Sample.jane "Staff" "Patrol"
      "data:image/jpeg;base64,AAAA" None
      Sample.morning Sample.morning Sample.world.
Proof.
  intros [_ H].
  destruct (H (or_intror (or_intror (or_intror eq_refl)))) as [Ha _].
  vm_compute in Ha. discriminate Ha.
Qed.

(** C2: two administrators have the report open, loaded when the
    check-in had no comment. Sinta sends a comment, then Budi sends one
    from his page, which still holds the check-in without comments. Both
    are told the comment was sent; the store ends with the comment of
    Budi alone, against the rule of the specification. *)
Lemma appendComment_stale_page_overwrites :
  ~ appendComment_append_only_of_spec Runtime.toLocaleString "1"
      [mkSending Scenario.sinta [Sample.record "Patrol"]
         (mkAuditEntry "Seen at the gate" 1715350000000 Sample.afternoon);
       mkSending Sample.budi [Sample.record "Patrol"]
         (mkAuditEntry "Checked" 1715358645000 Sample.afternoon)]
      Sample.dashboard
  /\ map Comment.text
       (stored_comments
          (snd (sent_in_turn Runtime.toLocaleString "1"
                  [mkSending Scenario.sinta [Sample.record "Patrol"]
                     (mkAuditEntry "Seen at the gate" 1715350000000
                                   Sample.afternoon);
                   mkSending Sample.budi [Sample.record "Patrol"]
                     (mkAuditEntry "Checked" 1715358645000
                                   Sample.afternoon)]
                  Sample.dashboard)) "1")
     = ["Checked"]
  /\ alerts
       (snd (sent_in_turn Runtime.toLocaleString "1"
               [mkSending Scenario.sinta [Sample.record "Patrol"]
                  (mkAuditEntry "Seen at the gate" 1715350000000
                                Sample.afternoon);
                mkSending Sample.budi [Sample.record "Patrol"]
                  (mkAuditEntry "Checked" 1715358645000
                                Sample.afternoon)]
               Sample.dashboard))
     = ["Komentar terkirim."; "Komentar terkirim."].
Proof.
  split; [| split; reflexivity].
  intros H. specialize (H eq_refl). vm_compute in H. discriminate H.
Qed.

(** C5: Jane's page holds the password she logged in with, and the
    store by now another one. The old password she types is the one of
    the page and not the stored one; the change is accepted and the
    stored password overwritten, against the rule of the specification. *)
Lemma changePassword_stale_copy_accepted :
  ~ changePassword_rule_of_spec Sample.jane "k3x9aq" "n3wpass" "n3wpass"
      Scenario.changed_elsewhere
  /\ stored_password Scenario.changed_elsewhere "M001" = Some "0ther-pw"
  /\ stored_password
       (snd (ChangePassword_handleSubmit Sample.jane
               (ChangePassword_onSuccess Sample.jane)
               "k3x9aq" "n3wpass" "n3wpass" Scenario.changed_elsewhere))
       "M001" = Some "n3wpass"
  /\ alerts
       (snd (ChangePassword_handleSubmit Sample.jane
               (ChangePassword_onSuccess Sample.jane)
               "k3x9aq" "n3wpass" "n3wpass" Scenario.changed_elsewhere))
     = ["Password berhasil diubah!"].
Proof.
  split; [| split; [| split]]; try reflexivity.
  intros H.
  destruct H as [He _]; [right; vm_compute; discriminate |].
  apply He. reflexivity.
Qed.

(** C6: for an identifier that is not in the list, and for an empty text,
    nothing is reported, against the rule of the specification. *)
Lemma appendComment_failures_unreported :
  ~ appendComment_rule_of_spec Runtime.toLocaleString
      [Sample.record "Patrol"] fetchData Sample.budi (Sample.record "Patrol")
      "99" "Confirmed on-site" 1715358645000 Sample.afternoon Sample.dashboard
  /\ ~ appendComment_rule_of_spec Runtime.toLocaleString
        [Sample.record "Patrol"] fetchData Sample.budi (Sample.record "Patrol")
        "1" EmptyString 1715358645000 Sample.afternoon Sample.dashboard.
Proof.
  split.
  - intros [H _]. destruct (H eq_refl) as [Hf _].
    unfold reports_failure in Hf. simpl in Hf. destruct Hf; congruence.
  - intros [_ H]. specialize (H eq_refl).
    unfold reports_failure in H. simpl in H. destruct H; congruence.
Qed.

(** C9: the header row and the file name of the export are not the ones
    of section 6 of the specification. *)
Lemma export_header_and_name_differ :
  ~ export_format_of_spec Runtime.numberToString "10/5/2024"
      [Sample.record "Patrol"]
  /\ csvText Runtime.numberToString [Sample.record "Patrol"]
     <> document Runtime.numberToString header_of_spec [Sample.record "Patrol"]
  /\ Link.download (handleDownloadCSV Runtime.numberToString "10/5/2024"
                                      [Sample.record "Patrol"])
     <> filename_of_spec "10/5/2024".
Proof.
  assert (H1 : csvText Runtime.numberToString [Sample.record "Patrol"]
               <> document Runtime.numberToString header_of_spec
                           [Sample.record "Patrol"]).
  { intros H. vm_compute in H. discriminate H. }
  split; [intros [H _]; exact (H1 H) |].
  split; [exact H1 |].
  intros H. vm_compute in H. discriminate H.
Qed.

(** C8. A description with a word in double quotes and a line break
    breaks the export: read back, the one record gives two rows, neither
    with the seven values of the record. A description with a comma and a
    line break and no quote reads back as it was written. *)
Theorem export_quote_breaks_rows :
  ~ export_reads_back Runtime.numberToString
      [Sample.record Sample.quoted_note]
  /\ Csv.parse (csvText Runtime.numberToString
                        [Sample.record Sample.quoted_note])
     = [ ["NIP"; "Nama"; "Tanggal"; "Jam"; "Jabatan"; "Keterangan"; "Lokasi"];
         ["M001"; "Jane"; "10/5/2024"; "08.00.00"; "Staff";
          "Patrol north gate" ++ DQ];
         ["all clear" ++ DQ; "-6.2, 106.8"] ]
  /\ export_reads_back Runtime.numberToString
       [Sample.record Sample.plain_note].
Proof.
  split; [| split].
  - unfold export_reads_back. intros H. vm_compute in H. discriminate H.
  - vm_compute. reflexivity.
  - unfold export_reads_back. vm_compute. reflexivity.
Qed.

(* ================================================================== *)
(** * The primitives and the scenario of the specification *)
(* ================================================================== *)

Example split_csv_line :
  JS.split "," "M001, Jane ,Admin" = ["M001"; " Jane "; "Admin"].
Proof. reflexivity. Qed.

Example split_no_text : JS.split "," EmptyString = [EmptyString].
Proof. reflexivity. Qed.

Example split_trailing : JS.split "," "a," = ["a"; EmptyString].
Proof. reflexivity. Qed.

Example trim_field : JS.trim "  Jane Doe  " = "Jane Doe".
Proof. reflexivity. Qed.

Example lower_role : JS.toLowerCase "Admin" = "admin".
Proof. reflexivity. Qed.

Example date_dashes : JS.replaceAll "/" "-" "10/5/2024" = "10-5-2024".
Proof. reflexivity. Qed.

Example code_string : JS.intToString 4821 = "4821".
Proof. reflexivity. Qed.

Example encode_space : JS.encodeURI "a, b#c" = "a,%20b#c".
Proof. reflexivity. Qed.

Example runtime_date :
  Runtime.toLocaleDateString_idID Sample.afternoon = "10/5/2024"
  /\ Runtime.toLocaleTimeString_idID Sample.afternoon = "16.30.45".
Proof. split; reflexivity. Qed.

(** The row of the scenario of section 8, under the header of the program. *)
Example scenario_export :
  csvText Runtime.numberToString [Sample.record "Patrol"]
  = "NIP,Nama,Tanggal,Jam,Jabatan,Keterangan,Lokasi" ++ String LF
    ("M001," ++ DQ ++ "Jane" ++ DQ ++ ",10/5/2024,08.00.00,"
     ++ DQ ++ "Staff" ++ DQ ++ "," ++ DQ ++ "Patrol" ++ DQ ++ ","
     ++ DQ ++ "-6.2, 106.8" ++ DQ)
  /\ Link.download (handleDownloadCSV Runtime.numberToString "10/5/2024"
                                      [Sample.record "Patrol"])
     = "Absensi_10-5-2024.csv".
Proof. split; reflexivity. Qed.

(** A text of spaces only is not empty: the button sends it and the
    comment is stored. *)
Example blank_comment_stored :
  exists w',
    commentButton_onClick Runtime.toLocaleString
      (st_attendances Sample.dashboard) fetchData Sample.budi
      (Sample.record "Patrol") "   " 1715358645000 Sample.afternoon
      Sample.dashboard = (inr tt, w')
    /\ map Comment.text (stored_comments w' "1") = ["   "]
    /\ alerts w' = ["Komentar terkirim."].
Proof.
  eexists. split; [vm_compute; reflexivity |].
  split; vm_compute; reflexivity.
Qed.

(** An import of a file of one line adds nobody, whatever the line. *)
Example import_one_line :
  exists w',
    UserManagementView_handleImport "M009,Rudi,member" Sample.world
    = (inr tt, w')
    /\ Store.users (db w') = Store.users (db Sample.world)
    /\ alerts w' = ["Berhasil import 0 user."].
Proof.
  eexists. split; [vm_compute; reflexivity |].
  split; vm_compute; reflexivity.
Qed.

(** * The further properties on the sample data *)

(** X2 for Jane, in a tab an earlier member left unlocked. *)
Lemma member_login_locks_form_witness :
  unlocked Scenario.unlocked = true
  /\ exists t1 t2,
       LoginPage_handleLogin member "M001" "k3x9aq"
         (mkTab Sample.world Scenario.unlocked) = (inr tt, t1)
       /\ MemberDashboard_attend t1 = (inr tt, t2)
       /\ Browser.view (browser t2) = menu
       /\ unlocked (browser t2) = false.
Proof.
  split; [reflexivity |].
  apply (member_login_locks_form "M001" "k3x9aq"
           (mkTab Sample.world Scenario.unlocked)).
  exists Sample.jane. simpl. repeat split. now left.
Defined.

(** X4 on the morning of 10 May 2024: the store holds no code yet, the
    code drawn is 1750 and the member has typed it. *)
Lemma token_unlocks_iff_witness :
  code_of_day Sample.world "10/5/2024" = "1750"
  /\ exists t',
       MemberDashboard_token Runtime.toLocaleDateString_idID Sample.morning
         (Scenario.typing "1750" Sample.world) = (inr tt, t')
       /\ stored_code (world t') "10/5/2024" = Some "1750"
       /\ unlocked (browser t') = true
       /\ Browser.view (browser t') = attend
       /\ MemberDashboard_attend t' = (inr tt, t').
Proof.
  split; [reflexivity |].
  destruct (token_unlocks_iff Runtime.toLocaleDateString_idID Sample.morning
              (Scenario.typing "1750" Sample.world))
    as [t' [H1 [H2 [H3 _]]]].
  - reflexivity.
  - simpl. constructor.
  - exists t'. split; [exact H1 |]. split; [exact H2 |].
    destruct (H3 eq_refl) as [U [V [_ A]]]. repeat split; assumption.
Defined.

(** X5: the administrator opens the dashboard in the morning, a member
    types the code shown in the afternoon. *)
Lemma admin_code_unlocks_member_witness :
  exists ta' tm',
    AdminDashboard_useEffect Runtime.toLocaleDateString_idID Sample.morning
      (Scenario.admin_tab Sample.world) = (inr tt, ta')
    /\ Browser.dailyToken (browser ta') = "1750"
    /\ MemberDashboard_token Runtime.toLocaleDateString_idID Sample.afternoon
         (Scenario.typing "1750" Scenario.after_admin) = (inr tt, tm')
    /\ unlocked (browser tm') = true
    /\ Browser.view (browser tm') = attend.
Proof.
  destruct (admin_code_unlocks_member Runtime.toLocaleDateString_idID
              "10/5/2024" Sample.morning Sample.afternoon
              (Scenario.admin_tab Sample.world)
              (Scenario.typing "1750" Scenario.after_admin))
    as [ta' [H1 [H2 H3]]].
  - reflexivity.
  - simpl. constructor.
  - reflexivity.
  - reflexivity.
  - assert (E : ta' = snd (AdminDashboard_useEffect
                             Runtime.toLocaleDateString_idID Sample.morning
                             (Scenario.admin_tab Sample.world)))
      by (rewrite H1; reflexivity).
    destruct H3 as [tm' [M1 [M2 M3]]].
    + reflexivity.
    + rewrite E. reflexivity.
    + rewrite E. reflexivity.
    + exists ta', tm'. split; [exact H1 |].
      split; [rewrite E; reflexivity |].
      split; [exact M1 |]. split; assumption.
Defined.

(** X6 with the sample store out of reach: two calls give 1750 and
    3500, nothing is stored, and the member who typed 1750 is let in. *)
Lemma getDailyToken_offline_witness :
  getDailyToken Runtime.toLocaleDateString_idID Sample.morning
                Scenario.offline
  = (inr "1750", set_rand_pos 1 Scenario.offline)
  /\ FourDigitCode "1750"
  /\ fst (getDailyToken Runtime.toLocaleDateString_idID Sample.morning
            (set_rand_pos 1 Scenario.offline)) = inr "3500"
  /\ exists t',
       MemberDashboard_token Runtime.toLocaleDateString_idID Sample.morning
         (Scenario.typing "1750" Scenario.offline) = (inr tt, t')
       /\ db (world t') = Sample.store
       /\ unlocked (browser t') = true
       /\ Browser.view (browser t') = attend.
Proof.
  destruct (getDailyToken_offline Runtime.toLocaleDateString_idID
              Sample.morning (Scenario.typing "1750" Scenario.offline))
    as [H1 [H2 [H3 [t' [H4 [H5 [H6 _]]]]]]].
  - reflexivity.
  - apply sample_rnd_ok. reflexivity.
  - split; [exact H1 |]. split; [exact H2 |]. split; [reflexivity |].
    exists t'. split; [exact H4 |]. split; [exact H5 |].
    exact (H6 eq_refl).
Defined.

(** X7 with the sample store out of reach: Jane cannot log in with her
    own password. *)
Lemma offline_refresh_blocks_login_witness :
  In Sample.jane (Store.users (db Scenario.offline))
  /\ exists t1 t2,
       lift fetchData (mkTab Scenario.offline Scenario.fresh) = (inr tt, t1)
       /\ st_users (world t1) = []
       /\ st_attendances (world t1) = []
       /\ alerts (world t1) = []
       /\ db (world t1) = Sample.store
       /\ LoginPage_handleLogin member "M001" "k3x9aq" t1 = (inr tt, t2)
       /\ st_currentUser (world t2) = None
       /\ st_error (world t2)
          = "NIP atau Password salah (atau data belum termuat).".
Proof.
  split; [now left |].
  exact (offline_refresh_blocks_login member "M001" "k3x9aq"
           (mkTab Scenario.offline Scenario.fresh) eq_refl).
Defined.

(** X8: Jane changes her password. *)
Lemma changePassword_success_witness :
  exists w',
    Dashboard_changePassword Sample.jane "k3x9aq" "n3wpass" "n3wpass"
      Sample.world = (inr tt, w')
    /\ Store.users (db w')
       = [UserT.Build "M001" "Jane" "n3wpass" member; Sample.budi]
    /\ stored_password w' "M001" = Some "n3wpass"
    /\ alerts w' = ["Password berhasil diubah!"]
    /\ st_currentUser w' = Some (UserT.Build "M001" "Jane" "n3wpass" member)
    /\ st_users w' = Store.users (db w').
Proof.
  destruct (changePassword_success Sample.jane "n3wpass" Sample.world)
    as [w' [H1 [H2 [H3 [_ [_ [_ [_ [H4 [_ [H5 [H6 _]]]]]]]]]]]].
  - discriminate.
  - discriminate.
  - simpl. lia.
  - reflexivity.
  - exists w'. split; [exact H1 |]. split; [exact H2 |].
    split; [exact H3 |]. split; [exact H4 |]. split; [exact H5 |].
    exact H6.
Defined.


(** X10: the change with the sample store out of reach. *)
Lemma changePassword_offline_witness :
  exists msg,
    Dashboard_changePassword Sample.jane "k3x9aq" "n3wpass" "n3wpass"
      Scenario.offline
    = (inr tt,
       set_st_error ("Gagal mengubah password: " ++ msg) Scenario.offline)
    /\ msg <> EmptyString.
Proof.
  apply (changePassword_offline Sample.jane "n3wpass" Scenario.offline).
  - discriminate.
  - discriminate.
  - simpl. lia.
  - reflexivity.
Defined.

(** X12: Rudi is added from the dashboard of Budi and logs in with the
    password the page shows. *)
Lemma added_user_logs_in_witness :
  exists t' t'',
    UserManagementView_handleAdd "M007" "Rudi" member
      (Scenario.admin_tab Sample.world) = (inr tt, t')
    /\ LoginPage_handleLogin member "M007" (Browser.genPass (browser t')) t'
       = (inr tt, t'')
    /\ st_currentUser (world t'')
       = Some (UserT.Build "M007" "Rudi" (Browser.genPass (browser t'))
                           member)
    /\ st_error (world t'') = EmptyString.
Proof.
  apply (added_user_logs_in "M007" "Rudi" member
           (Scenario.admin_tab Sample.world)).
  - discriminate.
  - discriminate.
  - reflexivity.
  - reflexivity.
Defined.

(** X15: Jane sends a second check-in from a page that had not loaded
    her first one. The history showed nothing before; afterwards it shows
    both check-ins, the new one first. *)
Lemma history_after_submit_witness :
  myData (st_attendances Scenario.stale_member) "M001" = []
  /\ myData (listed Scenario.stale_member) "M001" = [Sample.record "Patrol"]
  /\ exists w' record,
       AttendanceForm_submit Runtime.toLocaleDateString_idID
         Runtime.toLocaleTimeString_idID Sample.jane "Staff" "Second round"
         "data:image/jpeg;base64,BBBB" (Some Sample.here)
         Sample.afternoon Sample.afternoon Scenario.stale_member
       = (inr tt, w')
       /\ AttendanceRecord.description record = "Second round"
       /\ AttendanceRecord.id record = "2"
       /\ myData (st_attendances w') "M001"
          = [record; Sample.record "Patrol"]
       /\ myData (st_attendances w') "A001" = []
       /\ uniqueDates (st_attendances w') = ["10/5/2024"].
Proof.
  split; [reflexivity |]. split; [reflexivity |].
  destruct (history_after_submit Runtime.toLocaleDateString_idID
              Runtime.toLocaleTimeString_idID Sample.jane "Staff"
              "Second round" "data:image/jpeg;base64,BBBB" Sample.here
              Sample.afternoon Sample.afternoon Scenario.stale_member)
    as [w' [record [H1 [H2 [H3 [_ [H4 [H5 [H6 _]]]]]]]]].
  - discriminate.
  - discriminate.
  - discriminate.
  - reflexivity.
  - exists w', record. split; [exact H1 |]. split; [exact H2 |].
    split; [exact H3 |]. split; [exact H4 |].
    split; [rewrite H5; [reflexivity | discriminate] |].
    rewrite H6. reflexivity.
Defined.

(** X17: Budi comments from a page loaded before Sinta commented; the
    comment of Sinta is gone from the store. *)
Lemma handleAudit_overwrites_witness :
  stored_comments Scenario.stale_dashboard "1" = [Scenario.other_comment]
  /\ exists w',
       DailyReportView_handleAudit Runtime.toLocaleString Sample.budi "1"
         (mkAuditEntry "Checked" 1715358645000 Sample.afternoon)
         Scenario.stale_dashboard = (inr tt, w')
       /\ alerts w' = ["Komentar terkirim."]
       /\ stored_comments w' "1"
          = [Comment.Build "1715358645000" "A001" "Budi" "Checked"
                           "10/5/2024, 16.30.45"].
Proof.
  split; [reflexivity |].
  destruct (handleAudit_overwrites Runtime.toLocaleString Sample.budi "1"
              (mkAuditEntry "Checked" 1715358645000 Sample.afternoon)
              (Sample.record "Patrol") Scenario.stale_dashboard eq_refl)
    as [_ H].
  destruct (H eq_refl) as [w' [H1 [H2 [_ [_ [H3 _]]]]]].
  exists w'. split; [exact H1 |]. split; [exact H2 |].
  rewrite H3; [reflexivity | now left].
Defined.

(** X18: two check-ins, one with a comma and a line break in its
    description, read back from the export as they were. *)
Lemma export_reads_back_exportable_witness :
  export_reads_back Runtime.numberToString
    [Sample.record Sample.plain_note; Sample.record "Patrol"].
Proof.
  apply (export_reads_back_exportable Runtime.numberToString
           [Sample.record Sample.plain_note; Sample.record "Patrol"]).
  reflexivity.
Defined.
